(** * Flight-route engine of Little Navmap: the route controller

    A shallow embedding of [src/route/routecontroller.cpp]: the structural
    edits of the flight plan (insert, delete, move, reverse, insertion of a
    plan file), the acceptance rule of the route calculation and what an
    accepted calculation does to the plan, the snapshot based undo/redo
    cycle with its change mark, and saving.

    Conventions.
    - A C++ [int] is a [Z]. The index arithmetic of the controller
      ([index + 1], [size() - 1], ...) stays within a few units of a list
      size, far inside the 32 bit range, so no wrap-around is written out.
    - A C++ [float] is an IEEE 754 binary32 number, [spec_float] with
      precision 24 and maximal exponent 128.
    - A [QList<T>] is a [list T]; an access that Qt documents as requiring a
      valid index yields [None] when the index is not valid, and so does
      every function that runs into one.
    - [Route], [RouteLeg], [RouteFinder], the procedure and database queries
      are defined in other files.  Their operations are the fields
      of the interface [RouteOps]; what the proofs need from them is stated
      in the classes of laws further down. *)

From Stdlib Require Import ZArith SpecFloat.
From stdpp Require Import base tactics option list strings sorting relations.

Local Open Scope Z_scope.

(** ** Single precision numbers *)

Definition float32 : Type := spec_float.

Definition fdiv (x y : float32) : float32 := SFdiv 24 128 x y.
Definition flt (x y : float32) : bool := SFltb x y.
Definition fle (x y : float32) : bool := SFleb x y.

(** [Z2F m e] is the binary32 number nearest to [m * 2^e]. *)
Definition Z2F (m e : Z) : float32 := binary_normalize 24 128 m e false.

(** ** The part of [QList] the controller uses *)

Module QList.
Section Ops.
Context {A : Type}.

Definition size (l : list A) : Z := Z.of_nat (length l).

Definition isEmpty (l : list A) : bool :=
  match l with [] => true | _ :: _ => false end.

(** [at(i)] and [operator[](i)]: [i] must be a valid index. *)
Definition at_ (l : list A) (i : Z) : option A :=
  if decide (0 <= i < size l) then l !! Z.to_nat i else None.

(** [insert(i, x)]: "If i <= 0, the value is prepended to the list.
    If i >= size(), the value is appended to the list." *)
Definition insert (i : Z) (x : A) (l : list A) : list A :=
  if decide (i <= 0) then x :: l
  else if decide (size l <= i) then l ++ [x]
  else take (Z.to_nat i) l ++ x :: drop (Z.to_nat i) l.

(** [removeAt(i)]: the item at a valid index is removed; Qt 5 tests the
    index and leaves the list as it is when the index is not valid. *)
Definition removeAt (i : Z) (l : list A) : list A :=
  if decide (0 <= i < size l) then delete (Z.to_nat i) l else l.

(** [erase(begin() + first, begin() + last)]: the half open range must
    lie inside the list. *)
Definition erase (first last : Z) (l : list A) : option (list A) :=
  if decide (0 <= first <= last /\ last <= size l)
  then Some (take (Z.to_nat first) l ++ drop (Z.to_nat last) l)
  else None.

(** [insert(begin() + i, x)]: the iterator must point into the list or
    at its end. *)
Definition insertIt (i : Z) (x : A) (l : list A) : option (list A) :=
  if decide (0 <= i <= size l)
  then Some (take (Z.to_nat i) l ++ x :: drop (Z.to_nat i) l)
  else None.

(** [first()] and [last()]: the list must not be empty. *)
Definition first (l : list A) : option A := head l.
Definition last (l : list A) : option A := last l.
End Ops.
End QList.

(** ** Data model *)

(** [atools::geo::Pos], coordinates in degrees. *)
Record Pos := mkPos { lonX : float32; latY : float32 }.

Global Instance float32_eq_dec : EqDecision float32.
Proof. unfold float32. solve_decision. Defined.

Global Instance Pos_eq_dec : EqDecision Pos.
Proof. solve_decision. Defined.

(** [atools::fs::pln::FlightplanEntry].  [noSave] marks an entry that only
    mirrors a procedure leg and is never written to a file. *)
Record FlightplanEntry := mkEntry {
  icaoIdent : string;
  airway : string;
  noSave : bool;
  position : Pos
}.

Definition setAirway (name : string) (e : FlightplanEntry) : FlightplanEntry :=
  {| icaoIdent := icaoIdent e; airway := name; noSave := noSave e;
     position := position e |}.

Inductive RouteType := LOW_ALTITUDE | HIGH_ALTITUDE | VOR | DIRECT | UNKNOWN.
Inductive FlightplanType := IFR | VFR.

Global Instance RouteType_eq_dec : EqDecision RouteType.
Proof. solve_decision. Defined.
Inductive FileFormat := PLN_FSX | PLN_FS9 | PLN_FSC | FLP | FMS11.

(** [atools::fs::pln::Flightplan]: the entries and the header fields the
    controller writes.  Header positions, the parking name and the custom
    property table are left out: no function below reads them. *)
Record Flightplan := mkFlightplan {
  entries : list FlightplanEntry;
  routeType : RouteType;
  flightplanType : FlightplanType;
  cruisingAltitude : Z;
  fileFormat : FileFormat;
  departureIdent : string;
  destinationIdent : string;
  departureAiportName : string;
  destinationAiportName : string;
  description : string;
  title : string
}.

Definition setEntries (es : list FlightplanEntry) (fp : Flightplan) : Flightplan :=
  {| entries := es; routeType := routeType fp; flightplanType := flightplanType fp;
     cruisingAltitude := cruisingAltitude fp; fileFormat := fileFormat fp;
     departureIdent := departureIdent fp; destinationIdent := destinationIdent fp;
     departureAiportName := departureAiportName fp;
     destinationAiportName := destinationAiportName fp;
     description := description fp; title := title fp |}.

Definition setRouteType (t : RouteType) (fp : Flightplan) : Flightplan :=
  {| entries := entries fp; routeType := t; flightplanType := flightplanType fp;
     cruisingAltitude := cruisingAltitude fp; fileFormat := fileFormat fp;
     departureIdent := departureIdent fp; destinationIdent := destinationIdent fp;
     departureAiportName := departureAiportName fp;
     destinationAiportName := destinationAiportName fp;
     description := description fp; title := title fp |}.

Definition setFlightplanType (t : FlightplanType) (fp : Flightplan) : Flightplan :=
  {| entries := entries fp; routeType := routeType fp; flightplanType := t;
     cruisingAltitude := cruisingAltitude fp; fileFormat := fileFormat fp;
     departureIdent := departureIdent fp; destinationIdent := destinationIdent fp;
     departureAiportName := departureAiportName fp;
     destinationAiportName := destinationAiportName fp;
     description := description fp; title := title fp |}.

Definition setCruisingAltitude (alt : Z) (fp : Flightplan) : Flightplan :=
  {| entries := entries fp; routeType := routeType fp; flightplanType := flightplanType fp;
     cruisingAltitude := alt; fileFormat := fileFormat fp;
     departureIdent := departureIdent fp; destinationIdent := destinationIdent fp;
     departureAiportName := departureAiportName fp;
     destinationAiportName := destinationAiportName fp;
     description := description fp; title := title fp |}.

Definition setFileFormat (f : FileFormat) (fp : Flightplan) : Flightplan :=
  {| entries := entries fp; routeType := routeType fp; flightplanType := flightplanType fp;
     cruisingAltitude := cruisingAltitude fp; fileFormat := f;
     departureIdent := departureIdent fp; destinationIdent := destinationIdent fp;
     departureAiportName := departureAiportName fp;
     destinationAiportName := destinationAiportName fp;
     description := description fp; title := title fp |}.

(** [setDepartureAiportName] followed by [setDepartureIdent]. *)
Definition setDeparture (name ident : string) (fp : Flightplan) : Flightplan :=
  {| entries := entries fp; routeType := routeType fp; flightplanType := flightplanType fp;
     cruisingAltitude := cruisingAltitude fp; fileFormat := fileFormat fp;
     departureIdent := ident; destinationIdent := destinationIdent fp;
     departureAiportName := name;
     destinationAiportName := destinationAiportName fp;
     description := description fp; title := title fp |}.

(** [setDestinationAiportName] followed by [setDestinationIdent]. *)
Definition setDestination (name ident : string) (fp : Flightplan) : Flightplan :=
  {| entries := entries fp; routeType := routeType fp; flightplanType := flightplanType fp;
     cruisingAltitude := cruisingAltitude fp; fileFormat := fileFormat fp;
     departureIdent := departureIdent fp; destinationIdent := ident;
     departureAiportName := departureAiportName fp;
     destinationAiportName := name;
     description := description fp; title := title fp |}.

(** [setDescription] followed by [setTitle]. *)
Definition setDescriptionTitle (d t : string) (fp : Flightplan) : Flightplan :=
  {| entries := entries fp; routeType := routeType fp; flightplanType := flightplanType fp;
     cruisingAltitude := cruisingAltitude fp; fileFormat := fileFormat fp;
     departureIdent := departureIdent fp; destinationIdent := destinationIdent fp;
     departureAiportName := departureAiportName fp;
     destinationAiportName := destinationAiportName fp;
     description := d; title := t |}.

(** Modelled from the spec: [Flightplan::clear()] of the atools library,
    no entries and an empty header. *)
Definition clearFlightplan (fp : Flightplan) : Flightplan :=
  {| entries := []; routeType := routeType fp; flightplanType := flightplanType fp;
     cruisingAltitude := cruisingAltitude fp; fileFormat := fileFormat fp;
     departureIdent := EmptyString; destinationIdent := EmptyString;
     departureAiportName := EmptyString; destinationAiportName := EmptyString;
     description := EmptyString; title := EmptyString |}.

(** Modelled from the spec: [Flightplan::removeNoSaveEntries()] of the
    atools library, "procedure-only entries filtered out". *)
Definition removeNoSaveEntries (fp : Flightplan) : Flightplan :=
  setEntries (filter (fun e => noSave e = false) (entries fp)) fp.

(** Modelled from the spec: [Flightplan::reverse()] of the atools library,
    the entries in opposite order and "departure/destination roles"
    swapped in the header. *)
Definition reverseFlightplan (fp : Flightplan) : Flightplan :=
  {| entries := reverse (entries fp); routeType := routeType fp;
     flightplanType := flightplanType fp;
     cruisingAltitude := cruisingAltitude fp; fileFormat := fileFormat fp;
     departureIdent := destinationIdent fp; destinationIdent := departureIdent fp;
     departureAiportName := destinationAiportName fp;
     destinationAiportName := departureAiportName fp;
     description := description fp; title := title fp |}.

(** *** Procedure membership *)

(** Modelled from the spec: the flags of [proc::MapProcedureTypes]
    (common/proctypes.h is not among the sources).  One bit per membership
    tag "SID, SID_TRANSITION, STAR, STAR_TRANSITION, APPROACH, TRANSITION,
    MISSED"; the composite masks follow the comments at their uses in
    [affectedProcedures]. *)
Definition MapProcedureTypes : Type := Z.

Definition PROCEDURE_NONE : MapProcedureTypes := 0.
Definition PROCEDURE_APPROACH : MapProcedureTypes := 1.
Definition PROCEDURE_MISSED : MapProcedureTypes := 2.
Definition PROCEDURE_TRANSITION : MapProcedureTypes := 4.
Definition PROCEDURE_SID : MapProcedureTypes := 8.
Definition PROCEDURE_SID_TRANSITION : MapProcedureTypes := 16.
Definition PROCEDURE_STAR : MapProcedureTypes := 32.
Definition PROCEDURE_STAR_TRANSITION : MapProcedureTypes := 64.

Definition PROCEDURE_STAR_ALL : MapProcedureTypes :=
  Z.lor PROCEDURE_STAR PROCEDURE_STAR_TRANSITION.
Definition PROCEDURE_DEPARTURE : MapProcedureTypes :=
  Z.lor PROCEDURE_SID PROCEDURE_SID_TRANSITION.
Definition PROCEDURE_ARRIVAL : MapProcedureTypes :=
  Z.lor PROCEDURE_APPROACH (Z.lor PROCEDURE_MISSED PROCEDURE_TRANSITION).
Definition PROCEDURE_ARRIVAL_ALL : MapProcedureTypes :=
  Z.lor PROCEDURE_ARRIVAL PROCEDURE_STAR_ALL.
Definition PROCEDURE_ALL : MapProcedureTypes :=
  Z.lor PROCEDURE_ARRIVAL_ALL PROCEDURE_DEPARTURE.

(** [types & flag] used as a condition. *)
Definition testFlag (types flag : MapProcedureTypes) : bool :=
  negb (Z.land types flag =? 0).

(** [proc::MapProcedureLeg]: only the membership tag is read here. *)
Record MapProcedureLeg := mkProcLeg { mapType : MapProcedureTypes }.

Definition isSid (l : MapProcedureLeg) := testFlag (mapType l) PROCEDURE_SID.
Definition isSidTransition (l : MapProcedureLeg) :=
  testFlag (mapType l) PROCEDURE_SID_TRANSITION.
Definition isStar (l : MapProcedureLeg) := testFlag (mapType l) PROCEDURE_STAR.
Definition isStarTransition (l : MapProcedureLeg) :=
  testFlag (mapType l) PROCEDURE_STAR_TRANSITION.
Definition isTransition (l : MapProcedureLeg) :=
  testFlag (mapType l) PROCEDURE_TRANSITION.
Definition isApproach (l : MapProcedureLeg) := testFlag (mapType l) PROCEDURE_APPROACH.
Definition isMissed (l : MapProcedureLeg) := testFlag (mapType l) PROCEDURE_MISSED.

(** [proc::MapProcedureLegs]: one attached procedure. *)
Record MapProcedureLegs := mkProcLegs {
  approachLegs : list MapProcedureLeg;
  transitionLegs : list MapProcedureLeg;
  approachFixIdent : string
}.

(** *** Route legs and the route *)

Inductive MapObjectType :=
  AIRPORT | VORTYPE | NDB | WAYPOINT | USERPOINTROUTE | PROCEDURE | INVALID.

Global Instance MapObjectType_eq_dec : EqDecision MapObjectType.
Proof. solve_decision. Defined.

(** [map::MapAirport]: identifier and name. *)
Record MapAirport := mkAirport { airportIdent : string; airportName : string }.

(** [map::MapStart]: a runway, helipad or water start position. *)
Record MapStart := mkStart { startValid : bool; runwayName : string }.

(** [RouteLeg]: a flight plan entry bound to the navigation database. *)
Record RouteLeg := mkLeg {
  mapObjectType : MapObjectType;
  legAirport : MapAirport;
  legPosition : Pos;
  procedureLeg : MapProcedureLeg;
  departureStart : option MapStart
}.

Definition isAnyProcedure (l : RouteLeg) : bool :=
  negb (mapType (procedureLeg l) =? PROCEDURE_NONE).

(** [Route]: the list of legs it derives from, the flight plan it owns and
    the attached departure and STAR procedures. *)
Record Route := mkRoute {
  flightplan : Flightplan;
  legs : list RouteLeg;
  departureLegs : MapProcedureLegs;
  starLegs : MapProcedureLegs
}.

Definition setFlightplan (fp : Flightplan) (r : Route) : Route :=
  {| flightplan := fp; legs := legs r; departureLegs := departureLegs r;
     starLegs := starLegs r |}.

Definition setLegs (ls : list RouteLeg) (r : Route) : Route :=
  {| flightplan := flightplan r; legs := ls; departureLegs := departureLegs r;
     starLegs := starLegs r |}.

(** *** Undo stack *)

Inductive RouteCmdType := EDIT | DELETE | MOVE | ALTITUDE | REVERSE.

Global Instance RouteCmdType_eq_dec : EqDecision RouteCmdType.
Proof. solve_decision. Defined.

(** Modelled from the spec: [RouteCommand] (route/routecommand.cpp is not
    among the sources) "captures the full flight-plan value before and
    after a user-visible operation, a human-readable label, and a
    command-type tag used for merge eligibility". *)
Record RouteCommand := mkCommand {
  planBeforeUndo : Flightplan;
  planAfterUndo : Flightplan;
  cmdText : string;
  cmdType : RouteCmdType
}.

Definition setFlightplanAfter (fp : Flightplan) (c : RouteCommand) : RouteCommand :=
  {| planBeforeUndo := planBeforeUndo c; planAfterUndo := fp;
     cmdText := cmdText c; cmdType := cmdType c |}.

(** [QUndoStack]: the commands, oldest first, and the number of commands
    currently applied. *)
Record QUndoStack := mkStack { commands : list RouteCommand; stackIndex : nat }.

(** *** Controller state *)

Record RouteController := mkController {
  route : Route;
  undoStack : QUndoStack;
  undoIndex : Z;
  undoIndexClean : Z;
  routeFileFormat : FileFormat;
  (* value of the cruise altitude spin box and index of the plan type combo box *)
  spinBoxRouteAlt : Z;
  comboBoxRouteType : Z
}.

Definition setRoute (r : Route) (c : RouteController) : RouteController :=
  {| route := r; undoStack := undoStack c; undoIndex := undoIndex c;
     undoIndexClean := undoIndexClean c; routeFileFormat := routeFileFormat c;
     spinBoxRouteAlt := spinBoxRouteAlt c; comboBoxRouteType := comboBoxRouteType c |}.

Definition setUndo (s : QUndoStack) (i iclean : Z) (c : RouteController) : RouteController :=
  {| route := route c; undoStack := s; undoIndex := i;
     undoIndexClean := iclean; routeFileFormat := routeFileFormat c;
     spinBoxRouteAlt := spinBoxRouteAlt c; comboBoxRouteType := comboBoxRouteType c |}.

Definition setWidgets (alt type : Z) (c : RouteController) : RouteController :=
  {| route := route c; undoStack := undoStack c; undoIndex := undoIndex c;
     undoIndexClean := undoIndexClean c; routeFileFormat := routeFileFormat c;
     spinBoxRouteAlt := alt; comboBoxRouteType := type |}.

(** *** Route finder *)

(** [rf::RouteEntry]: a node of the found path and the airway leading to it. *)
Record RouteEntry := mkRouteEntry { refId : Z; refType : MapObjectType; airwayId : Z }.

(** [RouteFinder] as a function: given the two preference switches, the
    end points and the altitude, [calculateRoute] followed by [extractRoute]
    yields the path and its length in metres, or nothing. *)
Definition RouteFinder : Type :=
  bool -> bool -> Pos -> Pos -> Z -> option (list RouteEntry * float32).

(** ** The collaborators of the controller *)

Inductive LineStatus := LINE_INVALID | ALONG_TRACK | BEFORE_START | AFTER_END.

(** Operations of [Route], [RouteLeg], [FlightplanEntryBuilder], the
    database queries, the options, the unit conversion and the range of the
    altitude widget that the controller calls or reads.  Their code is not in routecontroller.cpp; every
    function below is parametric in them. *)
Class RouteOps := {
  (* Route *)
  getStartIndexAfterProcedure : Route -> Z;
  getDestinationIndexBeforeProcedure : Route -> Z;
  removeProcedureLegs : MapProcedureTypes -> Route -> Route;
  createRouteLegsFromFlightplan : Route -> Route;
  removeDuplicateRouteLegs : Route -> Route;
  updateAll : Route -> Route;
  updateAirwaysAndAltitude : bool -> bool -> Route -> Route;
  updateActiveLegAndPos : Route -> Route;
  updateLegAltitudes : Route -> Route;
  hasValidDeparture : Route -> bool;
  hasDepartureParking : Route -> bool;
  hasDepartureStart : Route -> bool;
  departureRunwayName : Route -> string;
  getNearestRouteLegResult : Pos -> bool -> Route -> Z * LineStatus;
  (* RouteLeg: the leg for the entry at an index of the plan; the index
     reaches it as the controller got it, and nothing in the controller
     tells what it does with an index outside the plan: no result where the
     call is outside what routeleg.cpp takes *)
  createFromDatabaseByEntry : Flightplan -> Z -> option RouteLeg -> option RouteLeg;
  (* ProcedureQuery::getLegsForFlightplanProperties, the three
     Route::set...ProcedureLegs and Route::updateProcedureLegs in a row *)
  loadProcedureLegs : bool -> Route -> Route;
  (* queries and builders *)
  getBestStartPositionForAirport : MapAirport -> string -> MapStart;
  buildFlightplanEntry : Z -> Pos -> MapObjectType -> Z -> FlightplanEntry;
  getAirwayById : Z -> string;
  distanceMeterTo : Pos -> Pos -> float32;
  (* atools::roundToInt(Unit::rev(altitude, Unit::altFeetF)) *)
  cruiseAltitudeFeet : Z -> Z;
  (* OptionData flags opts::ROUTE_PREFER_VOR and opts::ROUTE_PREFER_NDB *)
  routePreferVor : bool;
  routePreferNdb : bool;
  (* minimum and maximum of the cruise altitude spin box, set in
     mainwindow.ui *)
  spinBoxRouteAltMinimum : Z;
  spinBoxRouteAltMaximum : Z;
  (* constants of headers that are not among the sources *)
  INVALID_INDEX_VALUE : Z;
  ROUTE_UNDO_LIMIT : nat;
  (* RouteCommand::mergeWith accepts commands of this type *)
  mergeable : RouteCmdType -> bool
}.

(** Modelled from the spec: the constant [MAX_DISTANCE_DIRECT_RATIO] of
    routecontroller.h, "a fixed threshold (empirically 2.0)". *)
Definition MAX_DISTANCE_DIRECT_RATIO : float32 := S754_finite false 8388608 (-22).

(** [atools::geo::EMPTY_POS]. *)
Definition EMPTY_POS : Pos := mkPos (S754_zero false) (S754_zero false).

(** ** The controller *)

(** Calls that only repaint widgets, set the status bar, the window title
    or the cursor, stop a timer or emit a signal do not touch the state
    above and are left out of the translations.  Of the widgets the state
    holds the two that the flight plan is read from: the cruise altitude
    spin box and the plan type combo box. *)

Section Controller.
Context `{RouteOps}.

Definition onRoute (f : Route -> Route) (c : RouteController) : RouteController :=
  setRoute (f (route c)) c.

Definition onFlightplan (f : Flightplan -> Flightplan) (r : Route) : Route :=
  setFlightplan (f (flightplan r)) r.

Definition onEntries (f : list FlightplanEntry -> list FlightplanEntry)
    (r : Route) : Route :=
  onFlightplan (fun fp => setEntries (f (entries fp)) fp) r.

(** [Route::size()], [Route::isEmpty()] and [Route::at()] are those of
    the list of legs. *)
Definition routeSize (r : Route) : Z := QList.size (legs r).
Definition routeIsEmpty (r : Route) : bool := QList.isEmpty (legs r).
Definition routeAt (r : Route) (i : Z) : option RouteLeg := QList.at_ (legs r) i.

(** Modelled from the spec: [Route::getStartAfterProcedure()] and
    [Route::getDestinationBeforeProcedure()], the legs at the two
    boundary indexes of the free enroute span. *)
Definition getStartAfterProcedure (r : Route) : option RouteLeg :=
  routeAt r (getStartIndexAfterProcedure r).
Definition getDestinationBeforeProcedure (r : Route) : option RouteLeg :=
  routeAt r (getDestinationIndexBeforeProcedure r).

(** *** eraseAirway *)

Definition eraseAirwayEntries (row : Z) (es : list FlightplanEntry)
    : list FlightplanEntry :=
  if decide (0 <= row /\ row < QList.size es)
  then alter (setAirway EmptyString) (Z.to_nat row) es
  else es.

Definition eraseAirwayRoute (row : Z) (r : Route) : Route :=
  onEntries (eraseAirwayEntries row) r.

Definition eraseAirway (row : Z) (c : RouteController) : RouteController :=
  onRoute (eraseAirwayRoute row) c.

(** *** Undo stack *)

(** [Flightplan()], the value a new command holds as its after-state. *)
Definition emptyFlightplan : Flightplan :=
  {| entries := []; routeType := UNKNOWN; flightplanType := VFR;
     cruisingAltitude := 0; fileFormat := PLN_FSX;
     departureIdent := EmptyString; destinationIdent := EmptyString;
     departureAiportName := EmptyString; destinationAiportName := EmptyString;
     description := EmptyString; title := EmptyString |}.

(** Modelled from the spec: [RouteCommand::mergeWith], "if the previous
    top-of-stack command has the same type and is flagged mergeable, the
    two commands combine into one step". *)
Definition mergeWith (top cmd : RouteCommand) : option RouteCommand :=
  if bool_decide (cmdType top = cmdType cmd) && mergeable (cmdType top)
  then Some (setFlightplanAfter (planAfterUndo cmd) top)
  else None.

(** [undoMerge]. *)
Definition undoMerge (c : RouteController) : RouteController :=
  setUndo (undoStack c) (undoIndex c - 1) (undoIndexClean c) c.

(** Modelled from the spec: [QUndoStack::push] with the undo limit.  The
    commands above the cursor are dropped; the command merges into the
    top one or is appended, "anything beyond the bounded limit is evicted
    from the bottom".  A limit of zero means no limit. *)
Definition push (cmd : RouteCommand) (c : RouteController) : RouteController :=
  let kept := take (stackIndex (undoStack c)) (commands (undoStack c)) in
  match QList.last kept ≫= (fun top => mergeWith top cmd) with
  | Some merged =>
      undoMerge
        (setUndo (mkStack (take (length kept - 1) kept ++ [merged]) (length kept))
                 (undoIndex c) (undoIndexClean c) c)
  | None =>
      let cs := kept ++ [cmd] in
      let cs' :=
        if bool_decide (ROUTE_UNDO_LIMIT ≠ 0%nat /\ (ROUTE_UNDO_LIMIT < length cs)%nat)
        then drop 1 cs else cs in
      setUndo (mkStack cs' (length cs')) (undoIndex c) (undoIndexClean c) c
  end.

(** [preChange]: "Call this before doing any change to the flight plan
    that should be undoable". *)
Definition preChange (text : string) (rcType : RouteCmdType)
    (c : RouteController) : RouteCommand :=
  let flightplan := removeNoSaveEntries (flightplan (route c)) in
  mkCommand flightplan emptyFlightplan text rcType.

(** [postChange]: "Call this after doing a change to the flight plan that
    should be undoable". *)
Definition postChange (undoCommand : option RouteCommand)
    (c : RouteController) : RouteController :=
  match undoCommand with
  | None => c
  | Some cmd =>
      let flightplan := removeNoSaveEntries (flightplan (route c)) in
      let cmd := setFlightplanAfter flightplan cmd in
      let clean := if decide (undoIndex c < undoIndexClean c) then -1
                   else undoIndexClean c in
      push cmd (setUndo (undoStack c) (undoIndex c + 1) clean c)
  end.

(** *** loadProceduresFromFlightplan *)

Definition loadProceduresFromFlightplan (clearOldProcedureProperties : bool)
    (r : Route) : Route :=
  if routeIsEmpty r then r else loadProcedureLegs clearOldProcedureProperties r.

(** *** updateTableModel *)

(** [QSpinBox::setValue]: a value below the minimum of the box becomes the
    minimum, a value above the maximum the maximum. *)
Definition spinBoxSetValue (value : Z) : Z :=
  let value := if decide (value < spinBoxRouteAltMinimum)
               then spinBoxRouteAltMinimum else value in
  if decide (spinBoxRouteAltMaximum < value) then spinBoxRouteAltMaximum else value.

(** Of [updateTableModel] only the last block reaches the state: for a
    plan with entries the two widgets are set from the plan; everything
    before fills the rows of the table. *)
Definition updateTableModel (c : RouteController) : RouteController :=
  let flightplan := flightplan (route c) in
  if QList.isEmpty (entries flightplan) then c
  else setWidgets (spinBoxSetValue (cruisingAltitude flightplan))
                  (match flightplanType flightplan with IFR => 0 | VFR => 1 end) c.

(** *** changeRouteUndoRedo, changeRouteUndo, changeRouteRedo *)

Definition changeRouteUndoRedo (newFlightplan : Flightplan)
    (c : RouteController) : RouteController :=
  let r := setFlightplan newFlightplan (route c) in
  let r := onFlightplan (setFileFormat (routeFileFormat c)) r in
  let r := createRouteLegsFromFlightplan r in
  let r := loadProceduresFromFlightplan true r in
  let r := updateAll r in
  let r := updateAirwaysAndAltitude false false r in
  updateTableModel (setRoute r c).

Definition changeRouteUndo (newFlightplan : Flightplan)
    (c : RouteController) : RouteController :=
  changeRouteUndoRedo newFlightplan
    (setUndo (undoStack c) (undoIndex c - 1) (undoIndexClean c) c).

Definition changeRouteRedo (newFlightplan : Flightplan)
    (c : RouteController) : RouteController :=
  changeRouteUndoRedo newFlightplan
    (setUndo (undoStack c) (undoIndex c + 1) (undoIndexClean c) c).

(** Modelled from the spec: [QUndoStack::undo] and [QUndoStack::redo]
    with [RouteCommand::undo] and [RouteCommand::redo]: "undo/redo move
    the cursor and reapply the stored flight-plan value"; they "do not
    push new commands".  Without a command to undo or redo nothing
    happens. *)
Definition undo (c : RouteController) : RouteController :=
  let s := undoStack c in
  match stackIndex s with
  | O => c
  | S i =>
      match commands s !! i with
      | None => c
      | Some cmd =>
          changeRouteUndo (planBeforeUndo cmd)
            (setUndo (mkStack (commands s) i) (undoIndex c) (undoIndexClean c) c)
      end
  end.

Definition redo (c : RouteController) : RouteController :=
  let s := undoStack c in
  match commands s !! stackIndex s with
  | None => c
  | Some cmd =>
      changeRouteRedo (planAfterUndo cmd)
        (setUndo (mkStack (commands s) (S (stackIndex s)))
                 (undoIndex c) (undoIndexClean c) c)
  end.

(** *** routeToFlightPlan and updateFlightplanFromWidgets *)

Definition routeToFlightPlan (r : Route) : Route :=
  match legs r with
  | [] => onFlightplan clearFlightplan r
  | firstLeg :: _ =>
      let lastLeg := default firstLeg (last (legs r)) in
      let departureIcao :=
        if decide (mapObjectType firstLeg = AIRPORT)
        then airportIdent (legAirport firstLeg) else EmptyString in
      let destinationIcao :=
        if decide (mapObjectType lastLeg = AIRPORT)
        then airportIdent (legAirport lastLeg) else EmptyString in
      let fp := flightplan r in
      let fp :=
        if decide (mapObjectType firstLeg = AIRPORT)
        then setDeparture (airportName (legAirport firstLeg)) departureIcao fp
        else setDeparture EmptyString EmptyString fp in
      let fp :=
        if decide (mapObjectType lastLeg = AIRPORT)
        then setDestination (airportName (legAirport lastLeg)) destinationIcao fp
        else setDestination EmptyString EmptyString fp in
      let fp :=
        setDescriptionTitle (departureIcao +:+ ", " +:+ destinationIcao)
                            (departureIcao +:+ " to " +:+ destinationIcao) fp in
      setFlightplan fp r
  end.

(** [assignAircraftPerformance] writes the name, type and file of the
    aircraft performance into the property table of the plan, the part of
    [Flightplan] that is left out here; what remains of
    [updateFlightplanFromWidgets] is the overload that reads the two
    widgets. *)
Definition updateFlightplanFromWidgets (c : RouteController) : RouteController :=
  let t := if decide (comboBoxRouteType c = 0) then IFR else VFR in
  onRoute (onFlightplan (fun fp =>
    setCruisingAltitude (spinBoxRouteAlt c) (setFlightplanType t fp))) c.

(** *** updateStartPositionBestRunway *)

Definition setDepartureStart (start : MapStart) (l : RouteLeg) : RouteLeg :=
  {| mapObjectType := mapObjectType l; legAirport := legAirport l;
     legPosition := legPosition l; procedureLeg := procedureLeg l;
     departureStart := Some start |}.

Definition updateStartPositionBestRunway (force undoable : bool)
    (c : RouteController) : option (bool * RouteController) :=
  if hasValidDeparture (route c) then
    routeLeg ← QList.first (legs (route c));
    if force || (negb (hasDepartureParking (route c))
                 && negb (hasDepartureStart (route c)))
    then
      let dep := departureRunwayName (route c) in
      let start := getBestStartPositionForAirport (legAirport routeLeg) dep in
      if startValid start then
        let undoCommand :=
          if undoable then Some (preChange "Set Start Position" EDIT c) else None in
        let c := onRoute (fun r =>
                   setLegs (setDepartureStart start routeLeg :: drop 1 (legs r)) r) c in
        let c := onRoute routeToFlightPlan c in
        Some (true, postChange undoCommand c)
      else Some (false, c)
    else Some (false, c)
  else Some (false, c).

(** *** affectedProcedures *)

Definition affectedProceduresAt (r : Route) (types : MapProcedureTypes)
    (index : Z) : MapProcedureTypes :=
  let types := if decide (index = 0) then Z.lor types PROCEDURE_DEPARTURE else types in
  let types := if decide (index >= routeSize r - 1)
               then Z.lor types PROCEDURE_ARRIVAL_ALL else types in
  match routeAt r index with
  | Some l =>
      let leg := procedureLeg l in
      let types := if isSidTransition leg
                   then Z.lor types PROCEDURE_SID_TRANSITION else types in
      let types := if isSid leg then Z.lor types PROCEDURE_DEPARTURE else types in
      let types := if isStarTransition leg
                   then Z.lor types PROCEDURE_STAR_TRANSITION else types in
      let types := if isStar leg then Z.lor types PROCEDURE_STAR_ALL else types in
      let types := if isTransition leg
                   then Z.lor types PROCEDURE_TRANSITION else types in
      if isApproach leg || isMissed leg
      then Z.lor types PROCEDURE_ARRIVAL else types
  | None => types
  end.

Definition affectedProcedures (indexes : list Z) (r : Route) : MapProcedureTypes :=
  let types := foldl (affectedProceduresAt r) PROCEDURE_NONE indexes in
  let types :=
    if testFlag types PROCEDURE_SID_TRANSITION
       && QList.isEmpty (approachLegs (departureLegs r))
       && negb (bool_decide (approachFixIdent (departureLegs r) = EmptyString))
    then Z.lor types PROCEDURE_SID else types in
  if testFlag types PROCEDURE_STAR_TRANSITION
     && QList.isEmpty (approachLegs (starLegs r))
  then Z.lor types PROCEDURE_STAR_ALL else types.

(** *** calculateInsertIndex, routeAdd, routeAddInternal *)

Definition calculateInsertIndex (pos : Pos) (legIndex : Z) (r : Route) : Z :=
  if decide (legIndex = INVALID_INDEX_VALUE) then routeSize r
  else if decide (legIndex = -1) then
    if QList.isEmpty (entries (flightplan r)) then 0
    else if decide (QList.size (entries (flightplan r)) = 1) then 1
    else
      let '(nearestlegIndex, status) := getNearestRouteLegResult pos true r in
      match status with
      | LINE_INVALID => 0
      | ALONG_TRACK => nearestlegIndex
      | BEFORE_START => if decide (nearestlegIndex = 1) then 0 else nearestlegIndex
      | AFTER_END =>
          if decide (nearestlegIndex = routeSize r - 1)
          then nearestlegIndex + 1 else nearestlegIndex
      end
  else legIndex + 1.

Definition routeAddInternal (entry : FlightplanEntry) (insertIndex : Z)
    (c : RouteController) : option RouteController :=
  let undoCommand := preChange "Add Waypoint" EDIT c in
  let c := onRoute (onEntries (QList.insert insertIndex entry)) c in
  let c := eraseAirway insertIndex c in
  let c := eraseAirway (insertIndex + 1) c in
  lastLeg ← (if QList.isEmpty (entries (flightplan (route c)))
                && bool_decide (insertIndex > 0)
             then Some <$> routeAt (route c) (insertIndex - 1)
             else Some None);
  routeLeg ← createFromDatabaseByEntry (flightplan (route c)) insertIndex lastLeg;
  let c := onRoute (fun r => setLegs (QList.insert insertIndex routeLeg (legs r)) r) c in
  let procs := affectedProcedures [insertIndex] (route c) in
  let c := onRoute (removeProcedureLegs procs) c in
  let c := onRoute updateAll c in
  let c := onRoute (updateAirwaysAndAltitude false false) c in
  '(_, c) ← updateStartPositionBestRunway false false c;
  let c := onRoute routeToFlightPlan c in
  let c := updateFlightplanFromWidgets c in
  let c := onRoute updateActiveLegAndPos c in
  let c := updateTableModel c in
  Some (postChange (Some undoCommand) c).

Definition routeAdd (id : Z) (userPos : Pos) (type : MapObjectType)
    (legIndex : Z) (c : RouteController) : option RouteController :=
  let entry := buildFlightplanEntry id userPos type (-1) in
  let insertIndex := calculateInsertIndex (position entry) legIndex (route c) in
  routeAddInternal entry insertIndex c.

(** *** routeDelete *)

Definition routeDelete (index : Z) (c : RouteController) : option RouteController :=
  let undoCommand := preChange "Delete" EDIT c in
  let c := onRoute (onEntries (QList.removeAt index)) c in
  let c := onRoute (fun r => setLegs (QList.removeAt index (legs r)) r) c in
  let c := eraseAirway index c in
  let c := if decide (index = routeSize (route c))
           then onRoute (removeProcedureLegs PROCEDURE_ARRIVAL_ALL) c else c in
  let c := if decide (index = 0)
           then onRoute (removeProcedureLegs PROCEDURE_DEPARTURE) c else c in
  let c := onRoute updateAll c in
  let c := onRoute (updateAirwaysAndAltitude false false) c in
  '(_, c) ← updateStartPositionBestRunway (bool_decide (index = 0)) false c;
  let c := onRoute routeToFlightPlan c in
  let c := updateFlightplanFromWidgets c in
  let c := updateTableModel c in
  Some (postChange (Some undoCommand) c).

(** *** reverseRoute *)

(** The loop [for(int i = entries.size() - 2; i >= 1; i--)
    entries[i].setAirway(entries.at(i - 1).getAirway());] with [i] the
    index of the next entry to overwrite. *)
Fixpoint moveAirwaysDown (i : nat) (es : list FlightplanEntry)
    : list FlightplanEntry :=
  match i with
  | O => es
  | S j =>
      match es !! j with
      | Some prev => moveAirwaysDown j (alter (setAirway (airway prev)) (S j) es)
      | None => moveAirwaysDown j es
      end
  end.

Definition reverseAirways (es : list FlightplanEntry) : list FlightplanEntry :=
  if decide (QList.size es > 3) then moveAirwaysDown (length es - 2) es else es.

Definition reverseRoute (c : RouteController) : option RouteController :=
  let undoCommand := preChange "Reverse" REVERSE c in
  let c := onRoute (removeProcedureLegs PROCEDURE_ALL) c in
  let c := onRoute (onFlightplan reverseFlightplan) c in
  let c := onRoute (onEntries reverseAirways) c in
  let c := onRoute createRouteLegsFromFlightplan c in
  let c := onRoute updateAll c in
  let c := onRoute (updateAirwaysAndAltitude false false) c in
  '(_, c) ← updateStartPositionBestRunway true false c;
  let c := onRoute updateActiveLegAndPos c in
  let c := updateTableModel c in
  Some (postChange (Some undoCommand) c).

(** *** calculateRouteInternal *)

Definition updateFlightplanEntryAirway (airwayId : Z)
    (entry : FlightplanEntry) : FlightplanEntry :=
  setAirway (getAirwayById airwayId) entry.

(** The loop over [calculatedRoute]; [idx] counts from one. *)
Fixpoint insertCalculatedRoute (calcRange fetchAirways : bool) (fromIndex idx : Z)
    (calculatedRoute : list RouteEntry) (es : list FlightplanEntry)
    : option (list FlightplanEntry) :=
  match calculatedRoute with
  | [] => Some es
  | routeEntry :: rest =>
      let flightplanEntry :=
        buildFlightplanEntry (refId routeEntry) EMPTY_POS (refType routeEntry)
                             (Z.b2z fetchAirways) in
      let flightplanEntry :=
        if fetchAirways && negb (airwayId routeEntry =? -1)
        then updateFlightplanEntryAirway (airwayId routeEntry) flightplanEntry
        else flightplanEntry in
      es ← (if calcRange
            then QList.insertIt (fromIndex + idx) flightplanEntry es
            else QList.insertIt (QList.size es - 1) flightplanEntry es);
      insertCalculatedRoute calcRange fetchAirways fromIndex (idx + 1) rest es
  end.

(** The effective index pair and the two legs whose positions are
    handed to the finder: the block [if(calcRange) ... else ...] in front
    of the search. *)
Definition searchEndpoints (fromIndex toIndex : Z) (r : Route)
    : option (Z * Z * RouteLeg * RouteLeg) :=
  let calcRange := negb (fromIndex =? -1) && negb (toIndex =? -1) in
  if calcRange then
    let fromIndex := Z.max (getStartIndexAfterProcedure r) fromIndex in
    let toIndex := Z.min (getDestinationIndexBeforeProcedure r) toIndex in
    departureLeg ← routeAt r fromIndex;
    destinationLeg ← routeAt r toIndex;
    Some (fromIndex, toIndex, departureLeg, destinationLeg)
  else
    departureLeg ← getStartAfterProcedure r;
    destinationLeg ← getDestinationBeforeProcedure r;
    Some (fromIndex, toIndex, departureLeg, destinationLeg).

(** The accepted branch: the free span is replaced by the found path. *)
Definition replaceBySearchResult (type : RouteType) (commandName : string)
    (fetchAirways useSetAltitude calcRange : bool) (fromIndex toIndex : Z)
    (calculatedRoute : list RouteEntry) (c : RouteController)
    : option RouteController :=
  let undoCommand := preChange commandName EDIT c in
  let c := onRoute (onFlightplan (setRouteType type)) c in
  let es := entries (flightplan (route c)) in
  es ← (if calcRange then QList.erase (fromIndex + 1) toIndex es
        else QList.erase 1 (QList.size es - 1) es);
  es ← insertCalculatedRoute calcRange fetchAirways fromIndex 1 calculatedRoute es;
  let c := onRoute (onEntries (fun _ => es)) c in
  let c := onRoute (onFlightplan removeNoSaveEntries) c in
  let c := onRoute createRouteLegsFromFlightplan c in
  let c := onRoute (loadProceduresFromFlightplan true) c in
  let c := onRoute removeDuplicateRouteLegs c in
  let c := onRoute updateAll c in
  let adjustRouteType :=
    negb (bool_decide (type = HIGH_ALTITUDE)) && negb (bool_decide (type = LOW_ALTITUDE))
    && negb (bool_decide (type = VOR)) in
  let c := onRoute (updateAirwaysAndAltitude (negb useSetAltitude) adjustRouteType) c in
  let c := onRoute updateActiveLegAndPos c in
  let c := onRoute updateLegAltitudes c in
  let c := updateTableModel c in
  Some (postChange (Some undoCommand) c).

Definition calculateRouteInternal (routeFinder : RouteFinder) (type : RouteType)
    (commandName : string) (fetchAirways useSetAltitude : bool)
    (fromIndex toIndex : Z) (c : RouteController)
    : option (bool * RouteController) :=
  let calcRange := negb (fromIndex =? -1) && negb (toIndex =? -1) in
  let cruiseFt := cruiseAltitudeFeet (cruisingAltitude (flightplan (route c))) in
  let altitude := if useSetAltitude then cruiseFt else 0 in
  '(fromIndex, toIndex, departureLeg, destinationLeg) ←
    searchEndpoints fromIndex toIndex (route c);
  let departurePos := legPosition departureLeg in
  let destinationPos := legPosition destinationLeg in
  match routeFinder routePreferVor routePreferNdb departurePos destinationPos altitude with
  | Some (calculatedRoute, distance) =>
      let directDistance := distanceMeterTo departurePos destinationPos in
      let ratio := fdiv distance directDistance in
      if flt ratio MAX_DISTANCE_DIRECT_RATIO then
        c ← replaceBySearchResult type commandName fetchAirways useSetAltitude
               calcRange fromIndex toIndex calculatedRoute c;
        Some (true, c)
      else Some (false, c)
  | None => Some (false, c)
  end.
End Controller.

Arguments removeNoSaveEntries : simpl never.
Arguments updateTableModel : simpl never.
Arguments push : simpl never.
Arguments preChange : simpl never.
Arguments postChange : simpl never.
Arguments routeToFlightPlan : simpl never.
Arguments updateFlightplanFromWidgets : simpl never.
Arguments updateStartPositionBestRunway : simpl never.
Arguments affectedProcedures : simpl never.
Arguments eraseAirway : simpl never.
Arguments reverseAirways : simpl never.

(** The procedures an insertion at [index] touches, for a route of [n]
    legs before the insertion: what [affectedProcedures] yields for the
    index of a freshly inserted free leg. *)
Definition insertAffects (index n : Z) : MapProcedureTypes :=
  Z.lor (if decide (index = 0) then PROCEDURE_DEPARTURE else PROCEDURE_NONE)
        (if decide (index >= n) then PROCEDURE_ARRIVAL_ALL else PROCEDURE_NONE).

(** The entry list and the route once the new entry and its leg are in
    place, before any procedure is removed: the first six statements of
    [routeAddInternal]. *)
Definition insertedEntries (entry : FlightplanEntry) (insertIndex : Z)
    (es : list FlightplanEntry) : list FlightplanEntry :=
  eraseAirwayEntries (insertIndex + 1)
    (eraseAirwayEntries insertIndex (QList.insert insertIndex entry es)).

(** The plan that is handed to [createFromDatabaseByEntry], and the route
    with the leg [routeLeg] it gave. *)
Definition insertedPlan (entry : FlightplanEntry) (insertIndex : Z)
    (r : Route) : Flightplan :=
  setEntries (insertedEntries entry insertIndex (entries (flightplan r)))
             (flightplan r).

Definition insertedRoute (entry : FlightplanEntry) (insertIndex : Z)
    (routeLeg : RouteLeg) (r : Route) : Route :=
  setLegs (QList.insert insertIndex routeLeg (legs r))
          (setFlightplan (insertedPlan entry insertIndex r) r).

(** A command of type [ty] pushed onto the stack [s] does not merge into
    the command on top: that one has another type or takes no merge. *)
Definition pushesNew `{RouteOps} (ty : RouteCmdType) (s : QUndoStack) : Prop :=
  forall top,
    QList.last (take (stackIndex s) (commands s)) = Some top ->
    cmdType top <> ty \/ mergeable (cmdType top) = false.

(** An undoable operation as every mutator of the controller is built:
    [preChange], the change itself, [postChange]. *)
Definition undoable `{RouteOps} (text : string) (ty : RouteCmdType)
    (change : RouteController -> RouteController) (c : RouteController)
    : RouteController :=
  postChange (Some (preChange text ty c)) (change c).

(** The route of [reverseRoute] when the entries are turned round and the
    airway names moved, before the legs are made anew. *)
Definition reversedRoute `{RouteOps} (r : Route) : Route :=
  onEntries reverseAirways
    (onFlightplan reverseFlightplan (removeProcedureLegs PROCEDURE_ALL r)).

(** ** What the proofs assume of the collaborators *)

Definition savedEntries (r : Route) : list FlightplanEntry :=
  entries (removeNoSaveEntries (flightplan r)).

(** The identifier [routeToFlightPlan] writes into the header for a leg. *)
Definition headerIdent (l : RouteLeg) : string :=
  if decide (mapObjectType l = AIRPORT) then airportIdent (legAirport l)
  else EmptyString.

(** Modelled from the spec: [recomputeAll] "recalculates every leg's
    course/distance from its predecessor, total distance, and the
    active-leg index".  These are derived values outside the state above:
    the recomputations leave the flight plan and the leg list as they are,
    except that [updateAirwaysAndAltitude] may adjust the cruise altitude
    and the route type when asked to. *)
Class RecomputeLaws `{RouteOps} : Prop := {
  updateAll_flightplan r : flightplan (updateAll r) = flightplan r;
  updateAll_legs r : legs (updateAll r) = legs r;
  updateAirwaysAndAltitude_entries a b r :
    entries (flightplan (updateAirwaysAndAltitude a b r)) = entries (flightplan r);
  updateAirwaysAndAltitude_flightplan r :
    flightplan (updateAirwaysAndAltitude false false r) = flightplan r;
  updateAirwaysAndAltitude_legs a b r :
    legs (updateAirwaysAndAltitude a b r) = legs r;
  updateActiveLegAndPos_flightplan r :
    flightplan (updateActiveLegAndPos r) = flightplan r;
  updateActiveLegAndPos_legs r : legs (updateActiveLegAndPos r) = legs r;
  (* a route with a valid departure has a first leg *)
  hasValidDeparture_first r : hasValidDeparture r = true -> legs r <> []
}.

(** Modelled from the spec: "the Route as a whole is recreated from its
    FlightplanEntry sequence"; a leg made from an entry is a free leg, and
    what it resolves to depends on the identifier and the position of the
    entry only. *)
Class LegLaws `{RouteOps} : Prop := {
  createRouteLegsFromFlightplan_flightplan r :
    flightplan (createRouteLegsFromFlightplan r) = flightplan r;
  createRouteLegsFromFlightplan_free r l :
    l ∈ legs (createRouteLegsFromFlightplan r) -> isAnyProcedure l = false;
  createRouteLegsFromFlightplan_header :
    exists resolve : string -> Pos -> string, forall r,
      headerIdent <$> legs (createRouteLegsFromFlightplan r)
      = (fun e => resolve (icaoIdent e) (position e)) <$> entries (flightplan r)
}.

(** Modelled from the spec: a leg "binds a FlightPlanEntry": there is one
    for every entry of the plan, and the leg made for a single entry is a
    free leg too. *)
Class EntryLaws `{RouteOps} : Prop := {
  createFromDatabaseByEntry_entry fp i last :
    0 <= i < QList.size (entries fp) -> is_Some (createFromDatabaseByEntry fp i last);
  createFromDatabaseByEntry_free fp i last l :
    createFromDatabaseByEntry fp i last = Some l -> isAnyProcedure l = false
}.

(** Modelled from the spec: procedures "are regenerated from properties,
    not stored verbatim", so loading them adds or drops procedure-only
    entries and nothing else; removing procedures from a route that has
    none, or removing no category at all, changes nothing. *)
Class ProcedureLaws `{RouteOps} : Prop := {
  loadProcedureLegs_saved b r :
    savedEntries (loadProcedureLegs b r) = savedEntries r;
  removeProcedureLegs_free types r :
    (forall l, l ∈ legs r -> isAnyProcedure l = false) ->
    flightplan (removeProcedureLegs types r) = flightplan r
    /\ legs (removeProcedureLegs types r) = legs r;
  removeProcedureLegs_none r :
    flightplan (removeProcedureLegs PROCEDURE_NONE r) = flightplan r
    /\ legs (removeProcedureLegs PROCEDURE_NONE r) = legs r;
  (* "detaching a category never removes legs of a different category",
     free legs least of all *)
  removeProcedureLegs_keeps_free types r l :
    l ∈ legs r -> isAnyProcedure l = false -> l ∈ legs (removeProcedureLegs types r)
}.

(** Two entries that name the same point, and a list of entries in which
    no two neighbours do. *)
Definition sameFix (e1 e2 : FlightplanEntry) : bool :=
  bool_decide (icaoIdent e1 = icaoIdent e2 /\ position e1 = position e2).



(** ** Well-formed routes *)

(** No leg of the route belongs to a procedure. *)
Definition procedureFree (r : Route) : Prop :=
  forall l, l ∈ legs r -> isAnyProcedure l = false.

(** The header of the flight plan names what its first and last entries
    resolve to: the state [routeToFlightPlan] leaves behind. *)
Definition headerMatches `{RouteOps} (r : Route) : Prop :=
  let idents := headerIdent <$> legs (createRouteLegsFromFlightplan r) in
  (forall d, head idents = Some d -> departureIdent (flightplan r) = d)
  /\ (forall d, last idents = Some d -> destinationIdent (flightplan r) = d).


(** ** A small closed world

    A database with three airports and a few fixes on one parallel, and
    simple stand-ins for the collaborators: enough to run the controller
    on concrete flight plans. *)

Module World.
Definition degrees (d : Z) : float32 := Z2F d 0.

Definition onParallel (d : Z) : Pos := mkPos (degrees d) (S754_zero false).

(** Distance along the parallel, one unit per degree. *)
Definition parallelDistance (a b : Pos) : float32 :=
  SFabs (SFsub 24 128 (lonX a) (lonX b)).

Definition airports : list string := ["KJFK"; "KLAX"; "KORD"].

Definition isAirport (ident : string) : bool := bool_decide (ident ∈ airports).

Definition legOfEntry (e : FlightplanEntry) : RouteLeg :=
  {| mapObjectType := if isAirport (icaoIdent e) then AIRPORT else WAYPOINT;
     legAirport := if isAirport (icaoIdent e)
                   then mkAirport (icaoIdent e) (icaoIdent e)
                   else mkAirport EmptyString EmptyString;
     legPosition := position e;
     procedureLeg := mkProcLeg PROCEDURE_NONE;
     departureStart := None |}.

Definition legMatches (types : MapProcedureTypes) (l : RouteLeg) : bool :=
  testFlag (mapType (procedureLeg l)) types.

(** The entries that stay when the legs matching [types] go; entries and
    legs are walked side by side. *)
Fixpoint keepEntries (types : MapProcedureTypes) (ls : list RouteLeg)
    (es : list FlightplanEntry) : list FlightplanEntry :=
  match ls, es with
  | l :: ls', e :: es' =>
      if legMatches types l then keepEntries types ls' es'
      else e :: keepEntries types ls' es'
  | [], _ => es
  | _ :: _, [] => []
  end.

Definition noProcedure : MapProcedureLegs := mkProcLegs [] [] EmptyString.

(** Modelled from the spec: [Route::removeProcedureLegs], "deletes all
    legs whose procedure-membership tag matches the mask; collapses the
    gap". *)
Definition dropProcedureLegs (types : MapProcedureTypes) (r : Route) : Route :=
  {| flightplan := setEntries (keepEntries types (legs r) (entries (flightplan r)))
                              (flightplan r);
     legs := filter (fun l => legMatches types l = false) (legs r);
     departureLegs := if testFlag types PROCEDURE_DEPARTURE then noProcedure
                      else departureLegs r;
     starLegs := if testFlag types PROCEDURE_STAR_ALL then noProcedure
                 else starLegs r |}.

Definition countLegs (types : MapProcedureTypes) (r : Route) : Z :=
  QList.size (filter (fun l => legMatches types l = true) (legs r)).

(** Modelled from the spec: "departure procedure (if any) immediately
    after index 0, arrival range immediately before the last index"; the
    free span starts behind the departure legs and ends before the
    arrival legs. *)
Definition startIndexAfterProcedure (r : Route) : Z :=
  let n := countLegs PROCEDURE_DEPARTURE r in
  if decide (n = 0) then 0 else n + 1.

Definition destinationIndexBeforeProcedure (r : Route) : Z :=
  let m := countLegs PROCEDURE_ARRIVAL_ALL r in
  if decide (m = 0) then QList.size (legs r) - 1 else QList.size (legs r) - 2 - m.

(** Modelled from the spec: [Route::removeDuplicateRouteLegs], "duplicate
    consecutive legs ... are collapsed".  An entry that is written to a
    file goes, with its leg, when the entry in front of it is written to a
    file too and names the same point. *)
Fixpoint duplicateMask (prev : option FlightplanEntry) (es : list FlightplanEntry)
    : list bool :=
  match es with
  | [] => []
  | e :: es' =>
      match prev with
      | Some p => negb (noSave p) && negb (noSave e) && sameFix p e
      | None => false
      end :: duplicateMask (Some e) es'
  end.

Fixpoint dropMasked {A} (mask : list bool) (l : list A) : list A :=
  match mask, l with
  | m :: mask', x :: l' => if m then dropMasked mask' l' else x :: dropMasked mask' l'
  | _, _ => l
  end.

Definition dropDuplicateLegs (r : Route) : Route :=
  let mask := duplicateMask None (entries (flightplan r)) in
  {| flightplan := setEntries (dropMasked mask (entries (flightplan r))) (flightplan r);
     legs := dropMasked mask (legs r);
     departureLegs := departureLegs r; starLegs := starLegs r |}.

Definition firstLegIs (p : RouteLeg -> bool) (r : Route) : bool :=
  match legs r with l :: _ => p l | [] => false end.

Definition fixName (id : Z) : string :=
  if decide (id = 1) then "WAYPT1" else if decide (id = 2) then "WAYPT2" else "FIX".

(** The collaborators, for any behaviour [create] of
    [RouteLeg::createFromDatabaseByEntry]. *)
Definition opsWith (create : Flightplan -> Z -> option RouteLeg -> option RouteLeg)
    : RouteOps := {|
  getStartIndexAfterProcedure := startIndexAfterProcedure;
  getDestinationIndexBeforeProcedure := destinationIndexBeforeProcedure;
  removeProcedureLegs := dropProcedureLegs;
  createRouteLegsFromFlightplan r := setLegs (legOfEntry <$> entries (flightplan r)) r;
  removeDuplicateRouteLegs := dropDuplicateLegs;
  updateAll r := r;
  updateAirwaysAndAltitude _ _ r := r;
  updateActiveLegAndPos r := r;
  updateLegAltitudes r := r;
  hasValidDeparture := firstLegIs (fun l => bool_decide (mapObjectType l = AIRPORT));
  hasDepartureParking _ := false;
  hasDepartureStart := firstLegIs (fun l => bool_decide (is_Some (departureStart l)));
  departureRunwayName _ := EmptyString;
  getNearestRouteLegResult _ _ _ := (0, LINE_INVALID);
  createFromDatabaseByEntry := create;
  loadProcedureLegs _ r := r;
  getBestStartPositionForAirport a _ :=
    mkStart (bool_decide (airportIdent a = "KJFK")) "04L";
  buildFlightplanEntry id pos _ _ := mkEntry (fixName id) EmptyString false pos;
  getAirwayById _ := "J80";
  distanceMeterTo := parallelDistance;
  cruiseAltitudeFeet alt := alt;
  routePreferVor := false;
  routePreferNdb := false;
  spinBoxRouteAltMinimum := 0;
  spinBoxRouteAltMaximum := 60000;
  INVALID_INDEX_VALUE := 2147483647;
  ROUTE_UNDO_LIMIT := 50;
  mergeable t := negb (bool_decide (t = EDIT))
|}.

(** The leg of the entry at the index; none for an index outside the
    plan. *)
Definition legAtIndex (fp : Flightplan) (i : Z) (lastLeg : option RouteLeg)
    : option RouteLeg :=
  legOfEntry <$> QList.at_ (entries fp) i.

Definition ops : RouteOps := opsWith legAtIndex.

#[local] Existing Instance ops.

(** Building blocks of the sample plans. *)
Definition entry (ident aw : string) (d : Z) : FlightplanEntry :=
  mkEntry ident aw false (onParallel d).

Definition procedureEntry (ident : string) (d : Z) : FlightplanEntry :=
  mkEntry ident EmptyString true (onParallel d).

Definition procedureLegOf (types : MapProcedureTypes) (e : FlightplanEntry) : RouteLeg :=
  {| mapObjectType := PROCEDURE; legAirport := mkAirport EmptyString EmptyString;
     legPosition := position e; procedureLeg := mkProcLeg types;
     departureStart := None |}.

Definition plan (es : list FlightplanEntry) (dep dest : string) : Flightplan :=
  {| entries := es; routeType := UNKNOWN; flightplanType := IFR;
     cruisingAltitude := 10000; fileFormat := PLN_FSX;
     departureIdent := dep; destinationIdent := dest;
     departureAiportName := dep; destinationAiportName := dest;
     description := EmptyString; title := EmptyString |}.

Definition controller (fp : Flightplan) (ls : list RouteLeg) : RouteController :=
  {| route := mkRoute fp ls noProcedure noProcedure;
     undoStack := mkStack [] 0; undoIndex := 0; undoIndexClean := 0;
     routeFileFormat := PLN_FSX; spinBoxRouteAlt := 10000; comboBoxRouteType := 0 |}.

(** A plan without procedures: the legs are those of the entries. *)
Definition freeController (es : list FlightplanEntry) (dep dest : string)
    : RouteController :=
  controller (plan es dep dest) (legOfEntry <$> es).
End World.

(** ** Sample plans and finders in that world *)

Module Samples.
Import World.
#[local] Existing Instance World.ops.

(** Finders that ignore their arguments: no path, a path of 1.5 units
    and a path of 2 units through WAYPT1. *)
Definition finderNone : RouteFinder := fun _ _ _ _ _ => None.
Definition finderNear : RouteFinder :=
  fun _ _ _ _ _ => Some ([mkRouteEntry 1 WAYPOINT (-1)], Z2F 3 (-1)).
Definition finderDetour : RouteFinder :=
  fun _ _ _ _ _ => Some ([mkRouteEntry 1 WAYPOINT (-1)], Z2F 2 0).

(** KJFK and KLAX one unit apart. *)
Definition direct : RouteController :=
  freeController [entry "KJFK" EmptyString 0; entry "KLAX" EmptyString 1] "KJFK" "KLAX".

(** KJFK, WAYPT1 and KLAX, with airway names on the last two entries. *)
Definition kjfk : FlightplanEntry := entry "KJFK" EmptyString 0.
Definition waypt1 : FlightplanEntry := entry "WAYPT1" "J80" 1.
Definition klax : FlightplanEntry := entry "KLAX" "J6" 2.

Definition three : RouteController :=
  freeController [kjfk; waypt1; klax] "KJFK" "KLAX".

(** Five entries along three airways. *)
Definition five : RouteController :=
  freeController [entry "KJFK" EmptyString 0; entry "WAYPT1" "J1" 1; entry "WAYPT2" "J2" 2;
                  entry "FIX" "J3" 3; entry "KLAX" EmptyString 4] "KJFK" "KLAX".

(** KJFK, WAYPT1, two legs of a STAR, KLAX. *)
Definition arrival : RouteController :=
  let es := [entry "KJFK" EmptyString 0; entry "WAYPT1" EmptyString 1; procedureEntry "STAR1" 2;
             procedureEntry "STAR2" 3; entry "KLAX" EmptyString 4] in
  controller (plan es "KJFK" "KLAX")
    [legOfEntry (entry "KJFK" EmptyString 0); legOfEntry (entry "WAYPT1" EmptyString 1);
     procedureLegOf PROCEDURE_STAR (procedureEntry "STAR1" 2);
     procedureLegOf PROCEDURE_STAR (procedureEntry "STAR2" 3);
     legOfEntry (entry "KLAX" EmptyString 4)].

(** KJFK, one leg of a SID, WAYPT1, KLAX. *)
Definition departure : RouteController :=
  let es := [entry "KJFK" EmptyString 0; procedureEntry "SID1" 1; entry "WAYPT1" EmptyString 2;
             entry "KLAX" EmptyString 3] in
  controller (plan es "KJFK" "KLAX")
    [legOfEntry (entry "KJFK" EmptyString 0);
     procedureLegOf PROCEDURE_SID (procedureEntry "SID1" 1);
     legOfEntry (entry "WAYPT1" EmptyString 2); legOfEntry (entry "KLAX" EmptyString 3)].


(** A plan as loaded from a file whose departure XXXX is not in the
    database: the header names it, the first leg is no airport. *)
Definition unresolved : RouteController :=
  freeController [entry "XXXX" EmptyString 0; entry "KJFK" EmptyString 1] "XXXX" "KJFK".

Definition newEntry : FlightplanEntry := entry "WAYPT2" "J5" 3.
End Samples.

(** ** Further operations of the controller *)

(** [QList::move(from, to)]: both indexes must be valid.  The item at
    [from] is taken out and put back at [to]. *)
Module QListMore.
Section Ops.
Context {A : Type}.

Definition move (from to : Z) (l : list A) : option (list A) :=
  if decide ((0 <= from < QList.size l) /\ (0 <= to < QList.size l)) then
    x ← l !! Z.to_nat from;
    let rest := delete (Z.to_nat from) l in
    Some (take (Z.to_nat to) rest ++ x :: drop (Z.to_nat to) rest)
  else None.
End Ops.
End QListMore.

(** Modelled from the spec: [MoveDirection] of routecontroller.h, the
    "adjacent swap used for up/down reordering".  The controller adds the
    value to a row number: moving down is one row further, moving up one
    row back. *)
Inductive MoveDirection := MOVE_NONE | MOVE_DOWN | MOVE_UP.

Global Instance FlightplanType_eq_dec : EqDecision FlightplanType.
Proof. solve_decision. Defined.

Global Instance MoveDirection_eq_dec : EqDecision MoveDirection.
Proof. solve_decision. Defined.

Definition directionOffset (direction : MoveDirection) : Z :=
  match direction with MOVE_NONE => 0 | MOVE_DOWN => 1 | MOVE_UP => -1 end.

(** The selection of the table view: [None] when the view has no
    selection model, else the ranges [(top, bottom)] of the selection. *)
Definition ItemSelection : Type := option (list (Z * Z)).

(** The members of the controller that name the file of the plan. *)
Record RouteFile := mkRouteFile {
  routeFilename : string;
  fileDeparture : string;
  fileDestination : string;
  fileIfrVfr : FlightplanType
}.

Definition setRouteFilename (name : string) (f : RouteFile) : RouteFile :=
  {| routeFilename := name; fileDeparture := fileDeparture f;
     fileDestination := fileDestination f; fileIfrVfr := fileIfrVfr f |}.

Definition setRouteFileFormat (format : FileFormat) (c : RouteController)
    : RouteController :=
  {| route := route c; undoStack := undoStack c; undoIndex := undoIndex c;
     undoIndexClean := undoIndexClean c; routeFileFormat := format;
     spinBoxRouteAlt := spinBoxRouteAlt c; comboBoxRouteType := comboBoxRouteType c |}.

(** Operations of [Route], [RouteExport], [FlightplanIO] and [Unit] that
    reading and writing plan files call.  Their code is not in
    routecontroller.cpp.  The file system is a function of the file name:
    loading yields the plan of the file or nothing when it throws, saving
    tells whether it went through. *)
Class FileOps := {
  clearProcedures : MapProcedureTypes -> Route -> Route;
  clearProcedureLegs : MapProcedureTypes -> bool -> bool -> Route -> Route;
  routeAdjustedToProcedureOptions : Route -> Route;
  flightplanLoad : string -> option Flightplan;
  (* flight plan, file name, SAVE_CLEAN *)
  flightplanSave : Flightplan -> string -> bool -> bool;
  (* atools::roundToInt(Unit::altFeetF(altitude)) *)
  altitudeFromFeet : Z -> Z;
  (* OptionData flag opts::GUI_AVOID_OVERWRITE_FLIGHTPLAN *)
  guiAvoidOverwriteFlightplan : bool
}.

Section Editing.
Context `{RouteOps}.

(** *** hasChanged *)

Definition hasChanged (c : RouteController) : bool :=
  bool_decide (undoIndexClean c = -1)
  || negb (bool_decide (undoIndexClean c = undoIndex c)).

(** *** routeAltChanged and routeTypeChanged *)

Definition routeAltChanged (c : RouteController) : RouteController :=
  let undoCommand :=
    if negb (routeIsEmpty (route c))
    then Some (preChange "Change Altitude" ALTITUDE c) else None in
  let c := updateFlightplanFromWidgets c in
  postChange undoCommand c.

Definition routeTypeChanged (c : RouteController) : RouteController :=
  let undoCommand :=
    if negb (routeIsEmpty (route c))
    then Some (preChange "Change Type" EDIT c) else None in
  let c := updateFlightplanFromWidgets c in
  postChange undoCommand c.

(** *** clearRoute and newFlightplan *)

(** [route.removeProcedureLegs()] takes its default argument, declared
    in route.h and taken to be all procedures; the flight plan and the
    legs are cleared right after it, whatever it removed.  [route.clear()]
    is that of the list of legs.  The active leg and the total distance
    are derived values outside the state, the members of [RouteFile] are
    reset. *)
Definition clearRoute (s : RouteController * RouteFile)
    : RouteController * RouteFile :=
  let '(c, f) := s in
  let c := onRoute (removeProcedureLegs PROCEDURE_ALL) c in
  let c := onRoute (onFlightplan clearFlightplan) c in
  let c := onRoute (setLegs []) c in
  let f := mkRouteFile EmptyString EmptyString EmptyString VFR in
  let c := setRouteFileFormat PLN_FSX c in
  let c := setUndo (mkStack [] 0) 0 0 c in
  (updateFlightplanFromWidgets c, f).

Definition newFlightplan (s : RouteController * RouteFile)
    : RouteController * RouteFile :=
  let '(c, f) := clearRoute s in
  let c := updateFlightplanFromWidgets c in
  let c := onRoute createRouteLegsFromFlightplan c in
  let c := onRoute updateAll c in
  (updateTableModel c, f).

(** *** selectedRows *)

(** [for(int row = rng.top(); row <= rng.bottom(); row++)]. *)
Definition rowsOfRange (rng : Z * Z) : list Z :=
  seqZ (fst rng) (snd rng - fst rng + 1).

Definition selectedRows (selection : ItemSelection) (reverseOrder : bool) : list Z :=
  let rows := match selection with
              | Some sm => concat (rowsOfRange <$> sm)
              | None => []
              end in
  if QList.isEmpty rows then rows
  else
    let rows := merge_sort Z.le rows in
    if reverseOrder then reverse rows else rows.

(** *** moveSelectedLegsInternal *)

(** The loop over the rows: entry and leg move together. *)
Fixpoint moveRows (offset : Z) (rows : list Z) (c : RouteController)
    : option RouteController :=
  match rows with
  | [] => Some c
  | row :: rest =>
      es ← QListMore.move row (row + offset) (entries (flightplan (route c)));
      let c := onRoute (onEntries (fun _ => es)) c in
      ls ← QListMore.move row (row + offset) (legs (route c));
      let c := onRoute (setLegs ls) c in
      moveRows offset rest c
  end.

Definition moveSelectedLegsInternal (direction : MoveDirection)
    (selection : ItemSelection) (c : RouteController) : option RouteController :=
  let rows := selectedRows selection (bool_decide (direction = MOVE_DOWN)) in
  if QList.isEmpty rows then Some c
  else
    let undoCommand := preChange "Move Waypoints" MOVE c in
    c ← moveRows (directionOffset direction) rows c;
    firstRow ← QList.first rows;
    lastRow ← QList.last rows;
    let '(forceDeparturePosition, c) :=
      match direction with
      | MOVE_DOWN =>
          (bool_decide (0 ∈ rows),
           eraseAirway (firstRow + 2) (eraseAirway (lastRow + 1) (eraseAirway lastRow c)))
      | MOVE_UP =>
          (bool_decide (1 ∈ rows),
           eraseAirway (lastRow + 1) (eraseAirway lastRow (eraseAirway (firstRow - 1) c)))
      | MOVE_NONE => (false, c)
      end in
    let c := onRoute updateAll c in
    let c := onRoute (updateAirwaysAndAltitude false false) c in
    '(_, c) ← updateStartPositionBestRunway forceDeparturePosition false c;
    let c := onRoute routeToFlightPlan c in
    let c := updateFlightplanFromWidgets c in
    let c := onRoute updateActiveLegAndPos c in
    let c := updateTableModel c in
    Some (postChange (Some undoCommand) c).

Definition moveSelectedLegsDown := moveSelectedLegsInternal MOVE_DOWN.
Definition moveSelectedLegsUp := moveSelectedLegsInternal MOVE_UP.

(** *** deleteSelectedLegs *)

(** The loop over the rows: the entry goes, the airway name of the entry
    that takes its place is cleared, the leg goes. *)
Fixpoint deleteRows (rows : list Z) (c : RouteController) : RouteController :=
  match rows with
  | [] => c
  | row :: rest =>
      let c := onRoute (onEntries (QList.removeAt row)) c in
      let c := eraseAirway row c in
      let c := onRoute (fun r => setLegs (QList.removeAt row (legs r)) r) c in
      deleteRows rest c
  end.

Definition deleteSelectedLegs (selection : ItemSelection) (c : RouteController)
    : option RouteController :=
  let rows := selectedRows selection true in
  if QList.isEmpty rows then Some c
  else
    let procs := affectedProcedures rows (route c) in
    let isProcedure := testFlag procs PROCEDURE_ALL in
    let undoCommand :=
      preChange (if isProcedure then "Delete Procedure" else "Delete Waypoints")
                (if isProcedure then EDIT else DELETE) c in
    let c := deleteRows rows c in
    let c := onRoute (removeProcedureLegs procs) c in
    let c := onRoute updateAll c in
    let c := onRoute (updateAirwaysAndAltitude false false) c in
    '(_, c) ← updateStartPositionBestRunway (bool_decide (0 ∈ rows)) false c;
    let c := onRoute routeToFlightPlan c in
    let c := updateFlightplanFromWidgets c in
    let c := onRoute updateActiveLegAndPos c in
    let c := updateTableModel c in
    Some (postChange (Some undoCommand) c).

(** *** saveFlightplan, saveFlighplanAs and exportFlighplanAsClean *)

Section Files.
Context `{FileOps}.

Definition doesFilenameMatchRoute (format : FileFormat)
    (s : RouteController * RouteFile) : bool :=
  let '(c, f) := s in
  let flightplan := flightplan (route c) in
  if negb (bool_decide (routeFilename f = EmptyString)) then
    if negb guiAvoidOverwriteFlightplan then true
    else
      match format with
      | PLN_FS9 | PLN_FSC | PLN_FSX =>
          bool_decide (fileIfrVfr f = flightplanType flightplan)
          && bool_decide (fileDeparture f = departureIdent flightplan)
          && bool_decide (fileDestination f = destinationIdent flightplan)
      | _ =>
          bool_decide (fileDeparture f = departureIdent flightplan)
          && bool_decide (fileDestination f = destinationIdent flightplan)
      end
  else false.

(** The plan that is written is a copy; of the controller only the file
    members, the file format and the clean index change.  [route.last()]
    needs a route with legs.  [undoStack->setClean()] sets the clean mark
    that Qt keeps inside its stack; the controller keeps its own pair of
    indexes and reads no other, and the stack modelled here carries no
    such mark. *)
Definition saveFlightplan (cleanExport : bool) (s : RouteController * RouteFile)
    : option (bool * (RouteController * RouteFile)) :=
  let '(c, f) := s in
  let flightplan := flightplan (routeAdjustedToProcedureOptions (route c)) in
  let f := if cleanExport then f
           else mkRouteFile (routeFilename f) (departureIdent flightplan)
                            (destinationIdent flightplan) (flightplanType flightplan) in
  let flightplan :=
    setCruisingAltitude (cruiseAltitudeFeet (cruisingAltitude flightplan)) flightplan in
  _ ← QList.last (legs (route c));
  if flightplanSave flightplan (routeFilename f) cleanExport then
    let c := match fileFormat flightplan with
             | PLN_FS9 | PLN_FSC => setRouteFileFormat PLN_FSX c
             | _ => c
             end in
    let c := if cleanExport then c
             else setUndo (undoStack c) (undoIndex c) (undoIndex c) c in
    Some (true, (c, f))
  else Some (false, (c, f)).

Definition saveFlighplanAs (filename : string) (targetFileFormat : FileFormat)
    (s : RouteController * RouteFile)
    : option (bool * (RouteController * RouteFile)) :=
  let '(c, f) := s in
  let f := setRouteFilename filename f in
  let c := setRouteFileFormat targetFileFormat c in
  let c := onRoute (onFlightplan (setFileFormat targetFileFormat)) c in
  saveFlightplan false (c, f).

Definition exportFlighplanAsClean (filename : string)
    (s : RouteController * RouteFile)
    : option (bool * (RouteController * RouteFile)) :=
  let '(c, f) := s in
  let savedFilename := routeFilename f in
  let savedFileFormat := routeFileFormat c in
  let f := setRouteFilename filename f in
  let c := setRouteFileFormat PLN_FSX c in
  '(retval, (c, f)) ← saveFlightplan true (c, f);
  let f := setRouteFilename savedFilename f in
  let c := setRouteFileFormat savedFileFormat c in
  Some (retval, (c, f)).

(** *** insertFlightplan *)

(** The loop [for(auto it = rbegin(); it != rend(); ++it)
    entries.insert(insertBefore, *it)]. *)
Definition insertEntriesBefore (insertBefore : Z) (new es : list FlightplanEntry)
    : list FlightplanEntry :=
  foldl (fun es entry => QList.insert insertBefore entry es) es (reverse new).

(** Every statement sits in the [try] block and only the loading throws.
    Inserting in front of the departure reads the first entry of the
    loaded plan. *)
Definition insertFlightplan (filename : string) (insertBefore : Z)
    (c : RouteController) : option (bool * RouteController) :=
  match flightplanLoad filename with
  | None => Some (false, c)
  | Some flightplan =>
      let flightplan :=
        setCruisingAltitude (altitudeFromFeet (cruisingAltitude flightplan)) flightplan in
      let undoCommand :=
        preChange (if decide (insertBefore >= routeSize (route c))
                   then "Insert" else "Append") EDIT c in
      c ← (if decide (insertBefore >= routeSize (route c)) then
             let c := onRoute (removeProcedureLegs PROCEDURE_ARRIVAL_ALL) c in
             let c := onRoute (onEntries (fun es => es ++ entries flightplan)) c in
             Some (onRoute (onFlightplan
                     (setDestination (destinationAiportName flightplan)
                                     (destinationIdent flightplan))) c)
           else
             '(insertBefore, c) ←
               (if decide (insertBefore = 0) then
                  let c := onRoute (removeProcedureLegs PROCEDURE_DEPARTURE) c in
                  _ ← QList.first (entries flightplan);
                  Some (insertBefore,
                        onRoute (onFlightplan
                          (setDeparture (departureAiportName flightplan)
                                        (departureIdent flightplan))) c)
                else if decide (insertBefore >= routeSize (route c) - 1) then
                  let c := onRoute (removeProcedureLegs PROCEDURE_ARRIVAL_ALL) c in
                  Some (routeSize (route c) - 1, c)
                else Some (insertBefore, eraseAirway insertBefore c));
             Some (onRoute (onEntries
                     (insertEntriesBefore insertBefore (entries flightplan))) c));
      let c := onRoute (onFlightplan removeNoSaveEntries) c in
      let c := onRoute (clearProcedures PROCEDURE_ALL) c in
      let c := onRoute (clearProcedureLegs PROCEDURE_ALL true false) c in
      let c := onRoute createRouteLegsFromFlightplan c in
      let c := onRoute (loadProceduresFromFlightplan true) c in
      let c := onRoute updateAll c in
      let c := onRoute (updateAirwaysAndAltitude false false) c in
      let c := onRoute updateActiveLegAndPos c in
      let c := updateTableModel c in
      Some (true, postChange (Some undoCommand) c)
  end.
End Files.
End Editing.

Arguments hasChanged : simpl never.
Arguments selectedRows : simpl never.
Arguments insertEntriesBefore : simpl never.

(** The steps that move the undo counters between two savings of the
    plan: a change of the route or the widgets by itself, the end of an
    undoable change, an undo and a redo. *)
Inductive undoStep `{RouteOps} : RouteController -> RouteController -> Prop :=
  | step_route f c : undoStep c (onRoute f c)
  | step_widgets alt type c : undoStep c (setWidgets alt type c)
  | step_postChange undoCommand c : undoStep c (postChange undoCommand c)
  | step_undo newFlightplan c : undoStep c (changeRouteUndo newFlightplan c)
  | step_redo newFlightplan c : undoStep c (changeRouteRedo newFlightplan c).

(** The files of the small world: one plan file with two fixes; a file
    needs a name to be written. *)
Module WorldFiles.
Import World.

Definition legsFile : Flightplan :=
  plan [entry "WAYPT2" "J5" 5; entry "FIX" "J7" 6] "WAYPT2" "FIX".

Definition ops : FileOps := {|
  clearProcedures types r :=
    {| flightplan := flightplan r; legs := legs r;
       departureLegs := if testFlag types PROCEDURE_DEPARTURE then noProcedure
                        else departureLegs r;
       starLegs := if testFlag types PROCEDURE_STAR_ALL then noProcedure
                   else starLegs r |};
  clearProcedureLegs types clearRoute clearFlightplan r :=
    {| flightplan :=
         if clearFlightplan
         then setEntries (keepEntries types (legs r) (entries (flightplan r)))
                         (flightplan r)
         else flightplan r;
       legs := if clearRoute
               then filter (fun l => legMatches types l = false) (legs r)
               else legs r;
       departureLegs := departureLegs r; starLegs := starLegs r |};
  routeAdjustedToProcedureOptions r := r;
  flightplanLoad filename :=
    if decide (filename = "legs.pln") then Some legsFile else None;
  flightplanSave _ filename _ := negb (bool_decide (filename = EmptyString));
  altitudeFromFeet altitude := altitude;
  guiAvoidOverwriteFlightplan := true
|}.

Definition noFile : RouteFile := mkRouteFile EmptyString EmptyString EmptyString VFR.
End WorldFiles.

(** The mask [types] has every flag of [mask]. *)
Definition includesFlags (types mask : MapProcedureTypes) : Prop :=
  Z.land types mask = mask.

(** No membership tag of the leg is one of the seven procedure kinds. *)
Definition freeOfProcedures (l : RouteLeg) : Prop :=
  Z.land (mapType (procedureLeg l)) PROCEDURE_ALL = 0.

(** All of a leg but the start position on the departure airport, which
    [updateStartPositionBestRunway] may set. *)
Definition legCore (l : RouteLeg)
    : MapObjectType * MapAirport * Pos * MapProcedureLeg :=
  (mapObjectType l, legAirport l, legPosition l, procedureLeg l).


(** [Route::clearProcedures] and [Route::clearProcedureLegs] are not among
    the sources.  As the comments at their calls in [insertFlightplan]
    say, the first clears the "procedure structures" and the second, asked
    to clear the route and not the flight plan, the "procedure legs from
    route object only": neither touches the flight plan. *)
Class FileLaws `{RouteOps} `{FileOps} : Prop := {
  clearProcedures_flightplan types r :
    flightplan (clearProcedures types r) = flightplan r;
  clearProcedureLegs_flightplan types r :
    flightplan (clearProcedureLegs types true false r) = flightplan r
}.
(** * Properties *)

(** ** Records and lists *)

Lemma setRoute_route c : setRoute (route c) c = c.
Proof. by destruct c. Qed.

Lemma setFlightplan_flightplan r : setFlightplan (flightplan r) r = r.
Proof. by destruct r. Qed.

Lemma setEntries_entries fp : setEntries (entries fp) fp = fp.
Proof. by destruct fp. Qed.

Lemma setLegs_legs r : setLegs (legs r) r = r.
Proof. by destruct r. Qed.

Lemma QList_size_nonneg {A} (l : list A) : 0 <= QList.size l.
Proof. unfold QList.size. lia. Qed.

Lemma QList_at_lookup {A} (l : list A) (i : Z) :
  0 <= i -> QList.at_ l i = l !! Z.to_nat i.
Proof.
  intros Hi. unfold QList.at_, QList.size. case_decide as Hr; [done|].
  symmetry. apply lookup_ge_None. lia.
Qed.

Lemma QList_at_negative {A} (l : list A) (i : Z) : i < 0 -> QList.at_ l i = None.
Proof. intros Hi. unfold QList.at_. case_decide; [lia | done]. Qed.

(** [QList::insert] with the clamped index. *)
Lemma QList_insert_take_drop {A} (i : Z) (x : A) (l : list A) :
  QList.insert i x l = take (Z.to_nat i) l ++ x :: drop (Z.to_nat i) l.
Proof.
  unfold QList.insert, QList.size. repeat case_decide.
  - by replace (Z.to_nat i) with 0%nat by lia.
  - rewrite take_ge, drop_ge by lia. done.
  - done.
Qed.

Lemma QList_insert_length {A} (i : Z) (x : A) (l : list A) :
  length (QList.insert i x l) = S (length l).
Proof.
  rewrite QList_insert_take_drop, length_app. simpl.
  rewrite length_take, length_drop. lia.
Qed.

Lemma QList_insert_lookup_new {A} (i : Z) (x : A) (l : list A) :
  0 <= i <= QList.size l -> QList.insert i x l !! Z.to_nat i = Some x.
Proof.
  unfold QList.size. intros Hi. rewrite QList_insert_take_drop.
  rewrite lookup_app_r; rewrite length_take; [|lia].
  by replace (Z.to_nat i - Z.to_nat i `min` length l)%nat with 0%nat by lia.
Qed.

Lemma QList_insert_lookup_before {A} (i : Z) (x : A) (l : list A) (j : nat) :
  (j < Z.to_nat i)%nat -> (j < length l)%nat -> QList.insert i x l !! j = l !! j.
Proof.
  intros Hj Hl. rewrite QList_insert_take_drop.
  rewrite lookup_app_l by (rewrite length_take; lia). by rewrite lookup_take_lt.
Qed.

Lemma QList_insert_lookup_after {A} (i : Z) (x : A) (l : list A) (j : nat) :
  0 <= i <= QList.size l -> (Z.to_nat i <= j)%nat ->
  QList.insert i x l !! S j = l !! j.
Proof.
  unfold QList.size. intros Hi Hj. rewrite QList_insert_take_drop.
  rewrite lookup_app_r; rewrite length_take; [|lia].
  replace (S j - Z.to_nat i `min` length l)%nat with (S (j - Z.to_nat i)) by lia.
  simpl. rewrite lookup_drop. f_equal. lia.
Qed.

(** ** eraseAirway *)

Lemma eraseAirwayEntries_length row es :
  length (eraseAirwayEntries row es) = length es.
Proof. unfold eraseAirwayEntries. case_decide; [apply length_alter | done]. Qed.

Lemma eraseAirwayEntries_outside row es :
  row < 0 \/ QList.size es <= row -> eraseAirwayEntries row es = es.
Proof. intros Hr. unfold eraseAirwayEntries. case_decide; [lia | done]. Qed.

Lemma eraseAirwayEntries_other row es (j : nat) :
  Z.of_nat j <> row -> eraseAirwayEntries row es !! j = es !! j.
Proof.
  intros Hj. unfold eraseAirwayEntries. case_decide; [|done].
  apply list_lookup_alter_ne. lia.
Qed.

Lemma eraseAirwayEntries_at row es (j : nat) :
  Z.of_nat j = row ->
  eraseAirwayEntries row es !! j = setAirway EmptyString <$> es !! j.
Proof.
  intros <-. unfold eraseAirwayEntries, QList.size. rewrite Nat2Z.id.
  case_decide as Hr; [apply list_lookup_alter_eq|].
  rewrite (lookup_ge_None_2 es j) by lia. done.
Qed.

(** C9.  [eraseAirway] is defined for every row.  For a row below zero or
    at or beyond the number of flight plan entries the controller is left
    exactly as it was.  For any row, the entry list keeps its length, every
    entry at another position is untouched, the entry at the row (if there
    is one) only loses its airway name, and nothing but the entry list
    changes. *)
Theorem eraseAirway_guarded (row : Z) (c : RouteController) :
  let es := entries (flightplan (route c)) in
  let es' := entries (flightplan (route (eraseAirway row c))) in
  (row < 0 \/ QList.size es <= row -> eraseAirway row c = c)
  /\ eraseAirway row c = onRoute (onEntries (fun _ => es')) c
  /\ length es' = length es
  /\ (forall j : nat, Z.of_nat j <> row -> es' !! j = es !! j)
  /\ (forall j : nat, Z.of_nat j = row -> es' !! j = setAirway EmptyString <$> es !! j).
Proof.
  destruct c as [[fp ls dl sl] st ui uc ff alt ty]; simpl.
  split; [|split; [done|split; [|split]]].
  - intros Hr. unfold eraseAirway, eraseAirwayRoute, onRoute, onEntries, onFlightplan,
      setRoute, setFlightplan. simpl.
    rewrite eraseAirwayEntries_outside by done. by rewrite setEntries_entries.
  - apply eraseAirwayEntries_length.
  - intros j Hj. by apply eraseAirwayEntries_other.
  - intros j Hj. by apply eraseAirwayEntries_at.
Qed.

(** ** Route calculation *)

Lemma flt_fle x y : flt x y = true -> fle x y = true.
Proof. unfold flt, fle, SFltb, SFleb. by destruct (SFcompare x y) as [[]|]. Qed.

(** A number fails [x < y] exactly when it equals [y], exceeds [y], or the
    two do not compare at all (one of them is not a number). *)
Lemma flt_false x y :
  flt x y = false <->
  SFcompare x y = Some Eq \/ SFcompare x y = Some Gt \/ SFcompare x y = None.
Proof.
  unfold flt, SFltb.
  destruct (SFcompare x y) as [[]|]; split; intros Hx; try done; auto;
    destruct Hx as [?|[?|?]]; done.
Qed.

Section Calculation.
Context `{RouteOps}.


(** The outcome of [calculateRouteInternal] once the end legs are known. *)
Lemma calculateRouteInternal_unfold routeFinder type commandName fetchAirways
    useSetAltitude fromIndex toIndex c fromIndex' toIndex' departureLeg destinationLeg :
  searchEndpoints fromIndex toIndex (route c)
  = Some (fromIndex', toIndex', departureLeg, destinationLeg) ->
  calculateRouteInternal routeFinder type commandName fetchAirways useSetAltitude
    fromIndex toIndex c
  = match routeFinder routePreferVor routePreferNdb (legPosition departureLeg)
            (legPosition destinationLeg)
            (if useSetAltitude
             then cruiseAltitudeFeet (cruisingAltitude (flightplan (route c)))
             else 0) with
    | Some (calculatedRoute, distance) =>
        if flt (fdiv distance (distanceMeterTo (legPosition departureLeg)
                                               (legPosition destinationLeg)))
               MAX_DISTANCE_DIRECT_RATIO
        then
          c' ← replaceBySearchResult type commandName fetchAirways useSetAltitude
                 (negb (fromIndex =? -1) && negb (toIndex =? -1))
                 fromIndex' toIndex' calculatedRoute c;
          Some (true, c')
        else Some (false, c)
    | None => Some (false, c)
    end.
Proof. intros Hs. unfold calculateRouteInternal. rewrite Hs. done. Qed.

Lemma calculateRouteInternal_endpoints routeFinder type commandName fetchAirways
    useSetAltitude fromIndex toIndex c res :
  calculateRouteInternal routeFinder type commandName fetchAirways useSetAltitude
    fromIndex toIndex c = Some res ->
  exists fromIndex' toIndex' departureLeg destinationLeg,
    searchEndpoints fromIndex toIndex (route c)
    = Some (fromIndex', toIndex', departureLeg, destinationLeg).
Proof.
  unfold calculateRouteInternal.
  destruct (searchEndpoints fromIndex toIndex (route c)) as [[[[f t] dl] tl]|];
    [eauto | done].
Qed.
End Calculation.

(** C1, as the code has it.  Whenever [calculateRouteInternal] reports
    success the finder found a path and the ratio of the path length to the
    direct distance is strictly below the threshold 2.0, hence at most 2.0.
    Whenever it reports failure the finder found no path or the ratio is
    not below 2.0: it equals 2.0, exceeds 2.0 or is not a number.  Both
    directions: with the end legs known, failure is reported in exactly
    these cases, and success in exactly the remaining case, provided the
    replacement of the free span goes through. *)
Theorem calculateRouteInternal_accepts_below_ratio `{RouteOps}
    (routeFinder : RouteFinder) (type : RouteType) (commandName : string)
    (fetchAirways useSetAltitude : bool) (fromIndex toIndex : Z)
    (c : RouteController) (fromIndex' toIndex' : Z) (departureLeg destinationLeg : RouteLeg) :
  searchEndpoints fromIndex toIndex (route c)
  = Some (fromIndex', toIndex', departureLeg, destinationLeg) ->
  let found :=
    routeFinder routePreferVor routePreferNdb (legPosition departureLeg)
      (legPosition destinationLeg)
      (if useSetAltitude
       then cruiseAltitudeFeet (cruisingAltitude (flightplan (route c))) else 0) in
  let ratio (distance : float32) :=
    fdiv distance (distanceMeterTo (legPosition departureLeg)
                                   (legPosition destinationLeg)) in
  let result :=
    calculateRouteInternal routeFinder type commandName fetchAirways useSetAltitude
      fromIndex toIndex c in
  (forall c', result = Some (true, c') ->
     exists calculatedRoute distance,
       found = Some (calculatedRoute, distance)
       /\ flt (ratio distance) MAX_DISTANCE_DIRECT_RATIO = true
       /\ fle (ratio distance) MAX_DISTANCE_DIRECT_RATIO = true)
  /\ (forall c', result = Some (false, c') ->
        found = None
        \/ exists calculatedRoute distance,
             found = Some (calculatedRoute, distance)
             /\ (SFcompare (ratio distance) MAX_DISTANCE_DIRECT_RATIO = Some Eq
                 \/ SFcompare (ratio distance) MAX_DISTANCE_DIRECT_RATIO = Some Gt
                 \/ SFcompare (ratio distance) MAX_DISTANCE_DIRECT_RATIO = None))
  /\ (found = None -> result = Some (false, c))
  /\ (forall calculatedRoute distance,
        found = Some (calculatedRoute, distance) ->
        flt (ratio distance) MAX_DISTANCE_DIRECT_RATIO = false ->
        result = Some (false, c))
  /\ (forall calculatedRoute distance c',
        found = Some (calculatedRoute, distance) ->
        flt (ratio distance) MAX_DISTANCE_DIRECT_RATIO = true ->
        replaceBySearchResult type commandName fetchAirways useSetAltitude
          (negb (fromIndex =? -1) && negb (toIndex =? -1))
          fromIndex' toIndex' calculatedRoute c = Some c' ->
        result = Some (true, c')).
Proof.
  intros Hs found ratio result. subst result.
  rewrite (calculateRouteInternal_unfold _ _ _ _ _ _ _ _ _ _ _ _ Hs).
  fold found. destruct found as [[calculatedRoute distance]|] eqn:Hfound.
  - fold (ratio distance).
    destruct (flt (ratio distance) MAX_DISTANCE_DIRECT_RATIO) eqn:Hlt.
    + split; [|split; [|split; [|split]]].
      * intros c' _. exists calculatedRoute, distance.
        split; [done|]. split; [done|]. by apply flt_fle.
      * intros c' Hr.
        destruct (replaceBySearchResult _ _ _ _ _ _ _ _ _); simpl in Hr; done.
      * done.
      * intros ? ? [= <- <-] Hf. congruence.
      * intros ? ? c' [= <- <-] _ ->. done.
    + split; [|split; [|split; [|split]]].
      * done.
      * intros c' _. right. exists calculatedRoute, distance.
        split; [done|]. by apply flt_false.
      * done.
      * done.
      * intros ? ? c' [= <- <-] Hf. congruence.
  - split; [|split; [|split; [|split]]]; try done. intros c' _. by left.
Qed.

(** C2.  A failed search leaves the controller as it was: when
    [calculateRouteInternal] returns false the state it returns is the
    state it was given, legs and flight plan entries included; and with the
    end legs known it does return false, with that state, both when the
    finder has no path and when the path is rejected by the ratio check. *)
Theorem calculateRouteInternal_failure_keeps_route `{RouteOps}
    (routeFinder : RouteFinder) (type : RouteType) (commandName : string)
    (fetchAirways useSetAltitude : bool) (fromIndex toIndex : Z)
    (c : RouteController) :
  let result :=
    calculateRouteInternal routeFinder type commandName fetchAirways useSetAltitude
      fromIndex toIndex c in
  (forall c', result = Some (false, c') ->
     c' = c
     /\ legs (route c') = legs (route c)
     /\ entries (flightplan (route c')) = entries (flightplan (route c)))
  /\ (forall fromIndex' toIndex' departureLeg destinationLeg,
        searchEndpoints fromIndex toIndex (route c)
        = Some (fromIndex', toIndex', departureLeg, destinationLeg) ->
        let found :=
          routeFinder routePreferVor routePreferNdb (legPosition departureLeg)
            (legPosition destinationLeg)
            (if useSetAltitude
             then cruiseAltitudeFeet (cruisingAltitude (flightplan (route c)))
             else 0) in
        (found = None
         \/ exists calculatedRoute distance,
              found = Some (calculatedRoute, distance)
              /\ flt (fdiv distance (distanceMeterTo (legPosition departureLeg)
                                                     (legPosition destinationLeg)))
                     MAX_DISTANCE_DIRECT_RATIO = false) ->
        result = Some (false, c)).
Proof.
  intros result. split.
  - intros c' Hr.
    destruct (calculateRouteInternal_endpoints _ _ _ _ _ _ _ _ _ Hr)
      as (f' & t' & dl & tl & Hs).
    subst result. rewrite (calculateRouteInternal_unfold _ _ _ _ _ _ _ _ _ _ _ _ Hs) in Hr.
    assert (c' = c) as ->; [|done].
    destruct (routeFinder _ _ _ _ _) as [[calculatedRoute distance]|]; [|congruence].
    destruct (flt _ _); [|congruence].
    destruct (replaceBySearchResult _ _ _ _ _ _ _ _ _); simpl in Hr; done.
  - intros f' t' dl tl Hs found Hfail. subst result.
    rewrite (calculateRouteInternal_unfold _ _ _ _ _ _ _ _ _ _ _ _ Hs). fold found.
    destruct Hfail as [->|(calculatedRoute & distance & -> & ->)]; done.
Qed.


(** ** Steps shared by the edits *)

Section EditSteps.
Context `{RouteOps}.

Lemma route_onRoute f c : route (onRoute f c) = f (route c).
Proof. done. Qed.

Lemma route_setRoute r c : route (setRoute r c) = r.
Proof. done. Qed.

Lemma route_updateTableModel c : route (updateTableModel c) = route c.
Proof. unfold updateTableModel. by destruct (QList.isEmpty _). Qed.

Lemma undo_updateTableModel c :
  undoStack (updateTableModel c) = undoStack c
  /\ undoIndex (updateTableModel c) = undoIndex c
  /\ undoIndexClean (updateTableModel c) = undoIndexClean c.
Proof. unfold updateTableModel. by destruct (QList.isEmpty _). Qed.

Lemma route_push cmd c : route (push cmd c) = route c.
Proof.
  unfold push. destruct (QList.last _ ≫= _); [|by case_bool_decide]. done.
Qed.

Lemma route_postChange cmd c : route (postChange cmd c) = route c.
Proof. destruct cmd as [cmd|]; [|done]. unfold postChange. by rewrite route_push. Qed.

Lemma headerIdent_setDepartureStart s l :
  headerIdent (setDepartureStart s l) = headerIdent l.
Proof. done. Qed.

Lemma isAnyProcedure_setDepartureStart s l :
  isAnyProcedure (setDepartureStart s l) = isAnyProcedure l.
Proof. done. Qed.

(** What [routeToFlightPlan] writes for a route with legs. *)
Lemma routeToFlightPlan_legs r : legs (routeToFlightPlan r) = legs r.
Proof. unfold routeToFlightPlan. by destruct (legs r) eqn:E. Qed.

Lemma routeToFlightPlan_entries r :
  legs r <> [] ->
  entries (flightplan (routeToFlightPlan r)) = entries (flightplan r).
Proof.
  intros Hl. unfold routeToFlightPlan. destruct (legs r) as [|l ls]; [done|].
  simpl. by repeat case_decide.
Qed.

Lemma routeToFlightPlan_idents r firstLeg lastLeg :
  head (legs r) = Some firstLeg -> last (legs r) = Some lastLeg ->
  departureIdent (flightplan (routeToFlightPlan r)) = headerIdent firstLeg
  /\ destinationIdent (flightplan (routeToFlightPlan r)) = headerIdent lastLeg.
Proof.
  intros Hh Hl. unfold routeToFlightPlan, headerIdent.
  destruct (legs r) as [|l ls]; [done|]. simpl in Hh. simplify_eq.
  rewrite Hl. simpl. by repeat case_decide.
Qed.

(** The two outcomes of [updateStartPositionBestRunway] outside an undo
    step: nothing happens, or the first leg gets a start position and
    the header is rewritten from the legs. *)
Lemma updateStartPositionBestRunway_cases `{!RecomputeLaws} force c :
  updateStartPositionBestRunway force false c = Some (false, c)
  \/ exists start firstLeg rest,
       legs (route c) = firstLeg :: rest
       /\ updateStartPositionBestRunway force false c
          = Some (true, onRoute routeToFlightPlan
                          (onRoute (setLegs (setDepartureStart start firstLeg :: rest)) c)).
Proof.
  unfold updateStartPositionBestRunway.
  destruct (hasValidDeparture (route c)) eqn:Hv; [|by left].
  apply hasValidDeparture_first in Hv.
  destruct (legs (route c)) as [|firstLeg rest] eqn:Hl; [done|]. simpl.
  destruct (force || _); [|by left].
  destruct (startValid _) eqn:Hs; [|by left].
  right. eexists _, firstLeg, rest. split; [done|].
  unfold onRoute at 2. rewrite Hl. simpl. by rewrite drop_0.
Qed.

Lemma updateStartPositionBestRunway_frame `{!RecomputeLaws} force c :
  exists changed c',
    updateStartPositionBestRunway force false c = Some (changed, c')
    /\ entries (flightplan (route c')) = entries (flightplan (route c))
    /\ headerIdent <$> legs (route c') = headerIdent <$> legs (route c)
    /\ isAnyProcedure <$> legs (route c') = isAnyProcedure <$> legs (route c)
    /\ drop 1 (legs (route c')) = drop 1 (legs (route c))
    /\ undoStack c' = undoStack c /\ undoIndex c' = undoIndex c
    /\ undoIndexClean c' = undoIndexClean c
    /\ routeFileFormat c' = routeFileFormat c
    /\ spinBoxRouteAlt c' = spinBoxRouteAlt c
    /\ comboBoxRouteType c' = comboBoxRouteType c.
Proof.
  destruct (updateStartPositionBestRunway_cases force c)
    as [Hu|(start & firstLeg & rest & Hl & Hu)].
  - exists false, c. by rewrite Hu.
  - eexists true, _. split; [exact Hu|].
    rewrite !route_onRoute, routeToFlightPlan_legs.
    rewrite routeToFlightPlan_entries by done.
    simpl. rewrite Hl. simpl. rewrite !drop_0. done.
Qed.
End EditSteps.

Lemma routeToFlightPlan_entries_cases `{RouteOps} (r : Route) :
  entries (flightplan (routeToFlightPlan r))
  = (if QList.isEmpty (legs r) then [] else entries (flightplan r)).
Proof.
  unfold routeToFlightPlan. destruct (legs r) as [|firstLeg rest]; [done|].
  simpl. by repeat case_decide.
Qed.

(** ** The common ending of the edits *)

Lemma legCore_setDepartureStart s l : legCore (setDepartureStart s l) = legCore l.
Proof. done. Qed.

Lemma legCore_headerIdent (ls ls' : list RouteLeg) :
  legCore <$> ls = legCore <$> ls' -> headerIdent <$> ls = headerIdent <$> ls'.
Proof.
  intros Hc.
  assert (forall ks : list RouteLeg,
    headerIdent <$> ks
    = (fun p => if decide (p.1.1.1 = AIRPORT) then airportIdent p.1.1.2 else EmptyString)
        <$> (legCore <$> ks)) as Hh.
  { intros ks. by rewrite <- list_fmap_compose. }
  by rewrite !Hh, Hc.
Qed.

Lemma legCore_isAnyProcedure (ls ls' : list RouteLeg) :
  legCore <$> ls = legCore <$> ls' -> isAnyProcedure <$> ls = isAnyProcedure <$> ls'.
Proof.
  intros Hc.
  assert (forall ks : list RouteLeg,
    isAnyProcedure <$> ks
    = (fun p => negb (mapType p.2 =? PROCEDURE_NONE)) <$> (legCore <$> ks)) as Hh.
  { intros ks. by rewrite <- list_fmap_compose. }
  by rewrite !Hh, Hc.
Qed.

Section EditTail.
Context `{RouteOps} `{!RecomputeLaws}.

Lemma updateStartPositionBestRunway_core force c :
  exists changed c',
    updateStartPositionBestRunway force false c = Some (changed, c')
    /\ entries (flightplan (route c')) = entries (flightplan (route c))
    /\ legCore <$> legs (route c') = legCore <$> legs (route c)
    /\ undoStack c' = undoStack c /\ undoIndex c' = undoIndex c
    /\ undoIndexClean c' = undoIndexClean c
    /\ spinBoxRouteAlt c' = spinBoxRouteAlt c
    /\ comboBoxRouteType c' = comboBoxRouteType c.
Proof.
  destruct (updateStartPositionBestRunway_cases force c)
    as [Hu|(start & firstLeg & rest & Hl & Hu)].
  - exists false, c. by rewrite Hu.
  - eexists true, _. split; [exact Hu|].
    rewrite !route_onRoute, routeToFlightPlan_legs.
    rewrite routeToFlightPlan_entries by done.
    simpl. rewrite Hl. done.
Qed.

(** From the recomputation to [postChange]: the entries stay unless no leg
    is left, the legs stay but for the start position of the first, and
    the undo members are those [postChange] finds. *)
Lemma edit_tail_steps (finish : RouteController -> RouteController)
    force undoCommand c :
  (forall c, route (finish c) = route c \/
             (entries (flightplan (route (finish c))) = entries (flightplan (route c))
              /\ legs (route (finish c)) = legs (route c))) ->
  (forall c, undoStack (finish c) = undoStack c /\ undoIndex (finish c) = undoIndex c
             /\ undoIndexClean (finish c) = undoIndexClean c) ->
  exists c'',
    ('(_, c) ← updateStartPositionBestRunway force false
                 (onRoute (updateAirwaysAndAltitude false false) (onRoute updateAll c));
     Some (postChange (Some undoCommand) (finish (onRoute routeToFlightPlan c))))
    = Some (postChange (Some undoCommand) c'')
    /\ entries (flightplan (route c''))
       = (if QList.isEmpty (legs (route c)) then [] else entries (flightplan (route c)))
    /\ legCore <$> legs (route c'') = legCore <$> legs (route c)
    /\ undoStack c'' = undoStack c /\ undoIndex c'' = undoIndex c
    /\ undoIndexClean c'' = undoIndexClean c.
Proof.
  intros Hfinish Hundo.
  set (c5 := onRoute (updateAirwaysAndAltitude false false) _).
  assert (entries (flightplan (route c5)) = entries (flightplan (route c))) as He5.
  { subst c5. rewrite !route_onRoute, updateAirwaysAndAltitude_entries,
      updateAll_flightplan. done. }
  assert (legs (route c5) = legs (route c)) as Hl5.
  { subst c5. rewrite !route_onRoute, updateAirwaysAndAltitude_legs, updateAll_legs.
    done. }
  destruct (updateStartPositionBestRunway_core force c5)
    as (changed & c6 & -> & He6 & Hc6 & Hs6 & Hi6 & Hic6 & _).
  cbn [mbind option_bind]. eexists. split; [done|].
  destruct (Hundo (onRoute routeToFlightPlan c6)) as (-> & -> & ->).
  assert (entries (flightplan (route (finish (onRoute routeToFlightPlan c6))))
          = entries (flightplan (route (onRoute routeToFlightPlan c6)))
          /\ legs (route (finish (onRoute routeToFlightPlan c6)))
             = legs (route (onRoute routeToFlightPlan c6))) as [-> ->].
  { destruct (Hfinish (onRoute routeToFlightPlan c6)) as [->|?]; done. }
  rewrite route_onRoute, routeToFlightPlan_legs, routeToFlightPlan_entries_cases.
  rewrite He6, He5, Hc6, Hl5. split; [|done].
  apply (f_equal length) in Hc6. rewrite !length_fmap, Hl5 in Hc6.
  destruct (legs (route c6)), (legs (route c)); done.
Qed.

Lemma edit_tail_with (finish : RouteController -> RouteController)
    force undoCommand c :
  (forall c, entries (flightplan (route (finish c))) = entries (flightplan (route c))
             /\ legs (route (finish c)) = legs (route c)) ->
  (forall c, undoStack (finish c) = undoStack c /\ undoIndex (finish c) = undoIndex c
             /\ undoIndexClean (finish c) = undoIndexClean c) ->
  exists c',
    ('(_, c) ← updateStartPositionBestRunway force false
                 (onRoute (updateAirwaysAndAltitude false false) (onRoute updateAll c));
     Some (postChange (Some undoCommand) (finish (onRoute routeToFlightPlan c))))
    = Some c'
    /\ entries (flightplan (route c'))
       = (if QList.isEmpty (legs (route c)) then [] else entries (flightplan (route c)))
    /\ legCore <$> legs (route c') = legCore <$> legs (route c).
Proof.
  intros Hfinish Hundo.
  destruct (edit_tail_steps finish force undoCommand c) as (c'' & -> & He & Hl & _);
    [by right|done|].
  eexists. split; [done|]. by rewrite route_postChange.
Qed.

(** The ending of [routeAddInternal], [moveSelectedLegsInternal] and
    [deleteSelectedLegs], and the ending of [routeDelete]. *)
Lemma finish_edit c :
  (entries (flightplan (route (updateTableModel
      (onRoute updateActiveLegAndPos (updateFlightplanFromWidgets c)))))
   = entries (flightplan (route c))
   /\ legs (route (updateTableModel
         (onRoute updateActiveLegAndPos (updateFlightplanFromWidgets c))))
      = legs (route c))
  /\ undoStack (updateTableModel
        (onRoute updateActiveLegAndPos (updateFlightplanFromWidgets c))) = undoStack c
  /\ undoIndex (updateTableModel
        (onRoute updateActiveLegAndPos (updateFlightplanFromWidgets c))) = undoIndex c
  /\ undoIndexClean (updateTableModel
        (onRoute updateActiveLegAndPos (updateFlightplanFromWidgets c)))
     = undoIndexClean c.
Proof.
  rewrite route_updateTableModel, route_onRoute,
    updateActiveLegAndPos_flightplan, updateActiveLegAndPos_legs.
  destruct (undo_updateTableModel
              (onRoute updateActiveLegAndPos (updateFlightplanFromWidgets c)))
    as (-> & -> & ->).
  done.
Qed.

Lemma finish_edit_short c :
  (entries (flightplan (route (updateTableModel (updateFlightplanFromWidgets c))))
   = entries (flightplan (route c))
   /\ legs (route (updateTableModel (updateFlightplanFromWidgets c))) = legs (route c))
  /\ undoStack (updateTableModel (updateFlightplanFromWidgets c)) = undoStack c
  /\ undoIndex (updateTableModel (updateFlightplanFromWidgets c)) = undoIndex c
  /\ undoIndexClean (updateTableModel (updateFlightplanFromWidgets c)) = undoIndexClean c.
Proof.
  rewrite route_updateTableModel.
  destruct (undo_updateTableModel (updateFlightplanFromWidgets c)) as (-> & -> & ->).
  done.
Qed.

Lemma edit_tail force undoCommand c :
  exists c',
    ('(_, c) ← updateStartPositionBestRunway force false
                 (onRoute (updateAirwaysAndAltitude false false) (onRoute updateAll c));
     Some (postChange (Some undoCommand)
             (updateTableModel
                (onRoute updateActiveLegAndPos
                   (updateFlightplanFromWidgets (onRoute routeToFlightPlan c))))))
    = Some c'
    /\ entries (flightplan (route c'))
       = (if QList.isEmpty (legs (route c)) then [] else entries (flightplan (route c)))
    /\ legCore <$> legs (route c') = legCore <$> legs (route c).
Proof.
  apply (edit_tail_with
           (fun c => updateTableModel
                       (onRoute updateActiveLegAndPos (updateFlightplanFromWidgets c))));
    intros c0; apply finish_edit.
Qed.

Lemma edit_tail_short force undoCommand c :
  exists c',
    ('(_, c) ← updateStartPositionBestRunway force false
                 (onRoute (updateAirwaysAndAltitude false false) (onRoute updateAll c));
     Some (postChange (Some undoCommand)
             (updateTableModel
                (updateFlightplanFromWidgets (onRoute routeToFlightPlan c)))))
    = Some c'
    /\ entries (flightplan (route c'))
       = (if QList.isEmpty (legs (route c)) then [] else entries (flightplan (route c)))
    /\ legCore <$> legs (route c') = legCore <$> legs (route c).
Proof.
  apply (edit_tail_with (fun c => updateTableModel (updateFlightplanFromWidgets c)));
    intros c0; apply finish_edit_short.
Qed.

(** An entry list and a leg list of the same length: no leg, no entry. *)
Lemma parallel_entries (es : list FlightplanEntry) (ls : list RouteLeg) :
  length ls = length es -> (if QList.isEmpty ls then [] else es) = es.
Proof. by destruct ls, es. Qed.
End EditTail.

(** ** Deleting an entry *)

Lemma QList_removeAt_valid {A} (i : Z) (l : list A) :
  0 <= i < QList.size l -> QList.removeAt i l = delete (Z.to_nat i) l.
Proof. intros Hi. unfold QList.removeAt. by rewrite decide_True. Qed.

Lemma QList_removeAt_middle {A} (pre post : list A) (x : A) :
  QList.removeAt (Z.of_nat (length pre)) (pre ++ x :: post) = pre ++ post.
Proof.
  rewrite QList_removeAt_valid.
  - by rewrite Nat2Z.id, delete_middle.
  - unfold QList.size. rewrite length_app. simpl. lia.
Qed.

Section Delete.
Context `{RouteOps} `{!RecomputeLaws}.

Lemma entries_updateFlightplanFromWidgets c :
  entries (flightplan (route (updateFlightplanFromWidgets c)))
  = entries (flightplan (route c)).
Proof. done. Qed.

Lemma legs_updateFlightplanFromWidgets c :
  legs (route (updateFlightplanFromWidgets c)) = legs (route c).
Proof. done. Qed.

Lemma entries_eraseAirway row c :
  entries (flightplan (route (eraseAirway row c)))
  = eraseAirwayEntries row (entries (flightplan (route c))).
Proof. done. Qed.

Lemma legs_eraseAirway row c : legs (route (eraseAirway row c)) = legs (route c).
Proof. done. Qed.
End Delete.

(** C7.  Deleting the middle entry of a three entry plan: for a route with
    the entries [KJFK, WAYPT1, KLAX], [routeDelete(1)] succeeds and leaves
    two entries: the KJFK entry as it was, and the KLAX entry with an empty
    airway name, whatever name it carried, and with its identifier, its
    position and its save mark as they were.  The route has the two legs of
    KJFK and KLAX. *)
Theorem routeDelete_middle_of_three `{RouteOps} `{!RecomputeLaws}
    (c : RouteController) (kjfk waypt1 klax : FlightplanEntry)
    (l0 l1 l2 : RouteLeg) :
  entries (flightplan (route c)) = [kjfk; waypt1; klax] ->
  legs (route c) = [l0; l1; l2] ->
  exists c',
    routeDelete 1 c = Some c'
    /\ entries (flightplan (route c'))
       = [kjfk; {| icaoIdent := icaoIdent klax; airway := EmptyString;
                   noSave := noSave klax; position := position klax |}]
    /\ routeSize (route c') = 2
    /\ headerIdent <$> legs (route c') = [headerIdent l0; headerIdent l2]
    /\ legs (route c') !! 1%nat = Some l2.
Proof.
  intros He Hl. unfold routeDelete. cbv zeta.
  set (klax' := {| icaoIdent := icaoIdent klax; airway := EmptyString;
                   noSave := noSave klax; position := position klax |}).
  set (c3 := eraseAirway 1 _).
  assert (entries (flightplan (route c3)) = [kjfk; klax']) as He3.
  { subst c3. rewrite entries_eraseAirway, !route_onRoute. simpl. by rewrite He. }
  assert (legs (route c3) = [l0; l2]) as Hl3.
  { subst c3. rewrite legs_eraseAirway, !route_onRoute. simpl. by rewrite Hl. }
  assert (routeSize (route c3) = 2) as Hs3 by (unfold routeSize; by rewrite Hl3).
  rewrite Hs3. simpl decide. cbv iota.
  set (c5 := onRoute (updateAirwaysAndAltitude false false) _).
  assert (entries (flightplan (route c5)) = [kjfk; klax']) as He5.
  { subst c5. rewrite !route_onRoute, updateAirwaysAndAltitude_entries,
      updateAll_flightplan. done. }
  assert (legs (route c5) = [l0; l2]) as Hl5.
  { subst c5. rewrite !route_onRoute, updateAirwaysAndAltitude_legs, updateAll_legs.
    done. }
  destruct (updateStartPositionBestRunway_frame false c5)
    as (changed & c6 & Hu & He6 & Hh6 & _ & Hd6 & _).
  change (bool_decide (1 = 0)) with false. rewrite Hu.
  cbn [mbind option_bind]. eexists. split; [done|]. unfold routeSize.
  rewrite route_postChange, route_updateTableModel, entries_updateFlightplanFromWidgets,
    legs_updateFlightplanFromWidgets, !route_onRoute, routeToFlightPlan_legs.
  rewrite Hl5 in Hh6, Hd6. simpl in Hh6, Hd6.
  destruct (legs (route c6)) as [|l0' [|l2' [|]]] eqn:Hl6; simplify_eq/=.
  rewrite routeToFlightPlan_entries by (by rewrite Hl6).
  rewrite He6, He5. repeat split; try done. congruence.
Qed.

(** ** Inserting an entry *)

Lemma QList_isEmpty_length {A} (l : list A) :
  QList.isEmpty l = false <-> length l <> 0%nat.
Proof. destruct l; simpl; split; intros; done || lia. Qed.

Lemma QList_insert_elem {A} (i : Z) (x : A) (l : list A) : x ∈ QList.insert i x l.
Proof. rewrite QList_insert_take_drop. apply elem_of_app. right. constructor. Qed.

Lemma QList_insert_at {A} (i : Z) (x : A) (l : list A) (y : A) :
  QList.at_ (QList.insert i x l) i = Some y -> y = x.
Proof.
  unfold QList.at_. case_decide as Hr; [|done].
  unfold QList.size in Hr. rewrite QList_insert_length in Hr.
  rewrite QList_insert_lookup_new by (unfold QList.size; lia). congruence.
Qed.

Lemma testFlag_none flag : testFlag PROCEDURE_NONE flag = false.
Proof. done. Qed.

Lemma isAnyProcedure_false l :
  isAnyProcedure l = false -> mapType (procedureLeg l) = PROCEDURE_NONE.
Proof. unfold isAnyProcedure. intros Hl. apply negb_false_iff, Z.eqb_eq in Hl. done. Qed.

Section Insert.
Context `{RouteOps}.

Lemma affectedProcedures_insert index newLeg r :
  isAnyProcedure newLeg = false ->
  affectedProcedures [index] (setLegs (QList.insert index newLeg (legs r)) r)
  = insertAffects index (routeSize r).
Proof.
  intros Hfree. apply isAnyProcedure_false in Hfree.
  unfold affectedProcedures, insertAffects. simpl foldl.
  unfold affectedProceduresAt.
  assert (routeSize (setLegs (QList.insert index newLeg (legs r)) r) - 1
          = routeSize r) as ->.
  { unfold routeSize, QList.size. simpl. rewrite QList_insert_length. lia. }
  assert (forall T (k : RouteLeg -> T) (d : T) (P : T -> Prop),
            P (k newLeg) -> P d ->
            P (match routeAt (setLegs (QList.insert index newLeg (legs r)) r) index
               with Some l => k l | None => d end)) as Hat.
  { intros T k d P Hk Hd. unfold routeAt. simpl.
    destruct (QList.at_ _ index) as [l|] eqn:Hl; [|done].
    by apply QList_insert_at in Hl as ->. }
  apply Hat; clear Hat.
  - unfold isSidTransition, isSid, isStarTransition, isStar, isTransition,
      isApproach, isMissed. rewrite Hfree, !testFlag_none. simpl.
    destruct (approachLegs (departureLegs r)), (approachLegs (starLegs r)),
      (bool_decide (approachFixIdent (departureLegs r) = EmptyString));
      repeat case_decide; done.
  - simpl.
    destruct (approachLegs (departureLegs r)), (approachLegs (starLegs r)),
      (bool_decide (approachFixIdent (departureLegs r) = EmptyString));
      repeat case_decide; done.
Qed.
End Insert.

Section InsertSteps.
Context `{RouteOps} `{!RecomputeLaws}.

Lemma insertedEntries_length entry insertIndex es :
  length (insertedEntries entry insertIndex es) = S (length es).
Proof.
  unfold insertedEntries.
  by rewrite !eraseAirwayEntries_length, QList_insert_length.
Qed.

(** [routeAddInternal] for any index, by what [createFromDatabaseByEntry]
    yields for it. *)
Lemma routeAddInternal_steps entry insertIndex c :
  match createFromDatabaseByEntry (insertedPlan entry insertIndex (route c))
          insertIndex None with
  | None => routeAddInternal entry insertIndex c = None
  | Some routeLeg =>
      let r := insertedRoute entry insertIndex routeLeg (route c) in
      let r := removeProcedureLegs (affectedProcedures [insertIndex] r) r in
      exists c'',
        routeAddInternal entry insertIndex c
        = Some (postChange (Some (preChange "Add Waypoint" EDIT c)) c'')
        /\ entries (flightplan (route c''))
           = (if QList.isEmpty (legs r) then [] else entries (flightplan r))
        /\ legCore <$> legs (route c'') = legCore <$> legs r
        /\ undoStack c'' = undoStack c /\ undoIndex c'' = undoIndex c
        /\ undoIndexClean c'' = undoIndexClean c
  end.
Proof.
  unfold routeAddInternal.
  set (c2 := eraseAirway (insertIndex + 1) (eraseAirway insertIndex _)).
  assert (flightplan (route c2) = insertedPlan entry insertIndex (route c)) as Hf2
    by done.
  assert (QList.isEmpty (entries (flightplan (route c2))) = false) as ->.
  { apply QList_isEmpty_length. rewrite Hf2. simpl. rewrite insertedEntries_length. lia. }
  rewrite andb_false_l. cbn [mbind option_bind]. cbv zeta. rewrite Hf2.
  destruct (createFromDatabaseByEntry _ _ _) as [routeLeg|]; [|done].
  cbn [mbind option_bind].
  set (c3 := onRoute (fun r => setLegs (QList.insert insertIndex routeLeg (legs r)) r) c2).
  assert (route c3 = insertedRoute entry insertIndex routeLeg (route c)) as Hr3.
  { subst c3. rewrite route_onRoute. unfold insertedRoute. rewrite <- Hf2. done. }
  set (c4 := onRoute (removeProcedureLegs _) c3).
  destruct (edit_tail_steps
              (fun c => updateTableModel
                          (onRoute updateActiveLegAndPos (updateFlightplanFromWidgets c)))
              false (preChange "Add Waypoint" EDIT c) c4)
    as (c'' & Hrun & He & Hl & Hs & Hi & Hc).
  { intros c0. right. apply finish_edit. }
  { intros c0. apply finish_edit. }
  exists c''. split; [exact Hrun|].
  subst c4. rewrite route_onRoute, Hr3 in He, Hl. done.
Qed.

(** With a valid index the leg is there and it is a free leg: the
    procedures removed are those of [insertAffects], and the new leg
    stays. *)
Lemma routeAddInternal_valid `{!EntryLaws} `{!ProcedureLaws} entry insertIndex c :
  0 <= insertIndex <= QList.size (entries (flightplan (route c))) ->
  exists routeLeg c'',
    createFromDatabaseByEntry (insertedPlan entry insertIndex (route c))
      insertIndex None = Some routeLeg
    /\ routeAddInternal entry insertIndex c
       = Some (postChange (Some (preChange "Add Waypoint" EDIT c)) c'')
    /\ entries (flightplan (route c''))
       = entries (flightplan
           (removeProcedureLegs (insertAffects insertIndex (routeSize (route c)))
                                (insertedRoute entry insertIndex routeLeg (route c))))
    /\ undoStack c'' = undoStack c /\ undoIndex c'' = undoIndex c
    /\ undoIndexClean c'' = undoIndexClean c.
Proof.
  intros Hi.
  pose proof (routeAddInternal_steps entry insertIndex c) as Hsteps.
  destruct (createFromDatabaseByEntry_entry
              (insertedPlan entry insertIndex (route c)) insertIndex None)
    as [routeLeg Hleg].
  { unfold QList.size in *. simpl. rewrite insertedEntries_length. lia. }
  rewrite Hleg in Hsteps. cbv zeta in Hsteps.
  pose proof (createFromDatabaseByEntry_free _ _ _ _ Hleg) as Hfree.
  assert (affectedProcedures [insertIndex]
            (insertedRoute entry insertIndex routeLeg (route c))
          = insertAffects insertIndex (routeSize (route c))) as Hprocs.
  { exact (affectedProcedures_insert insertIndex routeLeg
             (setFlightplan (insertedPlan entry insertIndex (route c)) (route c))
             Hfree). }
  rewrite Hprocs in Hsteps.
  destruct Hsteps as (c'' & Hrun & He & _ & Hundo).
  exists routeLeg, c''. split; [done|]. split; [exact Hrun|]. split; [|exact Hundo].
  rewrite He.
  assert (routeLeg ∈ legs (removeProcedureLegs
                             (insertAffects insertIndex (routeSize (route c)))
                             (insertedRoute entry insertIndex routeLeg (route c)))) as Hin.
  { apply removeProcedureLegs_keeps_free; [|done]. apply QList_insert_elem. }
  destruct (legs (removeProcedureLegs _ _)); [by apply elem_of_nil in Hin | done].
Qed.
End InsertSteps.

(** C6.  Inserting at a valid index.  The entry list gets the new entry at
    the index, with an empty airway name whatever name it came with; the
    entry that follows it (the one that was at the index) has an empty
    airway name too; both keep their identifier, position and save mark;
    every other entry is exactly the entry it was, one place further down
    behind the index.  Then the procedures touched by the insertion are
    removed from that route: the departure procedures for index 0, the
    arrival procedures when the new entry becomes the last leg, and no
    others; when none is touched the entry list stays as just described. *)
Theorem routeAddInternal_inserts_and_clears `{RouteOps} `{!RecomputeLaws}
    `{!EntryLaws} `{!ProcedureLaws}
    (entry : FlightplanEntry) (insertIndex : Z) (c : RouteController) :
  let es := entries (flightplan (route c)) in
  let i := Z.to_nat insertIndex in
  let noAirway (e : FlightplanEntry) :=
    {| icaoIdent := icaoIdent e; airway := EmptyString; noSave := noSave e;
       position := position e |} in
  0 <= insertIndex <= QList.size es ->
  exists c' routeLeg edited,
    routeAddInternal entry insertIndex c = Some c'
    /\ createFromDatabaseByEntry (insertedPlan entry insertIndex (route c))
         insertIndex None = Some routeLeg
    /\ edited = entries (insertedPlan entry insertIndex (route c))
    /\ length edited = S (length es)
    /\ edited !! i = Some (noAirway entry)
    /\ edited !! S i = noAirway <$> es !! i
    /\ (forall j, (j < i)%nat -> edited !! j = es !! j)
    /\ (forall j, (i < j)%nat -> edited !! S j = es !! j)
    /\ entries (flightplan (route c'))
       = entries (flightplan
           (removeProcedureLegs
              (Z.lor (if decide (insertIndex = 0)
                      then PROCEDURE_DEPARTURE else PROCEDURE_NONE)
                     (if decide (insertIndex >= routeSize (route c))
                      then PROCEDURE_ARRIVAL_ALL else PROCEDURE_NONE))
              (insertedRoute entry insertIndex routeLeg (route c))))
    /\ (0 < insertIndex < routeSize (route c) ->
        entries (flightplan (route c')) = edited).
Proof.
  intros es i noAirway Hi.
  destruct (routeAddInternal_valid entry insertIndex c Hi)
    as (routeLeg & c'' & Hleg & -> & He & _).
  eexists _, routeLeg, _. split; [done|]. split; [done|]. split; [done|].
  change (entries (insertedPlan entry insertIndex (route c)))
    with (insertedEntries entry insertIndex es).
  assert (Z.of_nat i = insertIndex) as Hii by (subst i; lia).
  split; [apply insertedEntries_length|].
  unfold insertedEntries.
  assert (length (QList.insert insertIndex entry es) = S (length es)) as Hlen
    by apply QList_insert_length.
  split.
  { rewrite eraseAirwayEntries_other by lia.
    unfold eraseAirwayEntries, QList.size.
    rewrite decide_True by (unfold QList.size in Hi; lia).
    rewrite list_lookup_alter_eq. fold i.
    subst i. by rewrite QList_insert_lookup_new. }
  split.
  { unfold eraseAirwayEntries at 1. unfold QList.size.
    rewrite eraseAirwayEntries_length, Hlen.
    replace (Z.to_nat (insertIndex + 1)) with (S i) by lia.
    destruct (decide (insertIndex < QList.size es)) as [Hin|Hout].
    - rewrite decide_True by (unfold QList.size in Hin; lia).
      rewrite list_lookup_alter_eq.
      rewrite eraseAirwayEntries_other by lia.
      subst i. rewrite QList_insert_lookup_after by (done || lia). done.
    - rewrite decide_False by (unfold QList.size in Hout; lia).
      rewrite eraseAirwayEntries_other by lia.
      subst i. rewrite QList_insert_lookup_after by (done || lia).
      rewrite (lookup_ge_None_2 es) by (unfold QList.size in *; lia). done. }
  split.
  { intros j Hj. rewrite !eraseAirwayEntries_other by lia.
    apply QList_insert_lookup_before; [lia|]. unfold QList.size in Hi. lia. }
  split.
  { intros j Hj. rewrite !eraseAirwayEntries_other by lia.
    subst i. apply QList_insert_lookup_after; [done|lia]. }
  rewrite route_postChange, He. split; [done|].
  intros Hmid. unfold insertAffects.
  rewrite !decide_False by lia.
  change (Z.lor PROCEDURE_NONE PROCEDURE_NONE) with PROCEDURE_NONE.
  by rewrite (proj1 (removeProcedureLegs_none _)).
Qed.

(** ** The undo stack *)

Section UndoStack.
Context `{RouteOps}.

Lemma pushesNew_mergeWith ty s top cmd :
  pushesNew ty s -> cmdType cmd = ty ->
  QList.last (take (stackIndex s) (commands s)) = Some top ->
  mergeWith top cmd = None.
Proof.
  intros Hnew Hty Hlast. unfold mergeWith.
  destruct (Hnew top Hlast) as [Hne| ->]; [|by rewrite andb_false_r].
  rewrite bool_decide_eq_false_2 by congruence. done.
Qed.

Lemma pushesNew_not_mergeable ty s : mergeable ty = false -> pushesNew ty s.
Proof.
  intros Hm top _. destruct (decide (cmdType top = ty)) as [->|]; auto.
Qed.

(** After a push without merge the command is the last one on the stack
    and the cursor stands behind it. *)
Lemma push_new cmd c :
  pushesNew (cmdType cmd) (undoStack c) ->
  exists older,
    commands (undoStack (push cmd c)) = older ++ [cmd]
    /\ stackIndex (undoStack (push cmd c)) = S (length older)
    /\ undoIndex (push cmd c) = undoIndex c
    /\ undoIndexClean (push cmd c) = undoIndexClean c
    /\ routeFileFormat (push cmd c) = routeFileFormat c.
Proof.
  intros Hnew. unfold push.
  set (kept := take _ _) in *.
  destruct (QList.last kept) as [top|] eqn:Hlast; simpl.
  - rewrite (pushesNew_mergeWith _ _ _ _ Hnew eq_refl Hlast). clear Hnew. simpl.
    case_bool_decide as Hlim; simpl.
    + destruct kept as [|k kept'] eqn:Hk; [done|].
      exists kept'. simpl. rewrite drop_0, length_app. simpl.
      split; [done|]. split; [lia|done].
    + exists kept. rewrite length_app. simpl. split; [done|]. split; [lia|done].
  - apply last_None in Hlast. rewrite Hlast. simpl.
    case_bool_decide as Hlim; simpl; [lia|].
    exists []. done.
Qed.
End UndoStack.

(** ** Undo followed by redo *)

Lemma filter_saved_idemp (es : list FlightplanEntry) :
  filter (fun e => noSave e = false) (filter (fun e => noSave e = false) es)
  = filter (fun e => noSave e = false) es.
Proof.
  induction es as [|e es IH]; [done|].
  rewrite filter_cons. case_decide as He; [|done].
  rewrite filter_cons, decide_True by done. by rewrite IH.
Qed.

Lemma savedEntries_filter r :
  savedEntries r = filter (fun e => noSave e = false) (entries (flightplan r)).
Proof. done. Qed.

Section UndoRedo.
Context `{RouteOps} `{!RecomputeLaws} `{!LegLaws} `{!ProcedureLaws}.

Lemma savedEntries_loadProceduresFromFlightplan b r :
  savedEntries (loadProceduresFromFlightplan b r) = savedEntries r.
Proof.
  unfold loadProceduresFromFlightplan. destruct (routeIsEmpty r); [done|].
  apply loadProcedureLegs_saved.
Qed.

(** Replaying a snapshot installs its saved entries. *)
Lemma savedEntries_changeRouteUndoRedo newFlightplan c :
  savedEntries (route (changeRouteUndoRedo newFlightplan c))
  = entries (removeNoSaveEntries newFlightplan).
Proof.
  unfold changeRouteUndoRedo. cbv zeta. rewrite route_updateTableModel, route_setRoute.
  unfold savedEntries at 1.
  rewrite updateAirwaysAndAltitude_flightplan, updateAll_flightplan.
  fold (savedEntries (loadProceduresFromFlightplan true
    (createRouteLegsFromFlightplan
       (onFlightplan (setFileFormat (routeFileFormat c))
          (setFlightplan newFlightplan (route c)))))).
  rewrite savedEntries_loadProceduresFromFlightplan.
  unfold savedEntries. rewrite createRouteLegsFromFlightplan_flightplan. done.
Qed.

(** Replaying a snapshot leaves the undo members alone. *)
Lemma undo_changeRouteUndoRedo newFlightplan c :
  undoStack (changeRouteUndoRedo newFlightplan c) = undoStack c
  /\ undoIndex (changeRouteUndoRedo newFlightplan c) = undoIndex c
  /\ undoIndexClean (changeRouteUndoRedo newFlightplan c) = undoIndexClean c.
Proof.
  unfold changeRouteUndoRedo. cbv zeta.
  destruct (undo_updateTableModel (setRoute
    (updateAirwaysAndAltitude false false
       (updateAll (loadProceduresFromFlightplan true
          (createRouteLegsFromFlightplan
             (onFlightplan (setFileFormat (routeFileFormat c))
                (setFlightplan newFlightplan (route c))))))) c)) as (-> & -> & ->).
  done.
Qed.
End UndoRedo.

(** C3.  For an undoable operation that is pushed as a command of its own
    (not merged into the one before), undo brings back the flight plan
    entries in front of the operation and a following redo brings back the
    entries the operation produced, entry for entry, procedure-only entries
    left aside on both sides; the undo stack and the undo counter are as
    the operation left them. *)
Theorem undo_then_redo_restores_entries `{RouteOps} `{!RecomputeLaws}
    `{!LegLaws} `{!ProcedureLaws}
    (text : string) (ty : RouteCmdType)
    (change : RouteController -> RouteController) (c : RouteController) :
  undoStack (change c) = undoStack c ->
  pushesNew ty (undoStack c) ->
  let c1 := undoable text ty change c in
  savedEntries (route (undo c1)) = savedEntries (route c)
  /\ savedEntries (route (redo (undo c1))) = savedEntries (route c1)
  /\ undoStack (redo (undo c1)) = undoStack c1
  /\ undoIndex (redo (undo c1)) = undoIndex c1.
Proof.
  intros Hstack Hnew c1.
  set (cmd := setFlightplanAfter (removeNoSaveEntries (flightplan (route (change c))))
                                 (preChange text ty c)).
  set (c0 := setUndo (undoStack (change c)) (undoIndex (change c) + 1)
               (if decide (undoIndex (change c) < undoIndexClean (change c))
                then -1 else undoIndexClean (change c)) (change c)).
  assert (c1 = push cmd c0) as Hc1 by done.
  assert (pushesNew (cmdType cmd) (undoStack c0)) as Hnew0.
  { subst c0. simpl. by rewrite Hstack. }
  destruct (push_new cmd c0 Hnew0) as (older & Hcmds & Hidx & Hui & _).
  assert (route c1 = route (change c)) as Hr1.
  { rewrite Hc1, route_push. done. }
  assert (commands (undoStack c1) !! length older = Some cmd) as Hlook.
  { rewrite Hc1, Hcmds. apply list_lookup_middle. done. }
  (* undo *)
  assert (undo c1
          = changeRouteUndo (planBeforeUndo cmd)
              (setUndo (mkStack (commands (undoStack c1)) (length older))
                       (undoIndex c1) (undoIndexClean c1) c1)) as Hundo.
  { unfold undo. rewrite Hc1 at 1. rewrite Hidx. rewrite Hlook. done. }
  assert (redo (undo c1)
          = changeRouteRedo (planAfterUndo cmd)
              (setUndo (mkStack (commands (undoStack c1)) (S (length older)))
                       (undoIndex c1 - 1) (undoIndexClean c1) (undo c1))) as Hredo.
  { assert (undoStack (undo c1) = mkStack (commands (undoStack c1)) (length older)
            /\ undoIndex (undo c1) = undoIndex c1 - 1
            /\ undoIndexClean (undo c1) = undoIndexClean c1) as (Hus & Hui1 & Huc1).
    { rewrite Hundo. unfold changeRouteUndo.
      destruct (undo_changeRouteUndoRedo (planBeforeUndo cmd)
                  (setUndo
                     (undoStack (setUndo (mkStack (commands (undoStack c1)) (length older))
                                   (undoIndex c1) (undoIndexClean c1) c1))
                     (undoIndex (setUndo (mkStack (commands (undoStack c1)) (length older))
                                   (undoIndex c1) (undoIndexClean c1) c1) - 1)
                     (undoIndexClean
                        (setUndo (mkStack (commands (undoStack c1)) (length older))
                           (undoIndex c1) (undoIndexClean c1) c1))
                     (setUndo (mkStack (commands (undoStack c1)) (length older))
                        (undoIndex c1) (undoIndexClean c1) c1)))
        as (-> & -> & ->).
      done. }
    unfold redo. rewrite Hus. simpl. rewrite Hlook, Hui1, Huc1. done. }
  split; [|split; [|split]].
  - rewrite Hundo. unfold changeRouteUndo.
    rewrite savedEntries_changeRouteUndoRedo. subst cmd. simpl.
    unfold preChange. simpl. by rewrite filter_saved_idemp.
  - rewrite Hredo. unfold changeRouteRedo.
    rewrite savedEntries_changeRouteUndoRedo. subst cmd. simpl.
    rewrite filter_saved_idemp. unfold savedEntries. by rewrite Hr1.
  - rewrite Hredo. unfold changeRouteRedo.
    match goal with
    | |- undoStack (changeRouteUndoRedo ?fp ?c0) = _ =>
        destruct (undo_changeRouteUndoRedo fp c0) as (-> & _)
    end.
    simpl.
    rewrite Hc1 at 2. rewrite <- Hidx. rewrite <- Hc1. by destruct (undoStack c1).
  - rewrite Hredo. unfold changeRouteRedo.
    match goal with
    | |- undoIndex (changeRouteUndoRedo ?fp ?c0) = _ =>
        destruct (undo_changeRouteUndoRedo fp c0) as (_ & -> & _)
    end.
    simpl. lia.
Qed.

(** The command that [postChange] puts on the stack when it does not
    merge. *)
Lemma postChange_new_command `{RouteOps} (text : string) (ty : RouteCmdType)
    (c c'' : RouteController) :
  undoStack c'' = undoStack c -> undoIndex c'' = undoIndex c ->
  pushesNew ty (undoStack c) ->
  let c' := postChange (Some (preChange text ty c)) c'' in
  exists cmd,
    last (commands (undoStack c')) = Some cmd
    /\ planBeforeUndo cmd = removeNoSaveEntries (flightplan (route c))
    /\ planAfterUndo cmd = removeNoSaveEntries (flightplan (route c'))
    /\ undoIndex c' = undoIndex c + 1.
Proof.
  intros Hs Hi Hnew c'. subst c'.
  set (cmd := setFlightplanAfter (removeNoSaveEntries (flightplan (route c'')))
                                 (preChange text ty c)).
  set (c0 := setUndo (undoStack c'') (undoIndex c'' + 1)
               (if decide (undoIndex c'' < undoIndexClean c'')
                then -1 else undoIndexClean c'') c'').
  assert (postChange (Some (preChange text ty c)) c'' = push cmd c0) as -> by done.
  assert (pushesNew (cmdType cmd) (undoStack c0)) as Hnew0.
  { subst c0. simpl. by rewrite Hs. }
  destruct (push_new cmd c0 Hnew0) as (older & Hcmds & _ & Hui & _).
  exists cmd. rewrite Hcmds, last_snoc, Hui, route_push. subst c0. simpl.
  rewrite Hi. done.
Qed.

(** C5, as the code has it.  [routeAddInternal] checks no index and has no
    invalid-index outcome.  For every index the entry is first put into
    the entry list, which gets one entry more: in front for an index below
    zero, with its airway name emptied for index -1 and as it came for a
    lower index, and at the end, as it came, for an index above the size.
    Only then the index goes, as it is, to [createFromDatabaseByEntry] with
    that plan.  If that call yields no leg nothing more is done; if it
    yields a leg the leg is inserted, the procedures touched are removed,
    and the command made by [preChange] goes to [postChange]: unless it
    merges into the previous command it ends up on top of the undo stack,
    holding the plan before and the plan after, and the undo counter is
    one higher. *)
Theorem routeAddInternal_checks_no_index `{RouteOps} `{!RecomputeLaws}
    (entry : FlightplanEntry) (insertIndex : Z) (c : RouteController) :
  let es := entries (flightplan (route c)) in
  let plan := insertedPlan entry insertIndex (route c) in
  let noAirway (e : FlightplanEntry) :=
    {| icaoIdent := icaoIdent e; airway := EmptyString; noSave := noSave e;
       position := position e |} in
  length (entries plan) = S (length es)
  /\ (insertIndex < -1 -> entries plan = entry :: es)
  /\ (insertIndex = -1 -> entries plan = noAirway entry :: es)
  /\ (QList.size es < insertIndex -> entries plan = es ++ [entry])
  /\ match createFromDatabaseByEntry plan insertIndex None with
     | None => routeAddInternal entry insertIndex c = None
     | Some routeLeg =>
         let r := insertedRoute entry insertIndex routeLeg (route c) in
         let r := removeProcedureLegs (affectedProcedures [insertIndex] r) r in
         exists c',
           routeAddInternal entry insertIndex c = Some c'
           /\ entries (flightplan (route c'))
              = (if QList.isEmpty (legs r) then [] else entries (flightplan r))
           /\ legCore <$> legs (route c') = legCore <$> legs r
           /\ (pushesNew EDIT (undoStack c) ->
               exists cmd,
                 last (commands (undoStack c')) = Some cmd
                 /\ planBeforeUndo cmd = removeNoSaveEntries (flightplan (route c))
                 /\ planAfterUndo cmd = removeNoSaveEntries (flightplan (route c'))
                 /\ undoIndex c' = undoIndex c + 1)
     end.
Proof.
  intros es plan noAirway.
  change (entries plan) with (insertedEntries entry insertIndex es).
  split; [apply insertedEntries_length|].
  split.
  { intros Hneg. unfold insertedEntries, QList.insert. rewrite decide_True by lia.
    by rewrite !eraseAirwayEntries_outside by lia. }
  split.
  { intros ->. unfold insertedEntries, QList.insert. rewrite decide_True by lia.
    by rewrite (eraseAirwayEntries_outside (-1)) by lia. }
  split.
  { intros Hbig. unfold insertedEntries.
    pose proof (QList_size_nonneg es) as Hnn.
    assert (QList.insert insertIndex entry es = es ++ [entry]) as ->.
    { unfold QList.insert. rewrite decide_False by lia. by rewrite decide_True by lia. }
    rewrite !eraseAirwayEntries_outside; [done|right..];
      unfold QList.size in *; rewrite ?eraseAirwayEntries_length, length_app;
      simpl; lia. }
  pose proof (routeAddInternal_steps entry insertIndex c) as Hsteps.
  fold plan in Hsteps.
  destruct (createFromDatabaseByEntry plan insertIndex None) as [routeLeg|]; [|done].
  cbv zeta in Hsteps. destruct Hsteps as (c'' & -> & He & Hl & Hs & Hi & _).
  eexists. split; [done|].
  split; [by rewrite route_postChange|]. split; [by rewrite route_postChange|].
  intros Hnew. by apply postChange_new_command.
Qed.

(** ** Reversing the plan *)

Lemma moveAirwaysDown_length i es : length (moveAirwaysDown i es) = length es.
Proof.
  revert es. induction i as [|j IH]; intros es; [done|]. simpl.
  destruct (es !! j); rewrite IH; [apply length_alter | done].
Qed.

(** The other indexes keep their entry. *)
Lemma moveAirwaysDown_other i es k :
  (k = 0 \/ i < k)%nat -> moveAirwaysDown i es !! k = es !! k.
Proof.
  revert es. induction i as [|j IH]; intros es Hk; [done|]. simpl.
  destruct (es !! j); rewrite IH by lia; [|done].
  apply list_lookup_alter_ne. lia.
Qed.

(** Index [k] between one and [i] receives the airway name its predecessor
    had before the loop. *)
Lemma moveAirwaysDown_shifted i es k :
  (i < length es)%nat -> (1 <= k <= i)%nat ->
  exists prev e,
    es !! (k - 1)%nat = Some prev /\ es !! k = Some e
    /\ moveAirwaysDown i es !! k = Some (setAirway (airway prev) e).
Proof.
  revert es. induction i as [|j IH]; intros es Hi Hk; [lia|]. simpl.
  destruct (lookup_lt_is_Some_2 es j) as [prev Hprev]; [lia|].
  rewrite Hprev.
  destruct (decide (k = S j)) as [->|Hne].
  - destruct (lookup_lt_is_Some_2 es (S j)) as [e He]; [lia|].
    exists prev, e. replace (S j - 1)%nat with j by lia.
    split; [done|]. split; [done|].
    rewrite moveAirwaysDown_other by lia.
    by rewrite list_lookup_alter_eq, He.
  - destruct (IH (alter (setAirway (airway prev)) (S j) es))
      as (prev' & e' & Hp & He & Hr); [rewrite length_alter; lia | lia |].
    exists prev', e'.
    rewrite list_lookup_alter_ne in Hp by lia.
    rewrite list_lookup_alter_ne in He by lia. done.
Qed.

(** The loop only writes airway names. *)
Lemma moveAirwaysDown_points i es :
  setAirway EmptyString <$> moveAirwaysDown i es = setAirway EmptyString <$> es.
Proof.
  revert es. induction i as [|j IH]; intros es; [done|]. simpl.
  destruct (es !! j) as [prev|]; rewrite IH; [|done].
  apply list_eq. intros k. rewrite !list_lookup_fmap.
  destruct (decide (k = S j)) as [->|Hne].
  - rewrite list_lookup_alter_eq. by destruct (es !! S j).
  - by rewrite list_lookup_alter_ne by done.
Qed.

Lemma reverseAirways_length es : length (reverseAirways es) = length es.
Proof. unfold reverseAirways. case_decide; [apply moveAirwaysDown_length | done]. Qed.

Lemma reverseAirways_points es :
  setAirway EmptyString <$> reverseAirways es = setAirway EmptyString <$> es.
Proof. unfold reverseAirways. case_decide; [apply moveAirwaysDown_points | done]. Qed.

Lemma reverseAirways_short es : (length es <= 3)%nat -> reverseAirways es = es.
Proof.
  intros Hn. unfold reverseAirways, QList.size. by rewrite decide_False by lia.
Qed.

Lemma reverseAirways_interior es k :
  (3 < length es)%nat -> (1 <= k <= length es - 2)%nat ->
  airway <$> reverseAirways es !! k = airway <$> es !! (k - 1)%nat.
Proof.
  intros Hn Hk. unfold reverseAirways, QList.size. rewrite decide_True by lia.
  destruct (moveAirwaysDown_shifted (length es - 2) es k)
    as (prev & e & -> & _ & ->); [lia | lia | done].
Qed.

Lemma reverseAirways_ends es k :
  (k = 0 \/ length es - 2 < k)%nat -> reverseAirways es !! k = es !! k.
Proof.
  intros Hk. unfold reverseAirways. case_decide; [|done].
  by apply moveAirwaysDown_other.
Qed.

Lemma procedureFree_same_tags (ls ls' : list RouteLeg) :
  isAnyProcedure <$> ls' = isAnyProcedure <$> ls ->
  (forall l, l ∈ ls -> isAnyProcedure l = false) ->
  forall l, l ∈ ls' -> isAnyProcedure l = false.
Proof.
  intros Htags Hfree l Hl.
  assert (isAnyProcedure l ∈ isAnyProcedure <$> ls') as Hin
    by (apply list_elem_of_fmap; eauto).
  rewrite Htags in Hin. apply list_elem_of_fmap in Hin as (l' & -> & Hl').
  by apply Hfree.
Qed.

Lemma head_fmap_Some {A B} (f : A -> B) (l : list A) x :
  head l = Some x -> head (f <$> l) = Some (f x).
Proof. destruct l; [done|]. by intros [= ->]. Qed.

Section Reverse.
Context `{RouteOps} `{!RecomputeLaws} `{!LegLaws}.

(** The steps of [reverseRoute] in one statement: the entries are those
    of [reversedRoute], the legs are free legs resolved from them, and
    the header is either the exchanged one or the one written from the
    legs. *)
Lemma reverseRoute_steps c :
  exists c'',
    reverseRoute c = Some (postChange (Some (preChange "Reverse" REVERSE c)) c'')
    /\ entries (flightplan (route c''))
       = entries (flightplan (reversedRoute (route c)))
    /\ headerIdent <$> legs (route c'')
       = headerIdent <$> legs (createRouteLegsFromFlightplan (reversedRoute (route c)))
    /\ procedureFree (route c'')
    /\ ((departureIdent (flightplan (route c''))
          = departureIdent (flightplan (reversedRoute (route c)))
         /\ destinationIdent (flightplan (route c''))
            = destinationIdent (flightplan (reversedRoute (route c))))
        \/ (head (headerIdent <$> legs (route c''))
            = Some (departureIdent (flightplan (route c'')))
            /\ last (headerIdent <$> legs (route c''))
               = Some (destinationIdent (flightplan (route c''))))).
Proof.
  unfold reverseRoute.
  set (c1 := onRoute (onEntries reverseAirways) _).
  assert (route c1 = reversedRoute (route c)) as Hr1 by done.
  set (c4 := onRoute (updateAirwaysAndAltitude false false) _).
  assert (flightplan (route c4) = flightplan (reversedRoute (route c))) as Hf4.
  { subst c4. rewrite !route_onRoute, updateAirwaysAndAltitude_flightplan,
      updateAll_flightplan, createRouteLegsFromFlightplan_flightplan, Hr1. done. }
  assert (legs (route c4)
          = legs (createRouteLegsFromFlightplan (reversedRoute (route c)))) as Hl4.
  { subst c4. rewrite !route_onRoute, updateAirwaysAndAltitude_legs,
      updateAll_legs, Hr1. done. }
  assert (forall l, l ∈ legs (route c4) -> isAnyProcedure l = false) as Hfree4.
  { rewrite Hl4. apply createRouteLegsFromFlightplan_free. }
  destruct (updateStartPositionBestRunway_cases true c4)
    as [Hu|(start & firstLeg & rest & Hl & Hu)]; rewrite Hu; clear Hu;
    cbn [mbind option_bind]; eexists; (split; [done|]);
    rewrite !route_updateTableModel, !route_onRoute, updateActiveLegAndPos_flightplan,
      updateActiveLegAndPos_legs.
  - rewrite Hf4, Hl4. split; [done|]. split; [done|]. split; [|by left].
    intros l. rewrite updateActiveLegAndPos_legs. apply Hfree4.
  - rewrite routeToFlightPlan_legs.
    rewrite routeToFlightPlan_entries by done.
    cbn [flightplan legs setLegs]. rewrite Hf4, <- Hl4, Hl.
    split; [done|]. split; [done|]. split.
    + intros l. rewrite updateActiveLegAndPos_legs, routeToFlightPlan_legs.
      cbn [legs setLegs].
      apply (procedureFree_same_tags (legs (route c4))); [by rewrite Hl | done].
    + right.
      destruct (last (setDepartureStart start firstLeg :: rest)) as [lastLeg|] eqn:Hlast;
        [|by apply last_None in Hlast].
      destruct (routeToFlightPlan_idents
                  (setLegs (setDepartureStart start firstLeg :: rest) (route c4))
                  (setDepartureStart start firstLeg) lastLeg) as [-> ->]; [done|done|].
      split; [done|].
      change (headerIdent firstLeg :: (headerIdent <$> rest))
        with (headerIdent <$> (setDepartureStart start firstLeg :: rest)).
      by rewrite fmap_last, Hlast.
Qed.
End Reverse.

(** C4, as the code has it.  [reverseRoute] removes every procedure, puts
    the remaining entries in the opposite order (departure and destination
    change places) and leaves a route without procedure legs.  Airway
    names: in a plan of more than three entries the entries at the
    positions 1 to n-2 of the reversed plan take the name stored on the
    entry that followed them before the reversal, while the first and the
    last entry keep the name they carried; in a plan of at most three
    entries every entry keeps the name it carried. *)
Theorem reverseRoute_reverses_and_shifts_interior `{RouteOps} `{!RecomputeLaws}
    `{!LegLaws} (c : RouteController) :
  let es0 := entries (flightplan (removeProcedureLegs PROCEDURE_ALL (route c))) in
  let n := length es0 in
  exists c',
    reverseRoute c = Some c'
    /\ length (entries (flightplan (route c'))) = n
    /\ setAirway EmptyString <$> entries (flightplan (route c'))
       = reverse (setAirway EmptyString <$> es0)
    /\ procedureFree (route c')
    /\ ((3 < n)%nat -> forall k, (1 <= k <= n - 2)%nat ->
        airway <$> entries (flightplan (route c')) !! k = airway <$> es0 !! (n - k)%nat)
    /\ ((3 < n)%nat ->
        airway <$> entries (flightplan (route c')) !! 0%nat
          = airway <$> es0 !! (n - 1)%nat
        /\ airway <$> entries (flightplan (route c')) !! (n - 1)%nat
           = airway <$> es0 !! 0%nat)
    /\ ((n <= 3)%nat -> entries (flightplan (route c')) = reverse es0).
Proof.
  intros es0 n.
  destruct (reverseRoute_steps c) as (c'' & -> & He & _ & Hfree & _).
  eexists. split; [done|]. rewrite route_postChange, He.
  change (entries (flightplan (reversedRoute (route c))))
    with (reverseAirways (reverse es0)).
  assert (length (reverse es0) = n) as Hn by apply length_reverse.
  split; [by rewrite reverseAirways_length|].
  split; [by rewrite reverseAirways_points, fmap_reverse|].
  split; [done|].
  split.
  { intros H3 k Hk. rewrite reverseAirways_interior by lia.
    rewrite reverse_lookup by lia. f_equal. f_equal. lia. }
  split.
  { intros H3. rewrite !reverseAirways_ends by lia.
    rewrite !reverse_lookup by lia. split; f_equal; f_equal; lia. }
  intros H3. apply reverseAirways_short. lia.
Qed.

Section ReverseTwice.
Context `{RouteOps} `{!RecomputeLaws} `{!LegLaws} `{!ProcedureLaws}.

Lemma resolve_points (resolve : string -> Pos -> string)
    (es es' : list FlightplanEntry) :
  setAirway EmptyString <$> es = setAirway EmptyString <$> es' ->
  (fun e => resolve (icaoIdent e) (position e)) <$> es
  = (fun e => resolve (icaoIdent e) (position e)) <$> es'.
Proof.
  intros Hp.
  transitivity ((fun e => resolve (icaoIdent e) (position e))
                  <$> (setAirway EmptyString <$> es)).
  - rewrite <- list_fmap_compose. done.
  - rewrite Hp, <- list_fmap_compose. done.
Qed.

(** Whether the header matches depends on the flight plan only. *)
Lemma headerMatches_flightplan r r' :
  flightplan r = flightplan r' -> headerMatches r -> headerMatches r'.
Proof.
  intros Hfp. unfold headerMatches.
  destruct createRouteLegsFromFlightplan_header as [resolve Hres].
  by rewrite !Hres, Hfp.
Qed.

(** One reversal of any route: the procedures are gone, and the entries
    that their removal leaves are turned round.  When the header of that
    plan matches its entries the two header identifiers are exchanged and
    the header matches again. *)
Lemma reverseRoute_once c :
  let r0 := removeProcedureLegs PROCEDURE_ALL (route c) in
  exists c',
    reverseRoute c = Some c'
    /\ entries (flightplan (route c'))
       = reverseAirways (reverse (entries (flightplan r0)))
    /\ procedureFree (route c')
    /\ (headerMatches r0 ->
        departureIdent (flightplan (route c')) = destinationIdent (flightplan r0)
        /\ destinationIdent (flightplan (route c')) = departureIdent (flightplan r0)
        /\ headerMatches (route c')).
Proof.
  intros r0.
  destruct (reverseRoute_steps c) as (c'' & -> & He & Hh & Hfree' & Hhdr).
  assert (flightplan (reversedRoute (route c))
          = setEntries (reverseAirways (reverse (entries (flightplan r0))))
              (reverseFlightplan (flightplan r0))) as Hrev by done.
  eexists. split; [done|]. rewrite route_postChange.
  split; [by rewrite He, Hrev|]. split; [done|].
  intros [Hdep Hdest].
  destruct createRouteLegsFromFlightplan_header as [resolve Hres].
  rewrite Hres in Hh. rewrite Hres in Hdep, Hdest.
  set (g := fun e => resolve (icaoIdent e) (position e)) in *.
  assert (g <$> entries (flightplan (reversedRoute (route c)))
          = reverse (g <$> entries (flightplan r0))) as Hg.
  { rewrite Hrev. simpl. rewrite <- fmap_reverse.
    apply resolve_points, reverseAirways_points. }
  rewrite Hg in Hh.
  assert (departureIdent (flightplan (route c''))
            = destinationIdent (flightplan r0)
          /\ destinationIdent (flightplan (route c''))
             = departureIdent (flightplan r0)) as [Hd1 Hd2].
  { destruct Hhdr as [[-> ->]|[Hhead Hlast]].
    - by rewrite Hrev.
    - rewrite Hh, head_reverse in Hhead. rewrite Hh, last_reverse in Hlast.
      split; symmetry; [by apply Hdest | by apply Hdep]. }
  split; [done|]. split; [done|].
  unfold headerMatches. rewrite Hres. fold g. rewrite He, Hg.
  rewrite head_reverse, last_reverse, Hd1, Hd2.
  split; intros d Hd; [by apply Hdest | by apply Hdep].
Qed.
End ReverseTwice.

(** C8, as the code has it.  For every route, reversing twice goes
    through.  The first reversal removes the procedures and leaves the
    remaining entries in the opposite order; what the second leaves is a
    route without procedure legs whose entries are those of the route with
    its procedures removed, in their order, each entry as it was, its
    airway name apart.  When the header of that plan names
    what its first and last entries resolve to, the departure and
    destination identifiers of the header are restored as well.  For a
    route without procedure legs that plan is the plan of the route.  The
    airway names are not covered. *)
Theorem reverseRoute_twice_restores_order `{RouteOps} `{!RecomputeLaws}
    `{!LegLaws} `{!ProcedureLaws} (c : RouteController) :
  let r0 := removeProcedureLegs PROCEDURE_ALL (route c) in
  exists c1 c2,
    reverseRoute c = Some c1 /\ reverseRoute c1 = Some c2
    /\ icaoIdent <$> entries (flightplan (route c1))
       = reverse (icaoIdent <$> entries (flightplan r0))
    /\ position <$> entries (flightplan (route c1))
       = reverse (position <$> entries (flightplan r0))
    /\ setAirway EmptyString <$> entries (flightplan (route c2))
       = setAirway EmptyString <$> entries (flightplan r0)
    /\ procedureFree (route c2)
    /\ (headerMatches r0 ->
        departureIdent (flightplan (route c1)) = destinationIdent (flightplan r0)
        /\ destinationIdent (flightplan (route c1)) = departureIdent (flightplan r0)
        /\ departureIdent (flightplan (route c2)) = departureIdent (flightplan r0)
        /\ destinationIdent (flightplan (route c2)) = destinationIdent (flightplan r0))
    /\ (procedureFree (route c) -> flightplan r0 = flightplan (route c)).
Proof.
  intros r0.
  destruct (reverseRoute_once c) as (c1 & Hr1 & He1 & Hfree1 & Hhdr1).
  destruct (reverseRoute_once c1) as (c2 & Hr2 & He2 & Hfree2 & Hhdr2).
  destruct (removeProcedureLegs_free PROCEDURE_ALL (route c1) Hfree1) as [Hfp1 _].
  fold r0 in He1, Hhdr1. rewrite Hfp1 in He2, Hhdr2.
  exists c1, c2. split; [done|]. split; [done|].
  assert (setAirway EmptyString <$> entries (flightplan (route c1))
          = reverse (setAirway EmptyString <$> entries (flightplan r0))) as Hp1.
  { destruct (reverseRoute_steps c) as (c'' & Hrun & He & _).
    rewrite Hrun in Hr1. injection Hr1 as <-. rewrite route_postChange, He.
    change (entries (flightplan (reversedRoute (route c))))
      with (reverseAirways (reverse (entries (flightplan r0)))).
    by rewrite reverseAirways_points, fmap_reverse. }
  split.
  { apply (f_equal (fmap icaoIdent)) in Hp1.
    by rewrite <- fmap_reverse, <- !list_fmap_compose, fmap_reverse in Hp1. }
  split.
  { apply (f_equal (fmap position)) in Hp1.
    by rewrite <- fmap_reverse, <- !list_fmap_compose, fmap_reverse in Hp1. }
  split.
  { rewrite He2, reverseAirways_points, fmap_reverse, Hp1, reverse_involutive. done. }
  split; [done|]. split.
  - intros Hm. destruct (Hhdr1 Hm) as (Hd1 & Hs1 & Hm1).
    destruct Hhdr2 as (Hd2 & Hs2 & _).
    { by apply (headerMatches_flightplan (route c1)). }
    split; [done|]. split; [done|]. by rewrite Hd2, Hs1, Hs2, Hd1.
  - intros Hfree. by apply removeProcedureLegs_free.
Qed.

(** * The closed world satisfies the assumptions *)

Section WorldLaws.
#[local] Existing Instance World.ops.

Lemma World_legMatches_free types l :
  isAnyProcedure l = false -> World.legMatches types l = false.
Proof.
  intros Hl. unfold World.legMatches. by rewrite (isAnyProcedure_false l Hl).
Qed.

Lemma World_legMatches_none l : World.legMatches PROCEDURE_NONE l = false.
Proof.
  unfold World.legMatches, testFlag, PROCEDURE_NONE. by rewrite Z.land_0_r.
Qed.

Lemma World_keepEntries_all types (ls : list RouteLeg) es :
  (forall l, l ∈ ls -> World.legMatches types l = false) ->
  World.keepEntries types ls es = es.
Proof.
  revert es. induction ls as [|l ls IH]; intros es Hno; [by destruct es|].
  destruct es as [|e es]; [done|]. simpl.
  rewrite Hno by constructor. f_equal. apply IH.
  intros l' Hl'. apply Hno. by constructor.
Qed.

Lemma World_filter_all types (ls : list RouteLeg) :
  (forall l, l ∈ ls -> World.legMatches types l = false) ->
  filter (fun l => World.legMatches types l = false) ls = ls.
Proof.
  induction ls as [|l ls IH]; intros Hno; [done|].
  rewrite filter_cons, decide_True by (apply Hno; constructor).
  f_equal. apply IH. intros l' Hl'. apply Hno. by constructor.
Qed.

Lemma World_dropProcedureLegs_all types r :
  (forall l, l ∈ legs r -> World.legMatches types l = false) ->
  flightplan (World.dropProcedureLegs types r) = flightplan r
  /\ legs (World.dropProcedureLegs types r) = legs r.
Proof.
  intros Hno. unfold World.dropProcedureLegs. simpl.
  rewrite World_keepEntries_all, World_filter_all by done.
  by rewrite setEntries_entries.
Qed.

Lemma World_recompute_laws_with create : @RecomputeLaws (World.opsWith create).
Proof.
  split; try done.
  intros r. simpl. unfold World.firstLegIs. by destruct (legs r).
Qed.

Lemma World_recompute_laws : @RecomputeLaws World.ops.
Proof. apply World_recompute_laws_with. Qed.

Lemma World_leg_laws : @LegLaws World.ops.
Proof.
  split.
  - done.
  - intros r l Hl. simpl in Hl. apply list_elem_of_fmap in Hl as (e & -> & _). done.
  - exists (fun ident _ => if World.isAirport ident then ident else EmptyString).
    intros r. simpl. rewrite <- list_fmap_compose. apply list_fmap_ext.
    intros i e _. unfold headerIdent, World.legOfEntry. simpl.
    by destruct (World.isAirport (icaoIdent e)).
Qed.

Lemma World_entry_laws : @EntryLaws World.ops.
Proof.
  split.
  - intros fp i lastLeg Hi. simpl. unfold World.legAtIndex, QList.at_.
    rewrite decide_True by done. apply fmap_is_Some, lookup_lt_is_Some.
    unfold QList.size in Hi. lia.
  - intros fp i lastLeg l Hl. simpl in Hl. unfold World.legAtIndex in Hl.
    destruct (QList.at_ (entries fp) i); by simplify_eq/=.
Qed.

Lemma World_procedure_laws_with create : @ProcedureLaws (World.opsWith create).
Proof.
  split.
  - done.
  - intros types r Hfree. apply World_dropProcedureLegs_all.
    intros l Hl. by apply World_legMatches_free, Hfree.
  - intros r. apply World_dropProcedureLegs_all.
    intros l _. apply World_legMatches_none.
  - intros types r l Hl Hfree. simpl. apply list_elem_of_filter.
    split; [|done]. by apply World_legMatches_free.
Qed.

Lemma World_procedure_laws : @ProcedureLaws World.ops.
Proof. apply World_procedure_laws_with. Qed.



End WorldLaws.

(** * The properties at work on the sample plans *)

Section Runs.
#[local] Existing Instance World.ops.
Import World Samples.

(** A path of one and a half times the direct distance is accepted. *)
Lemma run_ratio_check :
  exists c',
    calculateRouteInternal finderNear HIGH_ALTITUDE "High altitude" true false
      (-1) (-1) direct = Some (true, c').
Proof.
  assert (searchEndpoints (-1) (-1) (route direct)
          = Some (-1, -1, legOfEntry (entry "KJFK" EmptyString 0),
                  legOfEntry (entry "KLAX" EmptyString 1))) as Hends
    by (vm_compute; reflexivity).
  eexists.
  apply (proj2 (proj2 (proj2 (proj2
    (calculateRouteInternal_accepts_below_ratio finderNear HIGH_ALTITUDE
       "High altitude" true false (-1) (-1) direct (-1) (-1) _ _ Hends))))
    [mkRouteEntry 1 WAYPOINT (-1)] (Z2F 3 (-1))); vm_compute; reflexivity.
Defined.

(** Without a path the controller stays as it is. *)
Lemma run_failed_search :
  calculateRouteInternal finderNone LOW_ALTITUDE "Low altitude" true false
    (-1) (-1) three = Some (false, three).
Proof.
  assert (searchEndpoints (-1) (-1) (route three)
          = Some (-1, -1, legOfEntry kjfk, legOfEntry klax)) as Hends
    by (vm_compute; reflexivity).
  apply (proj2 (calculateRouteInternal_failure_keeps_route finderNone LOW_ALTITUDE
                  "Low altitude" true false (-1) (-1) three) _ _ _ _ Hends).
  left. reflexivity.
Defined.

(** An accepted path does change the plan, so the statement about failed
    searches is not an empty one. *)
Example calculateRouteInternal_accepts_near :
  exists c',
    calculateRouteInternal finderNear HIGH_ALTITUDE "High altitude" true false
      (-1) (-1) direct = Some (true, c')
    /\ icaoIdent <$> entries (flightplan (route c')) = ["KJFK"; "WAYPT1"; "KLAX"]
    /\ length (commands (undoStack c')) = 1%nat.
Proof. eexists. split; [vm_compute; reflexivity|]. split; reflexivity. Qed.



(** Clearing out of range does nothing. *)
Lemma run_erase_airway : eraseAirway 3 three = three.
Proof.
  apply (proj1 (eraseAirway_guarded 3 three)). right. vm_compute. discriminate.
Defined.

(** Deleting WAYPT1 from KJFK, WAYPT1, KLAX: the KLAX entry loses the name
    J6. *)
Lemma run_delete :
  airway klax = "J6"
  /\ (fun c => entries (flightplan (route c))) <$> routeDelete 1 three
     = Some [entry "KJFK" EmptyString 0; entry "KLAX" EmptyString 2]
  /\ exists c',
       routeDelete 1 three = Some c'
       /\ entries (flightplan (route c'))
          = [entry "KJFK" EmptyString 0; entry "KLAX" EmptyString 2]
       /\ routeSize (route c') = 2
       /\ headerIdent <$> legs (route c') = ["KJFK"; "KLAX"]
       /\ legs (route c') !! 1%nat = Some (legOfEntry klax).
Proof.
  split; [reflexivity|]. split; [vm_compute; reflexivity|].
  apply (routeDelete_middle_of_three (H0 := World_recompute_laws)
           three kjfk waypt1 klax (legOfEntry kjfk) (legOfEntry waypt1)
           (legOfEntry klax)); reflexivity.
Defined.

(** Inserting WAYPT2, which comes with the name J5, in front of WAYPT1,
    which carries J80: both names are gone, KLAX keeps J6. *)
Lemma run_insert :
  airway <$> (newEntry :: entries (flightplan (route three)))
  = ["J5"; EmptyString; "J80"; "J6"]
  /\ (fun c => airway <$> entries (flightplan (route c)))
       <$> routeAddInternal newEntry 1 three
     = Some [EmptyString; EmptyString; EmptyString; "J6"]
  /\ exists c',
       routeAddInternal newEntry 1 three = Some c'
       /\ entries (flightplan (route c'))
          = [entry "KJFK" EmptyString 0; entry "WAYPT2" EmptyString 3;
             entry "WAYPT1" EmptyString 1; entry "KLAX" "J6" 2].
Proof.
  split; [reflexivity|]. split; [vm_compute; reflexivity|].
  destruct (routeAddInternal_inserts_and_clears
              (H0 := World_recompute_laws) (H1 := World_entry_laws)
              (H2 := World_procedure_laws) newEntry 1 three)
    as (c' & routeLeg & edited & Hrun & _ & -> & _ & _ & _ & _ & _ & _ & Hmid).
  { vm_compute. split; discriminate. }
  exists c'. split; [exact Hrun|]. rewrite Hmid; [reflexivity|].
  vm_compute. split; reflexivity.
Defined.

(** Index 5 on a plan of three entries: the entry is appended with the
    name it came with, and there the run ends, for the small world has no
    leg for an index outside the plan. *)
Lemma run_insert_unchecked :
  entries (insertedPlan newEntry 5 (route three)) = [kjfk; waypt1; klax; newEntry]
  /\ routeAddInternal newEntry 5 three = None.
Proof.
  destruct (routeAddInternal_checks_no_index (H0 := World_recompute_laws)
              newEntry 5 three) as (_ & _ & _ & Hbig & Hrun).
  split; [apply Hbig; vm_compute; reflexivity | exact Hrun].
Defined.

(** Clearing an airway name as an undoable step, then undo and redo. *)
Lemma run_undo_redo :
  let c1 := undoable "Clear airway" EDIT (eraseAirway 2) three in
  savedEntries (route (undo c1)) = [kjfk; waypt1; klax]
  /\ savedEntries (route (redo (undo c1)))
     = [kjfk; waypt1; setAirway EmptyString klax].
Proof.
  destruct (undo_then_redo_restores_entries
              (H0 := World_recompute_laws) (H1 := World_leg_laws)
              (H2 := World_procedure_laws)
              "Clear airway" EDIT (eraseAirway 2) three)
    as (Hundo & Hredo & _).
  - reflexivity.
  - apply pushesNew_not_mergeable. reflexivity.
  - split; [rewrite Hundo | rewrite Hredo]; reflexivity.
Defined.

(** Reversing the five entry plan. *)
Lemma run_reverse :
  exists c',
    reverseRoute five = Some c'
    /\ setAirway EmptyString <$> entries (flightplan (route c'))
       = reverse (setAirway EmptyString <$> entries (flightplan (route five)))
    /\ procedureFree (route c').
Proof.
  destruct (reverseRoute_reverses_and_shifts_interior
              (H0 := World_recompute_laws) (H1 := World_leg_laws)
              five)
    as (c' & Hrun & _ & Hpoints & Hfree & _).
  exists c'. split; [exact Hrun|]. split; [exact Hpoints | exact Hfree].
Defined.

Lemma five_procedureFree : procedureFree (route five).
Proof.
  intros l Hl. simpl in Hl.
  repeat (apply elem_of_cons in Hl as [->|Hl]; [done|]).
  by apply elem_of_nil in Hl.
Qed.

(** Reversing twice the plan KJFK, SID1, WAYPT1, KLAX: the leg of the SID
    is gone, the other entries and the header are back. *)
Lemma run_reverse_twice :
  (fun c => icaoIdent <$> entries (flightplan (route c)))
    <$> (reverseRoute departure ≫= reverseRoute)
  = Some ["KJFK"; "WAYPT1"; "KLAX"]
  /\ exists c1 c2,
    reverseRoute departure = Some c1 /\ reverseRoute c1 = Some c2
    /\ icaoIdent <$> entries (flightplan (route c1)) = ["KLAX"; "WAYPT1"; "KJFK"]
    /\ icaoIdent <$> entries (flightplan (route c2)) = ["KJFK"; "WAYPT1"; "KLAX"]
    /\ procedureFree (route c2)
    /\ departureIdent (flightplan (route c1)) = "KLAX"
    /\ destinationIdent (flightplan (route c1)) = "KJFK"
    /\ departureIdent (flightplan (route c2)) = "KJFK"
    /\ destinationIdent (flightplan (route c2)) = "KLAX".
Proof.
  split; [vm_compute; reflexivity|].
  destruct (reverseRoute_twice_restores_order
              (H0 := World_recompute_laws) (H1 := World_leg_laws)
              (H2 := World_procedure_laws) departure)
    as (c1 & c2 & Hr1 & Hr2 & Hid1 & _ & Hpoints & Hfree & Hhdr & _).
  exists c1, c2. split; [exact Hr1|]. split; [exact Hr2|].
  split; [exact Hid1|].
  split; [|split; [exact Hfree|apply Hhdr]].
  - apply (f_equal (fmap icaoIdent)) in Hpoints.
    rewrite <- !list_fmap_compose in Hpoints. exact Hpoints.
  - split; intros d Hd; vm_compute in Hd; injection Hd as <-; reflexivity.
Defined.

(** The airway names do not come back: WAYPT1 was reached on J1 and is
    reached on nothing after two reversals. *)
Example reverseRoute_twice_changes_airways :
  exists c2,
    reverseRoute five ≫= reverseRoute = Some c2
    /\ airway <$> entries (flightplan (route five)) = [EmptyString; "J1"; "J2"; "J3"; EmptyString]
    /\ airway <$> entries (flightplan (route c2)) = [EmptyString; EmptyString; "J2"; "J3"; EmptyString].
Proof. eexists. split; [vm_compute; reflexivity|]. split; reflexivity. Qed.

(** ** Where the code differs from the specification *)

(** A search that found a path of exactly twice the direct distance is
    reported as failed, although the ratio 2.0 is not above the
    threshold 2.0. *)
Lemma calculateRouteInternal_rejects_ratio_two :
  let departurePos := legPosition (legOfEntry (entry "KJFK" EmptyString 0)) in
  let destinationPos := legPosition (legOfEntry (entry "KLAX" EmptyString 1)) in
  let ratio := fdiv (Z2F 2 0) (distanceMeterTo departurePos destinationPos) in
  calculateRouteInternal finderDetour HIGH_ALTITUDE "High altitude" true false
    (-1) (-1) direct = Some (false, direct)
  /\ finderDetour routePreferVor routePreferNdb departurePos destinationPos 0
     = Some ([mkRouteEntry 1 WAYPOINT (-1)], Z2F 2 0)
  /\ ratio = MAX_DISTANCE_DIRECT_RATIO
  /\ fle ratio MAX_DISTANCE_DIRECT_RATIO = true
  /\ flt MAX_DISTANCE_DIRECT_RATIO ratio = false.
Proof. vm_compute. repeat split; reflexivity. Qed.


(** A three entry plan is turned round with every airway name left on
    its entry: WAYPT1 was left on J6 towards KLAX and, coming from KLAX
    now, still carries J80. *)
Lemma reverseRoute_three_entries_keep_airways :
  exists c',
    reverseRoute three = Some c'
    /\ (fun e => (icaoIdent e, airway e)) <$> entries (flightplan (route three))
       = [("KJFK", EmptyString); ("WAYPT1", "J80"); ("KLAX", "J6")]
    /\ (fun e => (icaoIdent e, airway e)) <$> entries (flightplan (route c'))
       = [("KLAX", "J6"); ("WAYPT1", "J80"); ("KJFK", EmptyString)]
    /\ airway <$> entries (flightplan (route c')) !! 1%nat
       <> airway <$> entries (flightplan (route three)) !! 2%nat.
Proof.
  eexists. split; [vm_compute; reflexivity|].
  split; [reflexivity|]. split; [reflexivity|]. vm_compute. discriminate.
Qed.

(** Index -1 on the plan KJFK, WAYPT1, KLAX, whatever
    [createFromDatabaseByEntry] does with that index: when it yields no
    leg the run ends there, with the entry already in the plan; when it
    yields a leg the entry stays in front of the plan and a command lands
    on the undo stack.  Neither is a return without a change. *)
Lemma routeAddInternal_changes_plan_at_invalid_index :
  entries (flightplan (route three)) = [kjfk; waypt1; klax]
  /\ commands (undoStack three) = []
  /\ entries (insertedPlan newEntry (-1) (route three))
     = [entry "WAYPT2" EmptyString 3; kjfk; waypt1; klax]
  /\ forall create : Flightplan -> Z -> option RouteLeg -> option RouteLeg,
       match create (insertedPlan newEntry (-1) (route three)) (-1) None with
       | None => @routeAddInternal (opsWith create) newEntry (-1) three = None
       | Some routeLeg =>
           exists c',
             @routeAddInternal (opsWith create) newEntry (-1) three = Some c'
             /\ entries (flightplan (route c'))
                = [entry "WAYPT2" EmptyString 3; kjfk; waypt1; klax]
             /\ length (legs (route c')) = 4%nat
             /\ length (commands (undoStack c')) = 1%nat
       end.
Proof.
  split; [reflexivity|]. split; [reflexivity|]. split; [reflexivity|].
  intros create.
  pose proof (@routeAddInternal_steps (opsWith create)
                (World_recompute_laws_with create) newEntry (-1) three) as Hsteps.
  change (@createFromDatabaseByEntry (opsWith create)) with create in Hsteps.
  destruct (create _ _ _) as [routeLeg|]; [|exact Hsteps].
  cbv zeta in Hsteps.
  change (affectedProcedures [-1] (insertedRoute newEntry (-1) routeLeg (route three)))
    with PROCEDURE_NONE in Hsteps.
  destruct (@removeProcedureLegs_none (opsWith create)
              (World_procedure_laws_with create)
              (insertedRoute newEntry (-1) routeLeg (route three))) as [Hfp Hlegs].
  rewrite Hfp, Hlegs in Hsteps.
  destruct Hsteps as (c'' & -> & He & Hl & Hs & _).
  eexists. split; [reflexivity|]. rewrite route_postChange.
  split; [exact He|]. split.
  - rewrite <- (length_fmap legCore), Hl, length_fmap. reflexivity.
  - unfold postChange, push. simpl. rewrite Hs. reflexivity.
Qed.

(** Two reversals of a plan with a SID leg: the leg is gone.  Two
    reversals of a plan whose departure is not in the database: the
    departure identifier of the header is gone. *)
Lemma reverseRoute_twice_loses_procedure_and_header :
  (exists c2,
     reverseRoute departure ≫= reverseRoute = Some c2
     /\ icaoIdent <$> entries (flightplan (route departure))
        = ["KJFK"; "SID1"; "WAYPT1"; "KLAX"]
     /\ icaoIdent <$> entries (flightplan (route c2)) = ["KJFK"; "WAYPT1"; "KLAX"]
     /\ length (legs (route departure)) = 4%nat
     /\ length (legs (route c2)) = 3%nat)
  /\ (exists c2,
        reverseRoute unresolved ≫= reverseRoute = Some c2
        /\ icaoIdent <$> entries (flightplan (route c2)) = ["XXXX"; "KJFK"]
        /\ departureIdent (flightplan (route unresolved)) = "XXXX"
        /\ departureIdent (flightplan (route c2)) = EmptyString).
Proof.
  split; (eexists; split; [vm_compute; reflexivity|]; repeat split; reflexivity).
Qed.
End Runs.
(** ** The change mark *)

Section ChangeMark.
Context `{RouteOps}.

Lemma undoIndexClean_push cmd c : undoIndexClean (push cmd c) = undoIndexClean c.
Proof.
  unfold push. destruct (QList.last _ ≫= _); [done|]. by case_bool_decide.
Qed.

Lemma undoIndexClean_postChange cmd c :
  undoIndexClean (postChange (Some cmd) c)
  = if decide (undoIndex c < undoIndexClean c) then -1 else undoIndexClean c.
Proof. unfold postChange. by rewrite undoIndexClean_push. Qed.

Lemma undoIndex_postChange_new cmd c :
  pushesNew (cmdType cmd) (undoStack c) ->
  undoIndex (postChange (Some cmd) c) = undoIndex c + 1.
Proof.
  intros Hnew. unfold postChange.
  edestruct (push_new (setFlightplanAfter (removeNoSaveEntries (flightplan (route c))) cmd))
    as (older & _ & _ & -> & _); [|done].
  done.
Qed.

Lemma undoIndexClean_changeRouteUndo fp c :
  undoIndexClean (changeRouteUndo fp c) = undoIndexClean c.
Proof.
  unfold changeRouteUndo.
  by destruct (undo_changeRouteUndoRedo fp
                 (setUndo (undoStack c) (undoIndex c - 1) (undoIndexClean c) c))
    as (_ & _ & ->).
Qed.

Lemma undoIndexClean_changeRouteRedo fp c :
  undoIndexClean (changeRouteRedo fp c) = undoIndexClean c.
Proof.
  unfold changeRouteRedo.
  by destruct (undo_changeRouteUndoRedo fp
                 (setUndo (undoStack c) (undoIndex c + 1) (undoIndexClean c) c))
    as (_ & _ & ->).
Qed.

Lemma undoIndex_changeRouteUndo fp c : undoIndex (changeRouteUndo fp c) = undoIndex c - 1.
Proof.
  unfold changeRouteUndo.
  by destruct (undo_changeRouteUndoRedo fp
                 (setUndo (undoStack c) (undoIndex c - 1) (undoIndexClean c) c))
    as (_ & -> & _).
Qed.

Lemma undoIndex_changeRouteRedo fp c : undoIndex (changeRouteRedo fp c) = undoIndex c + 1.
Proof.
  unfold changeRouteRedo.
  by destruct (undo_changeRouteUndoRedo fp
                 (setUndo (undoStack c) (undoIndex c + 1) (undoIndexClean c) c))
    as (_ & -> & _).
Qed.

Lemma hasChanged_true c :
  hasChanged c = true <-> undoIndexClean c = -1 \/ undoIndexClean c <> undoIndex c.
Proof.
  unfold hasChanged. rewrite orb_true_iff, negb_true_iff, bool_decide_eq_true,
    bool_decide_eq_false. done.
Qed.

Lemma hasChanged_false c :
  hasChanged c = false <-> undoIndexClean c <> -1 /\ undoIndexClean c = undoIndex c.
Proof.
  unfold hasChanged. rewrite orb_false_iff, negb_false_iff, bool_decide_eq_true,
    bool_decide_eq_false. done.
Qed.

Lemma hasChanged_eq c c' :
  undoIndex c' = undoIndex c -> undoIndexClean c' = undoIndexClean c ->
  hasChanged c' = hasChanged c.
Proof. unfold hasChanged. by intros -> ->. Qed.

Lemma undoStep_keeps_lost_index c c' :
  undoStep c c' -> undoIndexClean c = -1 -> undoIndexClean c' = -1.
Proof.
  intros Hstep Hc. destruct Hstep as [f c|alt type c|[cmd|] c|fp c|fp c]; try done.
  - rewrite undoIndexClean_postChange, Hc. by case_decide.
  - by rewrite undoIndexClean_changeRouteUndo.
  - by rewrite undoIndexClean_changeRouteRedo.
Qed.
End ChangeMark.

(** X1.  The end of an undoable change that is pushed as a command of its
    own always leaves the plan marked as changed, whatever the undo index
    and the clean index were before. *)
Theorem postChange_marks_changed `{RouteOps} (cmd : RouteCommand)
    (c : RouteController) :
  pushesNew (cmdType cmd) (undoStack c) ->
  hasChanged (postChange (Some cmd) c) = true.
Proof.
  intros Hnew. apply hasChanged_true.
  rewrite undoIndexClean_postChange, undoIndex_postChange_new by done.
  case_decide; [by left | right; lia].
Qed.

(** X2.  Undoing a change that was pushed as a command of its own brings
    the change mark back to what it was before the change: a plan that was
    unchanged is unchanged again, a changed plan stays changed. *)
Theorem changeRouteUndo_restores_change_mark `{RouteOps} (cmd : RouteCommand)
    (newFlightplan : Flightplan) (c : RouteController) :
  pushesNew (cmdType cmd) (undoStack c) ->
  hasChanged (changeRouteUndo newFlightplan (postChange (Some cmd) c)) = hasChanged c.
Proof.
  intros Hnew.
  destruct (hasChanged c) eqn:Hc.
  - apply hasChanged_true. apply hasChanged_true in Hc.
    rewrite undoIndexClean_changeRouteUndo, undoIndex_changeRouteUndo,
      undoIndexClean_postChange, undoIndex_postChange_new by done.
    case_decide; [by left|]. destruct Hc as [Hc|Hc]; [by left | right; lia].
  - apply hasChanged_false. apply hasChanged_false in Hc as [Hc1 Hc2].
    rewrite undoIndexClean_changeRouteUndo, undoIndex_changeRouteUndo,
      undoIndexClean_postChange, undoIndex_postChange_new by done.
    rewrite decide_False by lia. split; [done | lia].
Qed.

(** X3.  When the saved state of the plan is undone and another change
    is made after that, the clean index is given up: the plan counts as
    changed, also when the new command merges and also when the undo index
    is back at the value it had when the plan was saved. *)
Theorem change_after_undo_of_saved_state `{RouteOps} (cmd : RouteCommand)
    (newFlightplan : Flightplan) (c : RouteController) :
  hasChanged c = false ->
  let c' := postChange (Some cmd) (changeRouteUndo newFlightplan c) in
  undoIndexClean c' = -1 /\ hasChanged c' = true.
Proof.
  intros Hc c'. apply hasChanged_false in Hc as [Hc1 Hc2].
  assert (undoIndexClean c' = -1) as Hclean.
  { subst c'. rewrite undoIndexClean_postChange, undoIndexClean_changeRouteUndo,
      undoIndex_changeRouteUndo. rewrite decide_True by lia. done. }
  split; [done|]. apply hasChanged_true. by left.
Qed.

(** X4.  A clean index that was given up does not come back by editing:
    from a state with the clean index -1, no sequence of route changes,
    widget changes, undoable changes, undos and redos reaches a state that
    counts as unchanged. *)
Theorem lost_clean_index_is_permanent `{RouteOps} (c c' : RouteController) :
  undoIndexClean c = -1 -> rtc undoStep c c' -> hasChanged c' = true.
Proof.
  intros Hc Hsteps. apply hasChanged_true. left.
  induction Hsteps as [c|c c1 c2 Hstep _ IH]; [done|].
  apply IH. by apply (undoStep_keeps_lost_index c).
Qed.

Section ChangeMarkRuns.
#[local] Existing Instance World.ops.
Import World Samples.

Lemma run_change_mark :
  hasChanged (postChange (Some (preChange "Delete" EDIT three)) three) = true.
Proof.
  apply (postChange_marks_changed (preChange "Delete" EDIT three) three).
  apply pushesNew_not_mergeable. reflexivity.
Defined.

Lemma run_change_mark_undone :
  hasChanged (changeRouteUndo (flightplan (route three))
                (postChange (Some (preChange "Delete" EDIT three)) three))
  = hasChanged three.
Proof.
  apply (changeRouteUndo_restores_change_mark (preChange "Delete" EDIT three)
           (flightplan (route three)) three).
  apply pushesNew_not_mergeable. reflexivity.
Defined.

Lemma run_change_below_clean_index :
  let c' := postChange (Some (preChange "Delete" EDIT three))
              (changeRouteUndo (flightplan (route three)) three) in
  undoIndexClean c' = -1 /\ hasChanged c' = true.
Proof.
  apply (change_after_undo_of_saved_state (preChange "Delete" EDIT three)
           (flightplan (route three)) three).
  reflexivity.
Defined.

Lemma run_lost_clean_index :
  hasChanged (changeRouteRedo (flightplan (route three))
                (setUndo (mkStack [] 0) 0 (-1) three)) = true.
Proof.
  apply (lost_clean_index_is_permanent (setUndo (mkStack [] 0) 0 (-1) three)).
  - reflexivity.
  - apply rtc_once. apply step_redo.
Defined.
End ChangeMarkRuns.
(** ** A new plan, saving and exporting *)

(** X5.  [newFlightplan] leaves a blank plan whatever was loaded before:
    no entries, no legs, an empty undo stack, both undo counters at zero
    so that the plan counts as unchanged, the default file format and no
    file name; cruise altitude and plan type are those of the widgets,
    which stay as they are. *)
Theorem newFlightplan_is_blank `{RouteOps} `{!RecomputeLaws} `{!LegLaws}
    (c : RouteController) (f : RouteFile) :
  let c' := (newFlightplan (c, f)).1 in
  let f' := (newFlightplan (c, f)).2 in
  entries (flightplan (route c')) = []
  /\ legs (route c') = []
  /\ undoStack c' = mkStack [] 0
  /\ hasChanged c' = false
  /\ routeFileFormat c' = PLN_FSX
  /\ f' = mkRouteFile EmptyString EmptyString EmptyString VFR
  /\ cruisingAltitude (flightplan (route c')) = spinBoxRouteAlt c
  /\ flightplanType (flightplan (route c'))
     = (if decide (comboBoxRouteType c = 0) then IFR else VFR)
  /\ spinBoxRouteAlt c' = spinBoxRouteAlt c
  /\ comboBoxRouteType c' = comboBoxRouteType c.
Proof.
  unfold newFlightplan, clearRoute. cbv zeta. simpl.
  set (c2 := onRoute createRouteLegsFromFlightplan _).
  assert (flightplan (route c2)
          = setCruisingAltitude (spinBoxRouteAlt c)
              (setFlightplanType (if decide (comboBoxRouteType c = 0) then IFR else VFR)
                 (setCruisingAltitude (spinBoxRouteAlt c)
                    (setFlightplanType
                       (if decide (comboBoxRouteType c = 0) then IFR else VFR)
                       (clearFlightplan
                          (flightplan (removeProcedureLegs PROCEDURE_ALL (route c))))))))
    as Hfp.
  { subst c2. rewrite route_onRoute, createRouteLegsFromFlightplan_flightplan. done. }
  assert (legs (route c2) = []) as Hlegs.
  { destruct createRouteLegsFromFlightplan_header as [resolve Hres].
    subst c2. rewrite route_onRoute. eapply fmap_nil_inv. rewrite Hres. done. }
  set (c3 := onRoute updateAll c2).
  assert (flightplan (route c3) = flightplan (route c2)) as Hfp3.
  { subst c3. rewrite route_onRoute. apply updateAll_flightplan. }
  assert (legs (route c3) = []) as Hlegs3.
  { subst c3. rewrite route_onRoute, updateAll_legs. done. }
  assert (updateTableModel c3 = c3) as ->.
  { unfold updateTableModel. rewrite Hfp3, Hfp. done. }
  rewrite Hfp3, Hfp, Hlegs3. done.
Qed.

Section Saving.
Context `{RouteOps} `{FileOps}.

Lemma setRouteFileFormat_same c : setRouteFileFormat (routeFileFormat c) c = c.
Proof. by destruct c. Qed.

Lemma setRouteFilename_same f : setRouteFilename (routeFilename f) f = f.
Proof. by destruct f. Qed.

(** What a save does to the controller. *)
Lemma saveFlightplan_cases cleanExport c f ok c' f' :
  saveFlightplan cleanExport (c, f) = Some (ok, (c', f')) ->
  route c' = route c /\ undoStack c' = undoStack c /\ undoIndex c' = undoIndex c
  /\ spinBoxRouteAlt c' = spinBoxRouteAlt c
  /\ comboBoxRouteType c' = comboBoxRouteType c
  /\ routeFilename f' = routeFilename f
  /\ (cleanExport = true -> f' = f /\ undoIndexClean c' = undoIndexClean c)
  /\ (ok = false -> c' = c)
  /\ (ok = true -> cleanExport = false -> undoIndexClean c' = undoIndex c).
Proof.
  unfold saveFlightplan. intros Hs.
  destruct (QList.last (legs (route c))) as [l|]; [|done]. simpl in Hs.
  destruct (flightplanSave _ _ _); simplify_eq.
  - destruct cleanExport, (fileFormat _); done.
  - destruct cleanExport; done.
Qed.
End Saving.

(** X6.  Exporting a clean copy of the plan leaves the controller as it
    is: the route, the undo stack, both undo counters (so the change
    mark), the file name and the file format are the same afterwards,
    whether the file was written or not, also when the save switched an
    old file format to the current one. *)
Theorem exportFlighplanAsClean_keeps_state `{RouteOps} `{FileOps}
    (filename : string) (c : RouteController) (f : RouteFile) :
  legs (route c) <> [] ->
  exists retval, exportFlighplanAsClean filename (c, f) = Some (retval, (c, f)).
Proof.
  intros Hlegs. unfold exportFlighplanAsClean, saveFlightplan.
  destruct (QList.last (legs (route (setRouteFileFormat PLN_FSX c)))) as [l|] eqn:Hlast.
  2:{ apply last_None in Hlast. done. }
  cbn [mbind option_bind]. cbv zeta.
  destruct (flightplanSave _ _ _); cbn [mbind option_bind].
  - eexists. do 2 f_equal. destruct (fileFormat _), c, f; done.
  - eexists. do 2 f_equal. destruct c, f; done.
Qed.

(** X7.  [saveFlighplanAs] takes over the file name and the file format
    before it writes: they are the new ones also when the file could not
    be written.  Only a save that went through sets the clean index to
    the undo index, which makes the plan count as unchanged; one that
    failed leaves both undo counters and the change mark alone. *)
Theorem saveFlighplanAs_marks_clean_on_success `{RouteOps} `{FileOps}
    (filename : string) (targetFileFormat : FileFormat)
    (c c' : RouteController) (f f' : RouteFile) (ok : bool) :
  saveFlighplanAs filename targetFileFormat (c, f) = Some (ok, (c', f')) ->
  routeFilename f' = filename
  /\ fileFormat (flightplan (route c')) = targetFileFormat
  /\ entries (flightplan (route c')) = entries (flightplan (route c))
  /\ legs (route c') = legs (route c)
  /\ undoIndex c' = undoIndex c
  /\ (ok = true -> undoIndexClean c' = undoIndex c
                   /\ (undoIndex c <> -1 -> hasChanged c' = false))
  /\ (ok = false -> undoIndexClean c' = undoIndexClean c
                    /\ hasChanged c' = hasChanged c
                    /\ routeFileFormat c' = targetFileFormat).
Proof.
  unfold saveFlighplanAs. intros Hs.
  apply saveFlightplan_cases in Hs
    as (Hr & _ & Hui & _ & _ & Hname & _ & Hfail & Hok).
  rewrite Hr, Hui. split; [done|]. do 4 (split; [done|]). split.
  - intros ->. split; [by apply Hok|].
    intros Hne. apply hasChanged_false. rewrite Hui, Hok by done. done.
  - intros ->. by rewrite Hfail.
Qed.

Section SavingRuns.
#[local] Existing Instance World.ops.
#[local] Existing Instance WorldFiles.ops.
Import World Samples WorldFiles.

Lemma run_new_flightplan :
  let c' := (newFlightplan (five, noFile)).1 in
  let f' := (newFlightplan (five, noFile)).2 in
  entries (flightplan (route c')) = []
  /\ legs (route c') = []
  /\ undoStack c' = mkStack [] 0
  /\ hasChanged c' = false
  /\ routeFileFormat c' = PLN_FSX
  /\ f' = mkRouteFile EmptyString EmptyString EmptyString VFR
  /\ cruisingAltitude (flightplan (route c')) = spinBoxRouteAlt five
  /\ flightplanType (flightplan (route c'))
     = (if decide (comboBoxRouteType five = 0) then IFR else VFR)
  /\ spinBoxRouteAlt c' = spinBoxRouteAlt five
  /\ comboBoxRouteType c' = comboBoxRouteType five.
Proof.
  exact (@newFlightplan_is_blank World.ops World_recompute_laws World_leg_laws
           five noFile).
Defined.

Lemma run_export_clean :
  legs (route three) <> []
  /\ exists retval,
       exportFlighplanAsClean "copy.pln" (three, noFile) = Some (retval, (three, noFile)).
Proof.
  assert (legs (route three) <> []) as Hlegs by (vm_compute; discriminate).
  split; [exact Hlegs|].
  exact (exportFlighplanAsClean_keeps_state "copy.pln" three noFile Hlegs).
Defined.

Lemma run_save_as :
  exists c' f',
    saveFlighplanAs "plan.pln" PLN_FS9 (three, noFile) = Some (true, (c', f'))
    /\ routeFilename f' = "plan.pln"
    /\ routeFileFormat c' = PLN_FSX
    /\ hasChanged c' = false.
Proof.
  eexists _, _.
  assert (saveFlighplanAs "plan.pln" PLN_FS9 (three, noFile) = Some (true, (_, _)))
    as Hsave by (vm_compute; reflexivity).
  split; [exact Hsave|].
  destruct (saveFlighplanAs_marks_clean_on_success _ _ _ _ _ _ _ Hsave)
    as (Hname & _ & _ & _ & _ & Hok & _).
  split; [exact Hname|]. split; [reflexivity|].
  apply Hok; [reflexivity | vm_compute; discriminate].
Defined.
End SavingRuns.
(** ** The header of the plan *)

Lemma routeToFlightPlan_again `{RouteOps} (r : Route) :
  routeToFlightPlan (routeToFlightPlan r) = routeToFlightPlan r.
Proof.
  unfold routeToFlightPlan at 1. rewrite routeToFlightPlan_legs.
  unfold routeToFlightPlan. destruct (legs r) as [|firstLeg rest]; [done|].
  cbv zeta. by repeat case_decide.
Qed.

(** X8.  [routeToFlightPlan] derives the header of the plan from the end
    legs only, so running it again changes nothing more; it never touches
    the legs, and it keeps the entries unless the route has no leg, in
    which case the plan is cleared. *)
Theorem routeToFlightPlan_idempotent `{RouteOps} (r : Route) :
  routeToFlightPlan (routeToFlightPlan r) = routeToFlightPlan r
  /\ legs (routeToFlightPlan r) = legs r
  /\ entries (flightplan (routeToFlightPlan r))
     = (if QList.isEmpty (legs r) then [] else entries (flightplan r)).
Proof.
  split; [apply routeToFlightPlan_again|].
  split; [apply routeToFlightPlan_legs | apply routeToFlightPlan_entries_cases].
Qed.
(** ** The procedures an edit touches *)

Lemma lor_if (b : bool) (types mask : Z) :
  (if b then Z.lor types mask else types) = Z.lor types (if b then mask else 0).
Proof. destruct b; [done|]. by rewrite Z.lor_0_r. Qed.

Lemma lor_decide (P : Prop) `{!Decision P} (types mask : Z) :
  (if decide P then Z.lor types mask else types)
  = Z.lor types (if decide P then mask else 0).
Proof. case_decide; [done|]. by rewrite Z.lor_0_r. Qed.

Lemma includesFlags_lor_l types more mask :
  includesFlags types mask -> includesFlags (Z.lor types more) mask.
Proof.
  unfold includesFlags. intros Hm. apply Z.bits_inj'. intros n Hn.
  apply (f_equal (fun z => Z.testbit z n)) in Hm.
  rewrite Z.land_spec in Hm. rewrite Z.land_spec, Z.lor_spec.
  destruct (Z.testbit types n), (Z.testbit more n), (Z.testbit mask n); done.
Qed.

Lemma includesFlags_lor_r types more mask :
  includesFlags more mask -> includesFlags (Z.lor types more) mask.
Proof. rewrite Z.lor_comm. apply includesFlags_lor_l. Qed.

Lemma includesFlags_refl mask : includesFlags mask mask.
Proof. apply Z.land_diag. Qed.

Lemma testFlag_false types flag : testFlag types flag = false <-> Z.land types flag = 0.
Proof. unfold testFlag. rewrite negb_false_iff. apply Z.eqb_eq. Qed.

Section Affected.
Context `{RouteOps}.

(** The flags one index adds to the mask. *)
Lemma affectedProceduresAt_lor r types index :
  affectedProceduresAt r types index
  = Z.lor types (affectedProceduresAt r PROCEDURE_NONE index).
Proof.
  unfold affectedProceduresAt. cbv zeta.
  destruct (routeAt r index) as [l|].
  - rewrite !lor_if, !lor_decide, !Z.lor_assoc. unfold PROCEDURE_NONE.
    by rewrite Z.lor_0_r.
  - rewrite !lor_decide, !Z.lor_assoc. unfold PROCEDURE_NONE. by rewrite Z.lor_0_r.
Qed.

Lemma foldl_affectedProceduresAt r types indexes :
  foldl (affectedProceduresAt r) types indexes
  = Z.lor types (foldl (affectedProceduresAt r) PROCEDURE_NONE indexes).
Proof.
  revert types. induction indexes as [|i indexes IH]; intros types; simpl.
  - by rewrite Z.lor_0_r.
  - rewrite IH, (IH (affectedProceduresAt _ _ _)).
    rewrite (affectedProceduresAt_lor r types). by rewrite Z.lor_assoc.
Qed.

Lemma foldl_affectedProceduresAt_includes r indexes index mask :
  index ∈ indexes ->
  includesFlags (affectedProceduresAt r PROCEDURE_NONE index) mask ->
  includesFlags (foldl (affectedProceduresAt r) PROCEDURE_NONE indexes) mask.
Proof.
  intros Hin Hm. induction indexes as [|i indexes IH]; [by apply elem_of_nil in Hin|].
  simpl. rewrite foldl_affectedProceduresAt.
  apply elem_of_cons in Hin as [->|Hin].
  - by apply includesFlags_lor_l.
  - apply includesFlags_lor_r. by apply IH.
Qed.

Lemma affectedProcedures_includes r indexes mask :
  includesFlags (foldl (affectedProceduresAt r) PROCEDURE_NONE indexes) mask ->
  includesFlags (affectedProcedures indexes r) mask.
Proof.
  intros Hm. unfold affectedProcedures. cbv zeta.
  rewrite !lor_if. by do 2 apply includesFlags_lor_l.
Qed.

Lemma foldl_affectedProceduresAt_none r indexes :
  foldl (affectedProceduresAt r) PROCEDURE_NONE indexes = PROCEDURE_NONE
  <-> forall index, index ∈ indexes ->
        affectedProceduresAt r PROCEDURE_NONE index = PROCEDURE_NONE.
Proof.
  unfold PROCEDURE_NONE. induction indexes as [|i indexes IH]; simpl.
  - split; [|done]. intros _ index Hin. by apply elem_of_nil in Hin.
  - rewrite foldl_affectedProceduresAt. unfold PROCEDURE_NONE.
    rewrite Z.lor_eq_0_iff, IH. split.
    + intros [Hi Hrest] index [->|Hin]%elem_of_cons; auto.
    + intros Hall. split; [apply Hall; left|].
      intros index Hin. apply Hall. by right.
Qed.

Lemma if_zero (b : bool) (mask : Z) :
  mask <> 0 -> (if b then mask else 0) = 0 <-> b = false.
Proof. destruct b; split; done. Qed.

Lemma affectedProceduresAt_none r index :
  affectedProceduresAt r PROCEDURE_NONE index = PROCEDURE_NONE
  <-> index <> 0 /\ index < routeSize r - 1
      /\ forall l, routeAt r index = Some l -> freeOfProcedures l.
Proof.
  unfold affectedProceduresAt, freeOfProcedures. cbv zeta.
  destruct (routeAt r index) as [l|].
  - rewrite !lor_if, !lor_decide. unfold PROCEDURE_NONE.
    rewrite Z.lor_0_l, !Z.lor_eq_0_iff.
    unfold isSidTransition, isSid, isStarTransition, isStar, isTransition,
      isApproach, isMissed.
    rewrite !if_zero by done.
    rewrite orb_false_iff, !testFlag_false.
    unfold PROCEDURE_ALL, PROCEDURE_ARRIVAL_ALL, PROCEDURE_ARRIVAL, PROCEDURE_STAR_ALL,
      PROCEDURE_DEPARTURE.
    split.
    + intros (((((((H0 & Hn) & Hst) & Hs) & Hrt) & Hr) & Ht) & Ha & Hm).
      destruct (decide (index = 0)); [by vm_compute in H0|].
      destruct (decide (index >= routeSize r - 1)); [by vm_compute in Hn|].
      split; [done|]. split; [lia|].
      intros l' [= <-]. rewrite !Z.land_lor_distr_r, !Z.lor_eq_0_iff. done.
    + intros (H0 & Hn & Hl). specialize (Hl l eq_refl).
      rewrite !Z.land_lor_distr_r, !Z.lor_eq_0_iff in Hl.
      destruct Hl as (((Ha & Hm & Ht) & Hst & Hstt) & Hs & Hsdt).
      rewrite decide_False by done. rewrite decide_False by lia.
      repeat split; assumption.
  - rewrite !lor_decide. unfold PROCEDURE_NONE. rewrite Z.lor_0_l, !Z.lor_eq_0_iff.
    split.
    + intros [H0 Hn].
      destruct (decide (index = 0)); [by vm_compute in H0|].
      destruct (decide (index >= routeSize r - 1)); [by vm_compute in Hn|].
      split; [done|]. split; [lia|done].
    + intros (H0 & Hn & _). rewrite decide_False by done. by rewrite decide_False by lia.
Qed.
End Affected.

(** X9.  Whatever else is selected, [affectedProcedures] asks for the
    whole procedure around a selected row: the departure procedure with
    its transition for row 0 and for a SID leg, every arrival procedure
    for the last row and beyond, the STAR with its transition for a STAR
    leg, approach, missed approach and transition together for an approach
    or missed approach leg. *)
Theorem affectedProcedures_takes_whole_procedures `{RouteOps}
    (indexes : list Z) (r : Route) (index : Z) :
  index ∈ indexes ->
  let types := affectedProcedures indexes r in
  (index = 0 -> includesFlags types PROCEDURE_DEPARTURE)
  /\ (index >= routeSize r - 1 -> includesFlags types PROCEDURE_ARRIVAL_ALL)
  /\ forall l, routeAt r index = Some l ->
       (isSid (procedureLeg l) = true -> includesFlags types PROCEDURE_DEPARTURE)
       /\ (isStar (procedureLeg l) = true -> includesFlags types PROCEDURE_STAR_ALL)
       /\ (isApproach (procedureLeg l) || isMissed (procedureLeg l) = true ->
           includesFlags types PROCEDURE_ARRIVAL).
Proof.
  intros Hin types.
  assert (forall mask,
    includesFlags (affectedProceduresAt r PROCEDURE_NONE index) mask ->
    includesFlags types mask) as Hstep.
  { intros mask Hm. apply affectedProcedures_includes.
    by apply (foldl_affectedProceduresAt_includes r indexes index). }
  split; [|split].
  - intros ->. apply Hstep. unfold affectedProceduresAt. cbv zeta.
    rewrite (decide_True (P := 0 = 0)) by done.
    destruct (routeAt r 0) as [l|].
    + rewrite !lor_if, (lor_decide (0 >= _)).
      do 7 apply includesFlags_lor_l. apply includesFlags_lor_r, includesFlags_refl.
    + rewrite (lor_decide (0 >= _)).
      apply includesFlags_lor_l, includesFlags_lor_r, includesFlags_refl.
  - intros Hlast. apply Hstep. unfold affectedProceduresAt. cbv zeta.
    rewrite (decide_True (P := index >= _)) by done.
    destruct (routeAt r index) as [l|].
    + rewrite !lor_if. do 6 apply includesFlags_lor_l.
      apply includesFlags_lor_r, includesFlags_refl.
    + apply includesFlags_lor_r, includesFlags_refl.
  - intros l Hl. split; [|split]; intros Hleg; apply Hstep;
      unfold affectedProceduresAt; cbv zeta; rewrite Hl, Hleg.
    + rewrite !lor_if. do 4 apply includesFlags_lor_l.
      apply includesFlags_lor_r, includesFlags_refl.
    + rewrite !lor_if. do 2 apply includesFlags_lor_l.
      apply includesFlags_lor_r, includesFlags_refl.
    + apply includesFlags_lor_r, includesFlags_refl.
Qed.

Lemma affectedProcedures_of_fold `{RouteOps} (indexes : list Z) (r : Route) :
  affectedProcedures indexes r = PROCEDURE_NONE
  <-> foldl (affectedProceduresAt r) PROCEDURE_NONE indexes = PROCEDURE_NONE.
Proof.
  unfold affectedProcedures. cbv zeta. rewrite !lor_if. unfold PROCEDURE_NONE.
  rewrite !Z.lor_eq_0_iff. split; [by intros [[? ?] ?]|].
  intros Hz. rewrite Hz. done.
Qed.

Lemma affectedProcedures_none_intro `{RouteOps} (indexes : list Z) (r : Route) :
  (forall index, index ∈ indexes ->
     index <> 0 /\ index < routeSize r - 1
     /\ forall l, routeAt r index = Some l -> freeOfProcedures l) ->
  affectedProcedures indexes r = PROCEDURE_NONE.
Proof.
  intros Hall. apply affectedProcedures_of_fold, foldl_affectedProceduresAt_none.
  intros index Hin. apply affectedProceduresAt_none. auto.
Qed.

(** X10.  [affectedProcedures] asks for no procedure at all exactly when
    every selected row lies strictly between the first and the last row
    and the leg on it carries none of the seven procedure tags. *)
Theorem affectedProcedures_none_iff_interior_free `{RouteOps}
    (indexes : list Z) (r : Route) :
  affectedProcedures indexes r = PROCEDURE_NONE
  <-> forall index, index ∈ indexes ->
        index <> 0 /\ index < routeSize r - 1
        /\ forall l, routeAt r index = Some l -> freeOfProcedures l.
Proof.
  rewrite affectedProcedures_of_fold, foldl_affectedProceduresAt_none.
  split; intros Hall index Hin.
  - apply affectedProceduresAt_none. by apply Hall.
  - apply affectedProceduresAt_none. by apply Hall.
Qed.
(** ** Airway names in a list of entries *)

Lemma eraseAirwayEntries_alter row es :
  0 <= row -> eraseAirwayEntries row es = alter (setAirway EmptyString) (Z.to_nat row) es.
Proof.
  intros Hrow. unfold eraseAirwayEntries, QList.size. case_decide as Hr; [done|].
  apply list_eq. intros j. destruct (decide (j = Z.to_nat row)) as [->|Hj].
  - rewrite list_lookup_alter_eq. rewrite (lookup_ge_None_2 es) by lia. done.
  - by rewrite list_lookup_alter_ne.
Qed.

Lemma eraseAirwayEntries_nil row : eraseAirwayEntries row [] = [].
Proof. unfold eraseAirwayEntries. by case_decide. Qed.

Lemma eraseAirwayEntries_head e es :
  eraseAirwayEntries 0 (e :: es) = setAirway EmptyString e :: es.
Proof. by rewrite eraseAirwayEntries_alter. Qed.

Lemma eraseAirwayEntries_app_r pre post row :
  0 <= row ->
  eraseAirwayEntries (Z.of_nat (length pre) + row) (pre ++ post)
  = pre ++ eraseAirwayEntries row post.
Proof.
  intros Hrow. rewrite !eraseAirwayEntries_alter by lia.
  replace (Z.to_nat (Z.of_nat (length pre) + row))
    with (length pre + Z.to_nat row)%nat by lia.
  apply alter_app_r.
Qed.

Lemma eraseAirwayEntries_app_r0 pre post :
  eraseAirwayEntries (Z.of_nat (length pre)) (pre ++ post)
  = pre ++ eraseAirwayEntries 0 post.
Proof.
  rewrite <- (eraseAirwayEntries_app_r pre post 0) by done. by rewrite Z.add_0_r.
Qed.

Lemma eraseAirwayEntries_idemp row es :
  eraseAirwayEntries row (eraseAirwayEntries row es) = eraseAirwayEntries row es.
Proof.
  destruct (decide (0 <= row)) as [Hrow|Hrow].
  - rewrite !eraseAirwayEntries_alter by done.
    rewrite list_alter_alter_eq. apply list_alter_ext; [|done]. by intros [].
  - by rewrite !eraseAirwayEntries_outside by lia.
Qed.

Lemma eraseAirwayEntries_comm row1 row2 es :
  eraseAirwayEntries row1 (eraseAirwayEntries row2 es)
  = eraseAirwayEntries row2 (eraseAirwayEntries row1 es).
Proof.
  destruct (decide (row1 = row2)) as [->|Hne]; [done|].
  apply list_eq. intros j.
  destruct (decide (Z.of_nat j = row1)) as [H1|H1];
    destruct (decide (Z.of_nat j = row2)) as [H2|H2]; try lia.
  - rewrite (eraseAirwayEntries_at row1), (eraseAirwayEntries_other row2),
      (eraseAirwayEntries_other row2), (eraseAirwayEntries_at row1) by lia. done.
  - rewrite (eraseAirwayEntries_other row1), (eraseAirwayEntries_at row2),
      (eraseAirwayEntries_at row2), (eraseAirwayEntries_other row1) by lia. done.
  - by rewrite !eraseAirwayEntries_other by lia.
Qed.

Lemma fmap_eraseAirwayEntries row es :
  setAirway EmptyString <$> eraseAirwayEntries row es = setAirway EmptyString <$> es.
Proof.
  destruct (decide (0 <= row)) as [Hrow|Hrow].
  - rewrite eraseAirwayEntries_alter by done.
    apply list_eq. intros j. rewrite !list_lookup_fmap.
    destruct (decide (j = Z.to_nat row)) as [->|Hj].
    + rewrite list_lookup_alter_eq. by destruct (es !! Z.to_nat row).
    + by rewrite list_lookup_alter_ne.
  - by rewrite eraseAirwayEntries_outside by lia.
Qed.

(** ** The selected rows *)

Lemma Sorted_seqZ (m n : Z) : Sorted Z.le (seqZ m n).
Proof.
  destruct (decide (n <= 0)) as [Hn|Hn]; [rewrite seqZ_nil by done; constructor|].
  rewrite <- (Z2Nat.id n) by lia. generalize (Z.to_nat n). clear n Hn. intros n.
  revert m. induction n as [|n IH]; intros m; [constructor|].
  rewrite seqZ_cons by lia. replace (Z.pred (Z.of_nat (S n))) with (Z.of_nat n) by lia.
  constructor; [apply IH|].
  destruct n as [|n]; [constructor|].
  rewrite seqZ_cons by lia. constructor. lia.
Qed.

Lemma reverse_seqZ_S (m : Z) (n : nat) :
  reverse (seqZ m (Z.of_nat (S n))) = (m + Z.of_nat n) :: reverse (seqZ m (Z.of_nat n)).
Proof. by rewrite seqZ_S, reverse_app. Qed.

(** A selection that covers the rows [first .. first + count - 1], as one
    range or in pieces, in any order. *)
Lemma selectedRows_block (sm : list (Z * Z)) (first count : Z) (reverseOrder : bool) :
  concat (rowsOfRange <$> sm) ≡ₚ seqZ first count ->
  selectedRows (Some sm) reverseOrder
  = if reverseOrder then reverse (seqZ first count) else seqZ first count.
Proof.
  intros Hperm. unfold selectedRows.
  destruct (concat (rowsOfRange <$> sm)) as [|row rows] eqn:Hrows.
  - apply Permutation_nil_l in Hperm. rewrite <- Hperm. simpl. by destruct reverseOrder.
  - simpl.
    assert (merge_sort Z.le (row :: rows) = seqZ first count) as ->; [|done].
    apply (Sorted_unique Z.le).
    + apply Sorted_merge_sort. apply _.
    + apply Sorted_seqZ.
    + by rewrite merge_sort_Permutation.
Qed.

Lemma selectedRows_one_range (first count : Z) (reverseOrder : bool) :
  selectedRows (Some [(first, first + count - 1)]) reverseOrder
  = if reverseOrder then reverse (seqZ first count) else seqZ first count.
Proof.
  apply selectedRows_block. simpl. rewrite app_nil_r. unfold rowsOfRange. simpl.
  by replace (first + count - 1 - first + 1) with count by lia.
Qed.

(** ** Deleting rows *)

Section DeleteRows.
Context `{RouteOps}.

(** The state after the loop of [deleteSelectedLegs] over the rows of a
    block, the highest row first. *)
Lemma deleteRows_block (block : list FlightplanEntry) :
  forall (pre post : list FlightplanEntry) (lpre lblock lpost : list RouteLeg)
         (c : RouteController),
    entries (flightplan (route c)) = pre ++ block ++ post ->
    legs (route c) = lpre ++ lblock ++ lpost ->
    length lpre = length pre -> length lblock = length block ->
    exists c',
      deleteRows (reverse (seqZ (Z.of_nat (length pre)) (Z.of_nat (length block)))) c
      = c'
      /\ entries (flightplan (route c'))
         = pre ++ (if block is [] then post else eraseAirwayEntries 0 post)
      /\ legs (route c') = lpre ++ lpost
      /\ undoStack c' = undoStack c /\ undoIndex c' = undoIndex c
      /\ undoIndexClean c' = undoIndexClean c
      /\ spinBoxRouteAlt c' = spinBoxRouteAlt c
      /\ comboBoxRouteType c' = comboBoxRouteType c.
Proof.
  induction block as [|y block IH] using rev_ind;
    intros pre post lpre lblock lpost c He Hl Hlpre Hlblock.
  - destruct lblock; [|done]. exists c. simpl in *. done.
  - rewrite length_app in Hlblock. simpl in Hlblock.
    destruct lblock as [|ly lblock _] using rev_ind; [simpl in Hlblock; lia|].
    rewrite length_app in Hlblock. simpl in Hlblock.
    rewrite length_app. simpl.
    replace (length block + 1)%nat with (S (length block)) by lia.
    rewrite reverse_seqZ_S. simpl.
    set (row := Z.of_nat (length pre) + Z.of_nat (length block)).
    set (c1 := onRoute (fun r => setLegs (QList.removeAt row (legs r)) r) _).
    assert (row = Z.of_nat (length (pre ++ block))) as Hrow
      by (subst row; rewrite length_app; lia).
    assert (row = Z.of_nat (length (lpre ++ lblock))) as Hrow'
      by (subst row; rewrite length_app; lia).
    assert (entries (flightplan (route c1)) = pre ++ block ++ eraseAirwayEntries 0 post)
      as He1.
    { subst c1. rewrite route_onRoute. simpl. rewrite He.
      replace (pre ++ (block ++ [y]) ++ post) with ((pre ++ block) ++ y :: post)
        by (by rewrite <- !app_assoc).
      rewrite Hrow, QList_removeAt_middle, eraseAirwayEntries_app_r0.
      by rewrite <- app_assoc. }
    assert (legs (route c1) = lpre ++ lblock ++ lpost) as Hl1.
    { subst c1. rewrite route_onRoute. simpl. rewrite Hl.
      replace (lpre ++ (lblock ++ [ly]) ++ lpost) with ((lpre ++ lblock) ++ ly :: lpost)
        by (by rewrite <- !app_assoc).
      rewrite Hrow', QList_removeAt_middle. by rewrite <- app_assoc. }
    destruct (IH pre (eraseAirwayEntries 0 post) lpre lblock lpost c1)
      as (c' & Hdel & He' & Hl' & Hrest); try done; try lia.
    exists c'. split; [exact Hdel|]. split.
    { rewrite He'. f_equal.
      transitivity (eraseAirwayEntries 0 post).
      - destruct block; [done|]. by rewrite eraseAirwayEntries_idemp.
      - by destruct block. }
    split; [done|]. exact Hrest.
Qed.
End DeleteRows.


(** ** Deleting one row and deleting the selected rows *)

Section DeleteSteps.
Context `{RouteOps} `{!RecomputeLaws} `{!ProcedureLaws}.

Lemma procedureFree_removeProcedureLegs types r :
  procedureFree r ->
  flightplan (removeProcedureLegs types r) = flightplan r
  /\ legs (removeProcedureLegs types r) = legs r.
Proof. apply removeProcedureLegs_free. Qed.

Lemma routeDelete_row (c : RouteController) (pre post : list FlightplanEntry)
    (e : FlightplanEntry) (lpre lpost : list RouteLeg) (l : RouteLeg) :
  entries (flightplan (route c)) = pre ++ e :: post ->
  legs (route c) = lpre ++ l :: lpost ->
  length lpre = length pre -> length lpost = length post ->
  procedureFree (route c) \/ (lpre <> [] /\ lpost <> []) ->
  exists c',
    routeDelete (Z.of_nat (length pre)) c = Some c'
    /\ entries (flightplan (route c')) = pre ++ eraseAirwayEntries 0 post
    /\ legCore <$> legs (route c') = legCore <$> (lpre ++ lpost).
Proof.
  intros He Hl Hlpre Hlpost Hproc. unfold routeDelete. cbv zeta.
  set (c3 := eraseAirway _ _).
  assert (entries (flightplan (route c3)) = pre ++ eraseAirwayEntries 0 post) as He3.
  { subst c3. rewrite entries_eraseAirway, !route_onRoute. simpl.
    rewrite He, QList_removeAt_middle. apply eraseAirwayEntries_app_r0. }
  assert (legs (route c3) = lpre ++ lpost) as Hl3.
  { subst c3. rewrite legs_eraseAirway, !route_onRoute. simpl.
    by rewrite Hl, <- Hlpre, QList_removeAt_middle. }
  set (c4 := if decide (_ = routeSize (route c3)) then _ else c3).
  set (c4' := if decide (_ = 0) then _ else c4).
  assert (entries (flightplan (route c4')) = pre ++ eraseAirwayEntries 0 post
          /\ legs (route c4') = lpre ++ lpost) as [He4 Hl4].
  { destruct Hproc as [Hfree|[Hpre Hpost]].
    - assert (procedureFree (route c3)) as Hfree3.
      { intros l' Hl'. apply Hfree. rewrite Hl. rewrite Hl3 in Hl'.
        apply elem_of_app in Hl' as [?|?]; apply elem_of_app; [by left|].
        right. by apply elem_of_cons; right. }
      assert (flightplan (route c4) = flightplan (route c3)
              /\ legs (route c4) = legs (route c3)) as [Hf4 Hl4].
      { subst c4. case_decide; [|done]. rewrite route_onRoute.
        by apply procedureFree_removeProcedureLegs. }
      subst c4'. case_decide; [|by rewrite Hf4, Hl4].
      rewrite route_onRoute.
      destruct (procedureFree_removeProcedureLegs PROCEDURE_DEPARTURE (route c4))
        as [-> ->]; [|by rewrite Hf4, Hl4].
      intros l' Hl'. apply Hfree3. by rewrite <- Hl4.
    - subst c4' c4.
      rewrite (decide_False (P := Z.of_nat (length pre) = 0))
        by (rewrite <- Hlpre; destruct lpre; simpl; [done|lia]).
      rewrite (decide_False (P := _ = routeSize _)); [done|].
      unfold routeSize, QList.size. rewrite Hl3, length_app, <- Hlpre.
      destruct lpost; simpl; [done|lia]. }
  destruct (edit_tail_short (bool_decide (Z.of_nat (length pre) = 0))
              (preChange "Delete" EDIT c) c4') as (c' & Hc' & He' & Hl').
  exists c'. split; [exact Hc'|].
  rewrite He', Hl', He4, Hl4. split; [|done].
  apply parallel_entries. rewrite !length_app, eraseAirwayEntries_length. lia.
Qed.

Lemma deleteSelectedLegs_block (sm : list (Z * Z)) (c : RouteController)
    (pre block post : list FlightplanEntry) (lpre lblock lpost : list RouteLeg) :
  entries (flightplan (route c)) = pre ++ block ++ post ->
  legs (route c) = lpre ++ lblock ++ lpost ->
  length lpre = length pre -> length lblock = length block ->
  length lpost = length post ->
  block <> [] ->
  concat (rowsOfRange <$> sm)
    ≡ₚ seqZ (Z.of_nat (length pre)) (Z.of_nat (length block)) ->
  procedureFree (route c)
  \/ (lpre <> [] /\ lpost <> [] /\ Forall freeOfProcedures lblock) ->
  exists c',
    deleteSelectedLegs (Some sm) c = Some c'
    /\ entries (flightplan (route c')) = pre ++ eraseAirwayEntries 0 post
    /\ legCore <$> legs (route c') = legCore <$> (lpre ++ lpost).
Proof.
  intros He Hl Hlpre Hlblock Hlpost Hblock Hsel Hproc. unfold deleteSelectedLegs.
  rewrite (selectedRows_block sm _ _ true Hsel).
  set (rows := reverse (seqZ _ _)).
  assert (QList.isEmpty rows = false) as ->.
  { apply QList_isEmpty_length. subst rows.
    rewrite length_reverse, length_seqZ. destruct block; [done|simpl; lia]. }
  cbv zeta.
  destruct (deleteRows_block block pre post lpre lblock lpost c He Hl Hlpre Hlblock)
    as (c1 & Hdel & He1 & Hl1 & _).
  fold rows in Hdel. rewrite Hdel. clear Hdel.
  assert ((if block is [] then post else eraseAirwayEntries 0 post)
          = eraseAirwayEntries 0 post) as Hb by (by destruct block).
  rewrite Hb in He1. clear Hb.
  set (procs := affectedProcedures rows (route c)).
  set (c2 := onRoute (removeProcedureLegs procs) c1).
  assert (entries (flightplan (route c2)) = pre ++ eraseAirwayEntries 0 post
          /\ legs (route c2) = lpre ++ lpost) as [He2 Hl2].
  { subst c2. rewrite route_onRoute. destruct Hproc as [Hfree|(Hpre & Hpost & Hfree)].
    - destruct (procedureFree_removeProcedureLegs procs (route c1)) as [-> ->]; [|done].
      intros l' Hl'. apply Hfree. rewrite Hl. rewrite Hl1 in Hl'.
      apply elem_of_app in Hl' as [?|?]; apply elem_of_app; [by left|].
      right. apply elem_of_app. by right.
    - assert (procs = PROCEDURE_NONE) as ->.
      { apply affectedProcedures_none_intro. intros index Hin.
        subst rows. apply elem_of_reverse, elem_of_seqZ in Hin.
        assert (length (legs (route c))
                = (length lpre + length lblock + length lpost)%nat) as Hlen.
        { rewrite Hl, !length_app. lia. }
        split; [destruct lpre; simpl in *; [done|lia]|].
        split; [unfold routeSize, QList.size; destruct lpost; simpl in *; [done|lia]|].
        intros l' Hat. unfold routeAt in Hat. rewrite QList_at_lookup in Hat by lia.
        rewrite Hl in Hat.
        rewrite lookup_app_r in Hat by lia.
        rewrite lookup_app_l in Hat by lia.
        rewrite Forall_forall in Hfree. apply Hfree.
        by apply list_elem_of_lookup_2 in Hat. }
      destruct (removeProcedureLegs_none (route c1)) as [-> ->]. done. }
  destruct (edit_tail (bool_decide (0 ∈ rows))
              (preChange (if testFlag procs PROCEDURE_ALL
                          then "Delete Procedure" else "Delete Waypoints")
                         (if testFlag procs PROCEDURE_ALL then EDIT else DELETE) c) c2)
    as (c' & Hc' & He' & Hl').
  exists c'. split; [exact Hc'|].
  rewrite He', Hl', He2, Hl2. split; [|done].
  apply parallel_entries. rewrite !length_app, eraseAirwayEntries_length. lia.
Qed.
End DeleteSteps.

(** X11.  [routeDelete] on any row of a route without procedures, and on
    any row strictly between the first and the last of any route: the
    entry and the leg of the row are gone, so the route is one leg
    shorter, every other entry and leg is kept in its place, and the only
    other change to an entry is that the one which followed the deleted
    entry has an empty airway name, whatever name it carried; its
    identifier, position and save mark are as they were. *)
Theorem routeDelete_removes_row `{RouteOps} `{!RecomputeLaws} `{!ProcedureLaws}
    (c : RouteController) (pre post : list FlightplanEntry) (e : FlightplanEntry)
    (lpre lpost : list RouteLeg) (l : RouteLeg) :
  entries (flightplan (route c)) = pre ++ e :: post ->
  legs (route c) = lpre ++ l :: lpost ->
  length lpre = length pre -> length lpost = length post ->
  procedureFree (route c) \/ (lpre <> [] /\ lpost <> []) ->
  exists c',
    routeDelete (Z.of_nat (length pre)) c = Some c'
    /\ entries (flightplan (route c'))
       = pre ++ match post with
                | [] => []
                | next :: rest =>
                    {| icaoIdent := icaoIdent next; airway := EmptyString;
                       noSave := noSave next; position := position next |} :: rest
                end
    /\ legCore <$> legs (route c') = legCore <$> (lpre ++ lpost)
    /\ routeSize (route c') = routeSize (route c) - 1
    /\ QList.size (entries (flightplan (route c'))) = routeSize (route c').
Proof.
  intros He Hl Hlpre Hlpost Hproc.
  destruct (routeDelete_row c pre post e lpre lpost l He Hl Hlpre Hlpost Hproc)
    as (c' & Hc' & He' & Hl').
  exists c'. split; [exact Hc'|].
  split.
  { rewrite He'. f_equal. unfold eraseAirwayEntries, QList.size.
    destruct post as [|next rest]; [by case_decide|].
    rewrite decide_True by (simpl; lia). done. }
  split; [exact Hl'|].
  assert (length (legs (route c')) = (length lpre + length lpost)%nat) as Hlen.
  { rewrite <- (length_fmap legCore), Hl', length_fmap, length_app. done. }
  unfold routeSize, QList.size. rewrite Hlen, Hl, He', !length_app,
    eraseAirwayEntries_length. simpl. lia.
Qed.

(** X12.  [deleteSelectedLegs] with a selection that covers a block of
    rows, given as one range or in pieces and in any order: on a route
    without procedures, or when the block lies strictly between the first
    and the last row and holds no procedure leg, the entries and legs of
    the block are gone, so the route is shorter by the size of the block,
    all others are kept in their order, and the entry that followed the
    block has an empty airway name, whatever name it carried; its
    identifier, position and save mark are as they were. *)
Theorem deleteSelectedLegs_removes_block `{RouteOps} `{!RecomputeLaws}
    `{!ProcedureLaws} (sm : list (Z * Z)) (c : RouteController)
    (pre block post : list FlightplanEntry) (lpre lblock lpost : list RouteLeg) :
  entries (flightplan (route c)) = pre ++ block ++ post ->
  legs (route c) = lpre ++ lblock ++ lpost ->
  length lpre = length pre -> length lblock = length block ->
  length lpost = length post ->
  block <> [] ->
  concat (rowsOfRange <$> sm)
    ≡ₚ seqZ (Z.of_nat (length pre)) (Z.of_nat (length block)) ->
  procedureFree (route c)
  \/ (lpre <> [] /\ lpost <> [] /\ Forall freeOfProcedures lblock) ->
  exists c',
    deleteSelectedLegs (Some sm) c = Some c'
    /\ entries (flightplan (route c'))
       = pre ++ match post with
                | [] => []
                | next :: rest =>
                    {| icaoIdent := icaoIdent next; airway := EmptyString;
                       noSave := noSave next; position := position next |} :: rest
                end
    /\ legCore <$> legs (route c') = legCore <$> (lpre ++ lpost)
    /\ routeSize (route c') = routeSize (route c) - Z.of_nat (length block)
    /\ QList.size (entries (flightplan (route c'))) = routeSize (route c').
Proof.
  intros He Hl Hlpre Hlblock Hlpost Hblock Hsel Hproc.
  destruct (deleteSelectedLegs_block sm c pre block post lpre lblock lpost
              He Hl Hlpre Hlblock Hlpost Hblock Hsel Hproc) as (c' & Hc' & He' & Hl').
  exists c'. split; [exact Hc'|].
  split.
  { rewrite He'. f_equal. unfold eraseAirwayEntries, QList.size.
    destruct post as [|next rest]; [by case_decide|].
    rewrite decide_True by (simpl; lia). done. }
  split; [exact Hl'|].
  assert (length (legs (route c')) = (length lpre + length lpost)%nat) as Hlen.
  { rewrite <- (length_fmap legCore), Hl', length_fmap, length_app. done. }
  unfold routeSize, QList.size. rewrite Hlen, Hl, He', !length_app,
    eraseAirwayEntries_length. lia.
Qed.

(** X13.  The two ways to delete one row agree: deleting the single
    selected row with [deleteSelectedLegs] leaves the same entries and the
    same legs as [routeDelete] on that row, on a route without procedures
    and for a free leg strictly between the first and the last row. *)
Theorem deleteSelectedLegs_one_row_as_routeDelete `{RouteOps} `{!RecomputeLaws}
    `{!ProcedureLaws} (c : RouteController) (pre post : list FlightplanEntry)
    (e : FlightplanEntry) (lpre lpost : list RouteLeg) (l : RouteLeg) :
  entries (flightplan (route c)) = pre ++ e :: post ->
  legs (route c) = lpre ++ l :: lpost ->
  length lpre = length pre -> length lpost = length post ->
  procedureFree (route c) \/ (lpre <> [] /\ lpost <> [] /\ freeOfProcedures l) ->
  let row := Z.of_nat (length pre) in
  exists c1 c2,
    deleteSelectedLegs (Some [(row, row)]) c = Some c1
    /\ routeDelete row c = Some c2
    /\ entries (flightplan (route c1)) = entries (flightplan (route c2))
    /\ legCore <$> legs (route c1) = legCore <$> legs (route c2).
Proof.
  intros He Hl Hlpre Hlpost Hproc row.
  destruct (deleteSelectedLegs_block [(row, row)] c pre [e] post lpre [l] lpost)
    as (c1 & Hc1 & He1 & Hl1); try done.
  { simpl. unfold rowsOfRange. simpl. rewrite app_nil_r.
    by replace (row - row + 1) with 1 by lia. }
  { destruct Hproc as [?|(? & ? & ?)]; [by left|right]. repeat split; try done.
    by constructor. }
  destruct (routeDelete_row c pre post e lpre lpost l) as (c2 & Hc2 & He2 & Hl2);
    try done.
  { destruct Hproc as [?|(? & ? & ?)]; [by left|by right]. }
  exists c1, c2. by rewrite He1, He2, Hl1, Hl2.
Qed.

Section DeleteRuns.
#[local] Existing Instance World.ops.
Import World Samples.

Lemma three_procedureFree : procedureFree (route three).
Proof.
  intros l Hl. simpl in Hl.
  repeat (apply elem_of_cons in Hl as [->|Hl]; [done|]).
  by apply elem_of_nil in Hl.
Qed.

(** Deleting WAYPT1 from the five entry plan: WAYPT2 loses the name J2. *)
Lemma run_delete_row :
  (fun c => airway <$> entries (flightplan (route c))) <$> routeDelete 1 five
  = Some [EmptyString; EmptyString; "J3"; EmptyString]
  /\ exists c',
    routeDelete 1 five = Some c'
    /\ entries (flightplan (route c'))
       = [entry "KJFK" EmptyString 0; entry "WAYPT2" EmptyString 2; entry "FIX" "J3" 3;
          entry "KLAX" EmptyString 4]
    /\ legCore <$> legs (route c')
       = legCore <$> [legOfEntry (entry "KJFK" EmptyString 0);
                      legOfEntry (entry "WAYPT2" "J2" 2);
                      legOfEntry (entry "FIX" "J3" 3);
                      legOfEntry (entry "KLAX" EmptyString 4)]
    /\ routeSize (route c') = routeSize (route five) - 1
    /\ QList.size (entries (flightplan (route c'))) = routeSize (route c').
Proof.
  split; [vm_compute; reflexivity|].
  exact (@routeDelete_removes_row World.ops World_recompute_laws World_procedure_laws
           five [entry "KJFK" EmptyString 0]
           [entry "WAYPT2" "J2" 2; entry "FIX" "J3" 3; entry "KLAX" EmptyString 4]
           (entry "WAYPT1" "J1" 1) [legOfEntry (entry "KJFK" EmptyString 0)]
           [legOfEntry (entry "WAYPT2" "J2" 2); legOfEntry (entry "FIX" "J3" 3);
            legOfEntry (entry "KLAX" EmptyString 4)]
           (legOfEntry (entry "WAYPT1" "J1" 1)) eq_refl eq_refl eq_refl eq_refl
           (or_introl five_procedureFree)).
Defined.

(** Deleting WAYPT1 and WAYPT2, selected one by one: FIX loses the name
    J3. *)
Lemma run_delete_block :
  (fun c => airway <$> entries (flightplan (route c)))
    <$> deleteSelectedLegs (Some [(2, 2); (1, 1)]) five
  = Some [EmptyString; EmptyString; EmptyString]
  /\ exists c',
    deleteSelectedLegs (Some [(2, 2); (1, 1)]) five = Some c'
    /\ entries (flightplan (route c'))
       = [entry "KJFK" EmptyString 0; entry "FIX" EmptyString 3; entry "KLAX" EmptyString 4]
    /\ legCore <$> legs (route c')
       = legCore <$> [legOfEntry (entry "KJFK" EmptyString 0);
                      legOfEntry (entry "FIX" "J3" 3);
                      legOfEntry (entry "KLAX" EmptyString 4)]
    /\ routeSize (route c') = routeSize (route five) - 2
    /\ QList.size (entries (flightplan (route c'))) = routeSize (route c').
Proof.
  split; [vm_compute; reflexivity|].
  refine (@deleteSelectedLegs_removes_block World.ops World_recompute_laws
           World_procedure_laws [(2, 2); (1, 1)] five
           [entry "KJFK" EmptyString 0]
           [entry "WAYPT1" "J1" 1; entry "WAYPT2" "J2" 2]
           [entry "FIX" "J3" 3; entry "KLAX" EmptyString 4]
           [legOfEntry (entry "KJFK" EmptyString 0)]
           [legOfEntry (entry "WAYPT1" "J1" 1); legOfEntry (entry "WAYPT2" "J2" 2)]
           [legOfEntry (entry "FIX" "J3" 3); legOfEntry (entry "KLAX" EmptyString 4)]
           eq_refl eq_refl eq_refl eq_refl eq_refl _ _ (or_introl five_procedureFree)).
  - discriminate.
  - vm_compute. apply perm_swap.
Defined.

Lemma run_delete_one_row :
  exists c1 c2,
    deleteSelectedLegs (Some [(1, 1)]) three = Some c1
    /\ routeDelete 1 three = Some c2
    /\ entries (flightplan (route c1)) = entries (flightplan (route c2))
    /\ legCore <$> legs (route c1) = legCore <$> legs (route c2).
Proof.
  exact (@deleteSelectedLegs_one_row_as_routeDelete World.ops World_recompute_laws
           World_procedure_laws three [kjfk] [klax] waypt1 [legOfEntry kjfk]
           [legOfEntry klax] (legOfEntry waypt1) eq_refl eq_refl eq_refl eq_refl
           (or_introl three_procedureFree)).
Defined.
End DeleteRuns.
(** ** Moving the selected rows *)

Lemma QListMore_move_down {A} (p q : list A) (x y : A) :
  QListMore.move (Z.of_nat (length p)) (Z.of_nat (length p) + 1) (p ++ y :: x :: q)
  = Some (p ++ x :: y :: q).
Proof.
  unfold QListMore.move, QList.size. rewrite decide_True.
  2:{ rewrite length_app. simpl. lia. }
  rewrite Nat2Z.id, list_lookup_middle by done. cbn [mbind option_bind]. cbv zeta.
  rewrite delete_middle.
  replace (Z.to_nat (Z.of_nat (length p) + 1)) with (length (p ++ [x]))
    by (rewrite length_app; simpl; lia).
  replace (p ++ x :: q) with ((p ++ [x]) ++ q) by (by rewrite <- app_assoc).
  rewrite take_app_length, drop_app_length. by rewrite <- app_assoc.
Qed.

Lemma QListMore_move_up {A} (p q : list A) (x y : A) :
  QListMore.move (Z.of_nat (length p) + 1) (Z.of_nat (length p) + 1 + -1)
                 (p ++ x :: y :: q)
  = Some (p ++ y :: x :: q).
Proof.
  unfold QListMore.move, QList.size. rewrite decide_True.
  2:{ rewrite length_app. simpl. lia. }
  replace (Z.to_nat (Z.of_nat (length p) + 1)) with (length (p ++ [x]))
    by (rewrite length_app; simpl; lia).
  replace (p ++ x :: y :: q) with ((p ++ [x]) ++ y :: q) by (by rewrite <- app_assoc).
  rewrite list_lookup_middle by done. cbn [mbind option_bind]. cbv zeta.
  rewrite delete_middle.
  replace (Z.to_nat (Z.of_nat (length p) + 1 + -1)) with (length p) by lia.
  rewrite <- app_assoc. by rewrite take_app_length, drop_app_length.
Qed.

Lemma head_seqZ (m n : Z) : 0 < n -> head (seqZ m n) = Some m.
Proof. intros Hn. by rewrite seqZ_cons. Qed.

Lemma last_seqZ (m n : Z) : 0 < n -> last (seqZ m n) = Some (m + n - 1).
Proof.
  intros Hn. replace n with (Z.of_nat (S (Z.to_nat (n - 1)))) at 1 by lia.
  rewrite seqZ_S, last_snoc. f_equal. lia.
Qed.

Lemma eraseAirwayEntries_block (block post : list FlightplanEntry) :
  block <> [] ->
  eraseAirwayEntries 0 (block ++ post) = eraseAirwayEntries 0 block ++ post.
Proof. destruct block; [done|]. intros _. by rewrite !eraseAirwayEntries_head. Qed.

Section MoveRows.
Context `{RouteOps}.

(** The loop of [moveSelectedLegsInternal] for a block that moves down,
    the highest row first: the entry behind the block ends up in front of
    it. *)
Lemma moveRows_down_block (block : list FlightplanEntry) :
  forall (pre post : list FlightplanEntry) (x : FlightplanEntry)
         (lpre lblock lpost : list RouteLeg) (lx : RouteLeg) (c : RouteController),
    entries (flightplan (route c)) = pre ++ block ++ x :: post ->
    legs (route c) = lpre ++ lblock ++ lx :: lpost ->
    length lpre = length pre -> length lblock = length block ->
    exists c',
      moveRows 1 (reverse (seqZ (Z.of_nat (length pre)) (Z.of_nat (length block)))) c
      = Some c'
      /\ entries (flightplan (route c')) = pre ++ x :: block ++ post
      /\ legs (route c') = lpre ++ lx :: lblock ++ lpost
      /\ c' = onRoute (fun _ => route c') c.
Proof.
  induction block as [|y block IH] using rev_ind;
    intros pre post x lpre lblock lpost lx c He Hl Hlpre Hlblock.
  - destruct lblock; [|done]. exists c. simpl in *. repeat split; try done.
    by destruct c.
  - rewrite length_app in Hlblock. simpl in Hlblock.
    destruct lblock as [|ly lblock _] using rev_ind; [simpl in Hlblock; lia|].
    rewrite length_app in Hlblock. simpl in Hlblock.
    rewrite length_app. simpl.
    replace (length block + 1)%nat with (S (length block)) by lia.
    rewrite reverse_seqZ_S. simpl.
    rewrite He.
    replace (pre ++ (block ++ [y]) ++ x :: post) with ((pre ++ block) ++ y :: x :: post)
      by (by rewrite <- !app_assoc).
    replace (Z.of_nat (length pre) + Z.of_nat (length block))
      with (Z.of_nat (length (pre ++ block))) by (rewrite length_app; lia).
    rewrite QListMore_move_down. cbn [mbind option_bind].
    rewrite Hl.
    replace (lpre ++ (lblock ++ [ly]) ++ lx :: lpost)
      with ((lpre ++ lblock) ++ ly :: lx :: lpost) by (by rewrite <- !app_assoc).
    replace (length (pre ++ block)) with (length (lpre ++ lblock))
      by (rewrite !length_app; lia).
    rewrite QListMore_move_down. cbn [mbind option_bind].
    set (c1 := onRoute (setLegs _) _).
    destruct (IH pre (y :: post) x lpre lblock (ly :: lpost) lx c1)
      as (c' & Hmove & He' & Hl' & Hc'); try done; try lia.
    { subst c1. rewrite route_onRoute. simpl. by rewrite <- app_assoc. }
    { subst c1. rewrite route_onRoute. simpl. by rewrite <- app_assoc. }
    exists c'. split; [exact Hmove|]. split; [by rewrite He', <- app_assoc|].
    split; [by rewrite Hl', <- app_assoc|]. rewrite Hc' at 1. done.
Qed.

(** The same for a block that moves up, the lowest row first: the entry
    in front of the block ends up behind it. *)
Lemma moveRows_up_block (block : list FlightplanEntry) :
  forall (pre post : list FlightplanEntry) (x : FlightplanEntry)
         (lpre lblock lpost : list RouteLeg) (lx : RouteLeg) (c : RouteController),
    entries (flightplan (route c)) = pre ++ x :: block ++ post ->
    legs (route c) = lpre ++ lx :: lblock ++ lpost ->
    length lpre = length pre -> length lblock = length block ->
    exists c',
      moveRows (-1) (seqZ (Z.of_nat (length pre) + 1) (Z.of_nat (length block))) c
      = Some c'
      /\ entries (flightplan (route c')) = pre ++ block ++ x :: post
      /\ legs (route c') = lpre ++ lblock ++ lx :: lpost
      /\ c' = onRoute (fun _ => route c') c.
Proof.
  induction block as [|y block IH];
    intros pre post x lpre lblock lpost lx c He Hl Hlpre Hlblock.
  - destruct lblock; [|done]. exists c. simpl in *. repeat split; try done.
    by destruct c.
  - destruct lblock as [|ly lblock]; [done|]. simpl in Hlblock.
    rewrite seqZ_cons by (simpl; lia). simpl length.
    replace (Z.pred (Z.of_nat (S (length block)))) with (Z.of_nat (length block)) by lia.
    simpl. simpl in He, Hl. rewrite He. rewrite QListMore_move_up. cbn [mbind option_bind].
    rewrite Hl, <- Hlpre, QListMore_move_up. cbn [mbind option_bind].
    set (c1 := onRoute (setLegs _) _).
    destruct (IH (pre ++ [y]) post x (lpre ++ [ly]) lblock lpost lx c1)
      as (c' & Hmove & He' & Hl' & Hc'); try done; try lia.
    { subst c1. rewrite route_onRoute. simpl. by rewrite <- app_assoc. }
    { subst c1. rewrite route_onRoute. simpl. by rewrite <- app_assoc. }
    { rewrite !length_app. simpl. lia. }
    exists c'. split.
    { replace (Z.of_nat (length (pre ++ [y])) + 1)
        with (Z.succ (Z.of_nat (length pre) + 1)) in Hmove
        by (rewrite length_app; simpl; lia).
      rewrite Hlpre. exact Hmove. }
    split; [by rewrite He', <- app_assoc|].
    split; [by rewrite Hl', <- app_assoc|]. rewrite Hc' at 1. done.
Qed.
End MoveRows.

Lemma erase_three_down (pre block post : list FlightplanEntry) (x : FlightplanEntry) :
  block <> [] ->
  let a := Z.of_nat (length pre) in
  let k := Z.of_nat (length block) in
  eraseAirwayEntries (a + k - 1 + 2)
    (eraseAirwayEntries (a + 1) (eraseAirwayEntries a (pre ++ x :: block ++ post)))
  = pre ++ setAirway EmptyString x :: eraseAirwayEntries 0 block
        ++ eraseAirwayEntries 0 post.
Proof.
  intros Hblock a k. subst a k.
  rewrite eraseAirwayEntries_app_r0, eraseAirwayEntries_head.
  set (x' := setAirway EmptyString x).
  replace (pre ++ x' :: block ++ post) with ((pre ++ [x']) ++ block ++ post)
    by (by rewrite <- app_assoc).
  replace (Z.of_nat (length pre) + 1) with (Z.of_nat (length (pre ++ [x'])))
    by (rewrite length_app; simpl; lia).
  rewrite eraseAirwayEntries_app_r0, eraseAirwayEntries_block by done.
  replace ((pre ++ [x']) ++ eraseAirwayEntries 0 block ++ post)
    with (((pre ++ [x']) ++ eraseAirwayEntries 0 block) ++ post)
    by (by rewrite <- !app_assoc).
  replace (Z.of_nat (length pre) + Z.of_nat (length block) - 1 + 2)
    with (Z.of_nat (length ((pre ++ [x']) ++ eraseAirwayEntries 0 block)))
    by (rewrite !length_app, eraseAirwayEntries_length; simpl; lia).
  rewrite eraseAirwayEntries_app_r0. by rewrite <- !app_assoc.
Qed.

Lemma erase_three_up (pre block post : list FlightplanEntry) (x : FlightplanEntry) :
  block <> [] ->
  let a := Z.of_nat (length pre) in
  let k := Z.of_nat (length block) in
  eraseAirwayEntries (a + 1 + k - 1 + 1)
    (eraseAirwayEntries (a + 1 + k - 1)
       (eraseAirwayEntries (a + 1 - 1) (pre ++ block ++ x :: post)))
  = pre ++ eraseAirwayEntries 0 block
        ++ setAirway EmptyString x :: eraseAirwayEntries 0 post.
Proof.
  intros Hblock a k. subst a k.
  replace (Z.of_nat (length pre) + 1 - 1) with (Z.of_nat (length pre)) by lia.
  rewrite eraseAirwayEntries_app_r0, eraseAirwayEntries_block by done.
  set (block' := eraseAirwayEntries 0 block).
  replace (pre ++ block' ++ x :: post) with ((pre ++ block') ++ x :: post)
    by (by rewrite <- app_assoc).
  replace (Z.of_nat (length pre) + 1 + Z.of_nat (length block) - 1)
    with (Z.of_nat (length (pre ++ block')))
    by (subst block'; rewrite length_app, eraseAirwayEntries_length; lia).
  rewrite eraseAirwayEntries_app_r0, eraseAirwayEntries_head.
  set (x' := setAirway EmptyString x).
  replace ((pre ++ block') ++ x' :: post) with (((pre ++ block') ++ [x']) ++ post)
    by (by rewrite <- !app_assoc).
  replace (Z.of_nat (length (pre ++ block')) + 1)
    with (Z.of_nat (length ((pre ++ block') ++ [x'])))
    by (rewrite !length_app; simpl; lia).
  rewrite eraseAirwayEntries_app_r0. by rewrite <- !app_assoc.
Qed.

Section MoveSteps.
Context `{RouteOps} `{!RecomputeLaws}.

Lemma moveSelectedLegsInternal_down_block (sm : list (Z * Z)) (c : RouteController)
    (pre block post : list FlightplanEntry) (x : FlightplanEntry)
    (lpre lblock lpost : list RouteLeg) (lx : RouteLeg) :
  entries (flightplan (route c)) = pre ++ block ++ x :: post ->
  legs (route c) = lpre ++ lblock ++ lx :: lpost ->
  length lpre = length pre -> length lblock = length block ->
  block <> [] ->
  concat (rowsOfRange <$> sm)
    ≡ₚ seqZ (Z.of_nat (length pre)) (Z.of_nat (length block)) ->
  exists c',
    moveSelectedLegsInternal MOVE_DOWN (Some sm) c = Some c'
    /\ entries (flightplan (route c'))
       = pre ++ setAirway EmptyString x :: eraseAirwayEntries 0 block
             ++ eraseAirwayEntries 0 post
    /\ legCore <$> legs (route c') = legCore <$> (lpre ++ lx :: lblock ++ lpost).
Proof.
  intros He Hl Hlpre Hlblock Hblock Hsel. unfold moveSelectedLegsInternal.
  rewrite bool_decide_eq_true_2 by done.
  rewrite (selectedRows_block sm _ _ true Hsel).
  assert (0 < Z.of_nat (length block)) as Hk by (destruct block; [done|simpl; lia]).
  set (rows := reverse (seqZ _ _)).
  assert (QList.isEmpty rows = false) as ->.
  { apply QList_isEmpty_length. subst rows. rewrite length_reverse, length_seqZ. lia. }
  cbv zeta.
  destruct (moveRows_down_block block pre post x lpre lblock lpost lx c
              He Hl Hlpre Hlblock) as (c1 & Hmove & He1 & Hl1 & _).
  fold rows in Hmove. simpl directionOffset. rewrite Hmove. clear Hmove.
  cbn [mbind option_bind].
  unfold QList.first, QList.last. subst rows.
  rewrite head_reverse, last_reverse, last_seqZ, head_seqZ by done.
  cbn [mbind option_bind].
  set (rows := reverse (seqZ _ _)).
  set (c2 := eraseAirway _ (eraseAirway _ (eraseAirway _ c1))).
  assert (entries (flightplan (route c2))
          = pre ++ setAirway EmptyString x :: eraseAirwayEntries 0 block
                ++ eraseAirwayEntries 0 post) as He2.
  { subst c2. rewrite !entries_eraseAirway, He1. by apply erase_three_down. }
  assert (legs (route c2) = lpre ++ lx :: lblock ++ lpost) as Hl2 by done.
  destruct (edit_tail (bool_decide (0 ∈ rows)) (preChange "Move Waypoints" MOVE c) c2)
    as (c' & Hc' & He' & Hl').
  exists c'. split; [exact Hc'|].
  rewrite He', Hl', He2, Hl2. split; [|done]. by destruct lpre.
Qed.

Lemma moveSelectedLegsInternal_up_block (sm : list (Z * Z)) (c : RouteController)
    (pre block post : list FlightplanEntry) (x : FlightplanEntry)
    (lpre lblock lpost : list RouteLeg) (lx : RouteLeg) :
  entries (flightplan (route c)) = pre ++ x :: block ++ post ->
  legs (route c) = lpre ++ lx :: lblock ++ lpost ->
  length lpre = length pre -> length lblock = length block ->
  block <> [] ->
  concat (rowsOfRange <$> sm)
    ≡ₚ seqZ (Z.of_nat (length pre) + 1) (Z.of_nat (length block)) ->
  exists c',
    moveSelectedLegsInternal MOVE_UP (Some sm) c = Some c'
    /\ entries (flightplan (route c'))
       = pre ++ eraseAirwayEntries 0 block
             ++ setAirway EmptyString x :: eraseAirwayEntries 0 post
    /\ legCore <$> legs (route c') = legCore <$> (lpre ++ lblock ++ lx :: lpost).
Proof.
  intros He Hl Hlpre Hlblock Hblock Hsel. unfold moveSelectedLegsInternal.
  rewrite bool_decide_eq_false_2 by done.
  rewrite (selectedRows_block sm _ _ false Hsel).
  assert (0 < Z.of_nat (length block)) as Hk by (destruct block; [done|simpl; lia]).
  set (rows := seqZ _ _).
  assert (QList.isEmpty rows = false) as ->.
  { apply QList_isEmpty_length. subst rows. rewrite length_seqZ. lia. }
  cbv zeta.
  destruct (moveRows_up_block block pre post x lpre lblock lpost lx c
              He Hl Hlpre Hlblock) as (c1 & Hmove & He1 & Hl1 & _).
  fold rows in Hmove. simpl directionOffset. rewrite Hmove. clear Hmove.
  cbn [mbind option_bind].
  unfold QList.first, QList.last. subst rows.
  rewrite last_seqZ, head_seqZ by done.
  cbn [mbind option_bind].
  set (rows := seqZ _ _).
  set (c2 := eraseAirway _ (eraseAirway _ (eraseAirway _ c1))).
  assert (entries (flightplan (route c2))
          = pre ++ eraseAirwayEntries 0 block
                ++ setAirway EmptyString x :: eraseAirwayEntries 0 post) as He2.
  { subst c2. rewrite !entries_eraseAirway, He1. by apply erase_three_up. }
  assert (legs (route c2) = lpre ++ lblock ++ lx :: lpost) as Hl2 by done.
  destruct (edit_tail (bool_decide (1 ∈ rows)) (preChange "Move Waypoints" MOVE c) c2)
    as (c' & Hc' & He' & Hl').
  exists c'. split; [exact Hc'|].
  rewrite He', Hl', He2, Hl2. split; [|done]. by destruct lpre, lblock.
Qed.
End MoveSteps.

Lemma fmap_split_block {A B} (f : A -> B) (l k1 k2 k3 : list A) (y : A) :
  f <$> l = f <$> (k1 ++ y :: k2 ++ k3) ->
  exists l1 x l2 l3,
    l = l1 ++ x :: l2 ++ l3
    /\ length l1 = length k1 /\ length l2 = length k2
    /\ f <$> l1 = f <$> k1 /\ f x = f y /\ f <$> l2 = f <$> k2 /\ f <$> l3 = f <$> k3.
Proof.
  rewrite fmap_app, fmap_cons, fmap_app. intros Hf.
  apply fmap_app_inv in Hf as (l1 & r & H1 & H2 & ->).
  symmetry in H2. apply fmap_cons_inv in H2 as (x & r' & Hx & H3 & ->).
  symmetry in H3. apply fmap_app_inv in H3 as (l2 & l3 & H2 & H3 & ->).
  exists l1, x, l2, l3. split; [done|].
  split; [by rewrite <- (length_fmap f l1), <- H1, length_fmap|].
  split; [by rewrite <- (length_fmap f l2), <- H2, length_fmap|]. done.
Qed.

(** X14.  Moving a selected block of rows down by one, the selection
    given as one range or in pieces and in any order: the entry and the
    leg behind the block end up in front of it, the block follows in its
    old order, everything else stays in place.  Airway names are cleared
    on the entry that jumped, on the first entry of the block and on the
    entry that now follows the block, and on no other entry; no entry is
    lost or doubled. *)
Theorem moveSelectedLegsDown_moves_block `{RouteOps} `{!RecomputeLaws}
    (sm : list (Z * Z)) (c : RouteController)
    (pre block post : list FlightplanEntry) (x : FlightplanEntry)
    (lpre lblock lpost : list RouteLeg) (lx : RouteLeg) :
  entries (flightplan (route c)) = pre ++ block ++ x :: post ->
  legs (route c) = lpre ++ lblock ++ lx :: lpost ->
  length lpre = length pre -> length lblock = length block ->
  block <> [] ->
  concat (rowsOfRange <$> sm)
    ≡ₚ seqZ (Z.of_nat (length pre)) (Z.of_nat (length block)) ->
  exists c',
    moveSelectedLegsDown (Some sm) c = Some c'
    /\ entries (flightplan (route c'))
       = pre ++ setAirway EmptyString x :: eraseAirwayEntries 0 block
             ++ eraseAirwayEntries 0 post
    /\ legCore <$> legs (route c') = legCore <$> (lpre ++ lx :: lblock ++ lpost)
    /\ setAirway EmptyString <$> entries (flightplan (route c'))
       ≡ₚ setAirway EmptyString <$> entries (flightplan (route c))
    /\ routeSize (route c') = routeSize (route c).
Proof.
  intros He Hl Hlpre Hlblock Hblock Hsel.
  destruct (moveSelectedLegsInternal_down_block sm c pre block post x lpre lblock
              lpost lx He Hl Hlpre Hlblock Hblock Hsel) as (c' & Hc' & He' & Hl').
  exists c'. split; [exact Hc'|]. split; [exact He'|]. split; [exact Hl'|]. split.
  - rewrite He', He. repeat (rewrite fmap_app || rewrite fmap_cons).
    rewrite !fmap_eraseAirwayEntries. apply Permutation_app_head.
    by rewrite Permutation_middle.
  - unfold routeSize, QList.size. f_equal.
    rewrite <- (length_fmap legCore), Hl', length_fmap, Hl, !length_app. simpl.
    rewrite !length_app. simpl. lia.
Qed.

(** X15.  Moving a selected block of rows up by one: the entry and the
    leg in front of the block end up behind it, the block keeps its order,
    everything else stays in place.  Airway names are cleared on the first
    entry of the block, on the entry that jumped and on the entry that now
    follows it, and on no other entry; no entry is lost or doubled. *)
Theorem moveSelectedLegsUp_moves_block `{RouteOps} `{!RecomputeLaws}
    (sm : list (Z * Z)) (c : RouteController)
    (pre block post : list FlightplanEntry) (x : FlightplanEntry)
    (lpre lblock lpost : list RouteLeg) (lx : RouteLeg) :
  entries (flightplan (route c)) = pre ++ x :: block ++ post ->
  legs (route c) = lpre ++ lx :: lblock ++ lpost ->
  length lpre = length pre -> length lblock = length block ->
  block <> [] ->
  concat (rowsOfRange <$> sm)
    ≡ₚ seqZ (Z.of_nat (length pre) + 1) (Z.of_nat (length block)) ->
  exists c',
    moveSelectedLegsUp (Some sm) c = Some c'
    /\ entries (flightplan (route c'))
       = pre ++ eraseAirwayEntries 0 block
             ++ setAirway EmptyString x :: eraseAirwayEntries 0 post
    /\ legCore <$> legs (route c') = legCore <$> (lpre ++ lblock ++ lx :: lpost)
    /\ setAirway EmptyString <$> entries (flightplan (route c'))
       ≡ₚ setAirway EmptyString <$> entries (flightplan (route c))
    /\ routeSize (route c') = routeSize (route c).
Proof.
  intros He Hl Hlpre Hlblock Hblock Hsel.
  destruct (moveSelectedLegsInternal_up_block sm c pre block post x lpre lblock
              lpost lx He Hl Hlpre Hlblock Hblock Hsel) as (c' & Hc' & He' & Hl').
  exists c'. split; [exact Hc'|]. split; [exact He'|]. split; [exact Hl'|]. split.
  - rewrite He', He. repeat (rewrite fmap_app || rewrite fmap_cons).
    rewrite !fmap_eraseAirwayEntries. apply Permutation_app_head.
    by rewrite Permutation_middle.
  - unfold routeSize, QList.size. f_equal.
    rewrite <- (length_fmap legCore), Hl', length_fmap, Hl, !length_app. simpl.
    rewrite !length_app. simpl. lia.
Qed.

(** X16.  Moving a block down and then, with the block still selected, up
    again brings every entry and every leg back to its old row.  What is
    lost are airway names: the first entry of the block, the entry behind
    the block and the entry after that one end up without, all other
    entries are as before. *)
Theorem move_down_then_up_restores_order `{RouteOps} `{!RecomputeLaws}
    (sm sm' : list (Z * Z)) (c : RouteController)
    (pre block post : list FlightplanEntry) (x : FlightplanEntry)
    (lpre lblock lpost : list RouteLeg) (lx : RouteLeg) :
  entries (flightplan (route c)) = pre ++ block ++ x :: post ->
  legs (route c) = lpre ++ lblock ++ lx :: lpost ->
  length lpre = length pre -> length lblock = length block ->
  block <> [] ->
  concat (rowsOfRange <$> sm)
    ≡ₚ seqZ (Z.of_nat (length pre)) (Z.of_nat (length block)) ->
  concat (rowsOfRange <$> sm')
    ≡ₚ seqZ (Z.of_nat (length pre) + 1) (Z.of_nat (length block)) ->
  exists c1 c2,
    moveSelectedLegsDown (Some sm) c = Some c1
    /\ moveSelectedLegsUp (Some sm') c1 = Some c2
    /\ entries (flightplan (route c2))
       = pre ++ eraseAirwayEntries 0 block
             ++ setAirway EmptyString x :: eraseAirwayEntries 0 post
    /\ setAirway EmptyString <$> entries (flightplan (route c2))
       = setAirway EmptyString <$> entries (flightplan (route c))
    /\ legCore <$> legs (route c2) = legCore <$> legs (route c).
Proof.
  intros He Hl Hlpre Hlblock Hblock Hsel Hsel'.
  destruct (moveSelectedLegsInternal_down_block sm c pre block post x lpre lblock
              lpost lx He Hl Hlpre Hlblock Hblock Hsel) as (c1 & Hc1 & He1 & Hl1).
  apply fmap_split_block in Hl1
    as (l1 & lx1 & l2 & l3 & Hl1 & Hlen1 & Hlen2 & Hf1 & Hfx & Hf2 & Hf3).
  assert (eraseAirwayEntries 0 block <> []) as Hblock'.
  { intros Hnil. apply (f_equal length) in Hnil.
    rewrite eraseAirwayEntries_length in Hnil. by destruct block. }
  destruct (moveSelectedLegsInternal_up_block sm' c1 pre (eraseAirwayEntries 0 block)
              (eraseAirwayEntries 0 post) (setAirway EmptyString x) l1 l2 l3 lx1
              He1 Hl1) as (c2 & Hc2 & He2 & Hl2); try done; try lia.
  { rewrite eraseAirwayEntries_length. lia. }
  { by rewrite eraseAirwayEntries_length. }
  exists c1, c2. split; [exact Hc1|]. split; [exact Hc2|].
  rewrite !eraseAirwayEntries_idemp in He2.
  split; [exact He2|]. split.
  - rewrite He2, He. repeat (rewrite fmap_app || rewrite fmap_cons).
    by rewrite !fmap_eraseAirwayEntries.
  - rewrite Hl2, Hl. repeat (rewrite fmap_app || rewrite fmap_cons).
    by rewrite Hf1, Hfx, Hf2, Hf3.
Qed.

Section MoveRuns.
#[local] Existing Instance World.ops.
Import World Samples.

Lemma run_move_down :
  exists c',
    moveSelectedLegsDown (Some [(1, 2)]) five = Some c'
    /\ entries (flightplan (route c'))
       = [entry "KJFK" EmptyString 0; entry "FIX" EmptyString 3;
          entry "WAYPT1" EmptyString 1; entry "WAYPT2" "J2" 2;
          entry "KLAX" EmptyString 4].
Proof.
  destruct (@moveSelectedLegsDown_moves_block World.ops World_recompute_laws
              [(1, 2)] five
              [entry "KJFK" EmptyString 0]
              [entry "WAYPT1" "J1" 1; entry "WAYPT2" "J2" 2]
              [entry "KLAX" EmptyString 4] (entry "FIX" "J3" 3)
              [legOfEntry (entry "KJFK" EmptyString 0)]
              [legOfEntry (entry "WAYPT1" "J1" 1); legOfEntry (entry "WAYPT2" "J2" 2)]
              [legOfEntry (entry "KLAX" EmptyString 4)]
              (legOfEntry (entry "FIX" "J3" 3))
              eq_refl eq_refl eq_refl eq_refl)
    as (c' & Hc' & He' & _).
  - discriminate.
  - reflexivity.
  - exists c'. split; [exact Hc' | exact He'].
Defined.

Lemma run_move_up :
  exists c',
    moveSelectedLegsUp (Some [(2, 3)]) five = Some c'
    /\ entries (flightplan (route c'))
       = [entry "KJFK" EmptyString 0; entry "WAYPT2" EmptyString 2;
          entry "FIX" "J3" 3; entry "WAYPT1" EmptyString 1;
          entry "KLAX" EmptyString 4].
Proof.
  destruct (@moveSelectedLegsUp_moves_block World.ops World_recompute_laws
              [(2, 3)] five
              [entry "KJFK" EmptyString 0]
              [entry "WAYPT2" "J2" 2; entry "FIX" "J3" 3]
              [entry "KLAX" EmptyString 4] (entry "WAYPT1" "J1" 1)
              [legOfEntry (entry "KJFK" EmptyString 0)]
              [legOfEntry (entry "WAYPT2" "J2" 2); legOfEntry (entry "FIX" "J3" 3)]
              [legOfEntry (entry "KLAX" EmptyString 4)]
              (legOfEntry (entry "WAYPT1" "J1" 1))
              eq_refl eq_refl eq_refl eq_refl)
    as (c' & Hc' & He' & _).
  - discriminate.
  - reflexivity.
  - exists c'. split; [exact Hc' | exact He'].
Defined.

Lemma run_move_down_up :
  exists c1 c2,
    moveSelectedLegsDown (Some [(1, 2)]) five = Some c1
    /\ moveSelectedLegsUp (Some [(3, 3); (2, 2)]) c1 = Some c2
    /\ entries (flightplan (route c2))
       = [entry "KJFK" EmptyString 0; entry "WAYPT1" EmptyString 1;
          entry "WAYPT2" "J2" 2; entry "FIX" EmptyString 3;
          entry "KLAX" EmptyString 4].
Proof.
  destruct (@move_down_then_up_restores_order World.ops World_recompute_laws
              [(1, 2)] [(3, 3); (2, 2)] five
              [entry "KJFK" EmptyString 0]
              [entry "WAYPT1" "J1" 1; entry "WAYPT2" "J2" 2]
              [entry "KLAX" EmptyString 4] (entry "FIX" "J3" 3)
              [legOfEntry (entry "KJFK" EmptyString 0)]
              [legOfEntry (entry "WAYPT1" "J1" 1); legOfEntry (entry "WAYPT2" "J2" 2)]
              [legOfEntry (entry "KLAX" EmptyString 4)]
              (legOfEntry (entry "FIX" "J3" 3))
              eq_refl eq_refl eq_refl eq_refl)
    as (c1 & c2 & Hc1 & Hc2 & He2 & _).
  - discriminate.
  - reflexivity.
  - vm_compute. apply perm_swap.
  - exists c1, c2. split; [exact Hc1|]. split; [exact Hc2 | exact He2].
Defined.
End MoveRuns.
(** ** The accepted route calculation *)

Section Replace.
Context `{RouteOps}.




End Replace.


Section ReplaceRuns.
#[local] Existing Instance World.ops.
Import World Samples.

End ReplaceRuns.
(** ** Inserting a plan file *)

Lemma insertEntriesBefore_splice (insertBefore : Z) (new es : list FlightplanEntry) :
  insertBefore <= QList.size es ->
  insertEntriesBefore insertBefore new es
  = take (Z.to_nat insertBefore) es ++ new ++ drop (Z.to_nat insertBefore) es.
Proof.
  unfold QList.size. intros Hi. unfold insertEntriesBefore.
  induction new as [|e new IH]; simpl.
  - by rewrite take_drop.
  - rewrite reverse_cons, foldl_app. simpl. rewrite IH.
    rewrite QList_insert_take_drop.
    rewrite take_app_length', drop_app_length' by (rewrite length_take; lia). done.
Qed.

Section InsertPlan.
Context `{RouteOps} `{FileOps} `{!RecomputeLaws} `{!LegLaws} `{!ProcedureLaws}
        `{!FileLaws}.

Lemma insertFlightplan_splice (filename : string) (insertBefore : Z)
    (c : RouteController) (loaded : Flightplan) :
  let es := entries (flightplan (route c)) in
  let n := QList.size es in
  let at_ := Z.to_nat (Z.min insertBefore n) in
  flightplanLoad filename = Some loaded ->
  length (legs (route c)) = length es ->
  0 <= insertBefore ->
  entries loaded <> [] ->
  procedureFree (route c) \/ 0 < insertBefore < n - 1 ->
  exists c',
    insertFlightplan filename insertBefore c = Some (true, c')
    /\ savedEntries (route c')
       = filter (fun e => noSave e = false)
           (take at_ es ++ entries loaded
            ++ (if decide (0 < insertBefore < n - 1)
                then eraseAirwayEntries 0 (drop at_ es) else drop at_ es)).
Proof.
  intros es n at_ Hload Hlen Hpos Hnew Hproc. unfold insertFlightplan.
  rewrite Hload.
  set (loaded' := setCruisingAltitude _ loaded).
  assert (entries loaded' = entries loaded) as Hent by done.
  assert (routeSize (route c) = n) as Hsize.
  { unfold routeSize, n, QList.size. by rewrite Hlen. }
  cbv zeta. rewrite Hsize.
  set (undoCommand := preChange _ _ _).
  assert (forall types,
    procedureFree (route c) ->
    flightplan (removeProcedureLegs types (route c)) = flightplan (route c)
    /\ legs (removeProcedureLegs types (route c)) = legs (route c)) as Hfree.
  { intros types Hf. by apply removeProcedureLegs_free. }
  set (inserted :=
    take at_ es ++ entries loaded
    ++ (if decide (0 < insertBefore < n - 1)
        then eraseAirwayEntries 0 (drop at_ es) else drop at_ es)).
  match goal with
  | |- exists c', (?step ≫= ?rest) = _ /\ _ =>
      assert (exists c1, step = Some c1
                         /\ entries (flightplan (route c1)) = inserted) as (c1 & -> & He1)
  end.
  { subst inserted at_.
    assert (n = Z.of_nat (length es)) as Hn by done.
    destruct (decide (insertBefore >= n)) as [Hge|Hlt].
    - eexists. split; [done|]. rewrite !route_onRoute. simpl.
      destruct Hproc as [Hf|?]; [|lia].
      destruct (Hfree PROCEDURE_ARRIVAL_ALL Hf) as [-> _]. fold es.
      rewrite ?Hent, decide_False by lia.
      replace (Z.to_nat (insertBefore `min` n)) with (length es) by lia.
      by rewrite take_ge, drop_ge, app_nil_r by lia.
    - destruct (decide (insertBefore = 0)) as [->|Hne].
      + rewrite Hent. destruct (entries loaded) as [|e0 new] eqn:Hl'; [done|].
        cbn [QList.first head mbind option_bind].
        eexists. split; [done|]. rewrite !route_onRoute. simpl.
        destruct Hproc as [Hf|?]; [|lia].
        destruct (Hfree PROCEDURE_DEPARTURE Hf) as [-> _]. fold es.
        rewrite insertEntriesBefore_splice by (unfold QList.size; lia).
        rewrite ?Hent, ?Hl'.
        replace (Z.to_nat (0 `min` n)) with 0%nat by lia. done.
      + destruct (decide (insertBefore >= n - 1)) as [Hge|Hlt'].
        * cbn [mbind option_bind]. eexists. split; [done|].
          rewrite !route_onRoute. simpl.
          destruct Hproc as [Hf|?]; [|lia].
          destruct (Hfree PROCEDURE_ARRIVAL_ALL Hf) as [Hfp Hlg].
          rewrite Hfp. unfold routeSize, QList.size. rewrite Hlg, Hlen. fold es.
          rewrite insertEntriesBefore_splice by (unfold QList.size; lia).
          rewrite decide_False by lia. rewrite ?Hent.
          replace (Z.to_nat (insertBefore `min` n))
            with (Z.to_nat (Z.of_nat (length es) - 1)) by lia.
          done.
        * cbn [mbind option_bind]. eexists. split; [done|].
          rewrite !route_onRoute.
          simpl. fold es.
          rewrite insertEntriesBefore_splice
            by (unfold QList.size; rewrite eraseAirwayEntries_length; lia).
          rewrite decide_True by lia. rewrite ?Hent.
          replace (Z.to_nat (insertBefore `min` n)) with (Z.to_nat insertBefore) by lia.
          rewrite eraseAirwayEntries_alter by lia.
          rewrite take_alter_ge, drop_alter_ge by lia.
          rewrite Nat.sub_diag. by rewrite eraseAirwayEntries_alter. }
  cbn [mbind option_bind]. eexists. split; [done|].
  rewrite route_postChange, route_updateTableModel, !route_onRoute.
  rewrite savedEntries_filter, updateActiveLegAndPos_flightplan,
    updateAirwaysAndAltitude_flightplan, updateAll_flightplan.
  rewrite <- savedEntries_filter, savedEntries_loadProceduresFromFlightplan.
  rewrite savedEntries_filter, createRouteLegsFromFlightplan_flightplan,
    clearProcedureLegs_flightplan, clearProcedures_flightplan.
  simpl. rewrite He1. apply filter_saved_idemp.
Qed.
End InsertPlan.

Lemma length_filter_eraseAirwayEntries row (es : list FlightplanEntry) :
  length (filter (fun e => noSave e = false) (eraseAirwayEntries row es))
  = length (filter (fun e => noSave e = false) es).
Proof.
  destruct (decide (0 <= row)) as [Hrow|Hrow].
  2:{ by rewrite eraseAirwayEntries_outside by lia. }
  rewrite eraseAirwayEntries_alter by done. generalize (Z.to_nat row). clear.
  intros i. revert i. induction es as [|e es IH]; intros [|i]; try done.
  - change (alter (setAirway EmptyString) 0%nat (e :: es))
      with (setAirway EmptyString e :: es).
    rewrite !filter_cons. simpl noSave. by case_decide.
  - change (alter (setAirway EmptyString) (S i) (e :: es))
      with (e :: alter (setAirway EmptyString) i es).
    rewrite !filter_cons. case_decide; [rewrite !length_cons; f_equal|]; apply IH.
Qed.

(** X18.  [insertFlightplan] puts the entries of the loaded plan into the
    flight plan as one block and in the order of the file, although it
    inserts them one by one from the last to the first: behind all entries
    when the position is the number of legs or more, in front of all for
    position 0, in front of the last entry for the last position, and else
    in front of the entry at the position, which then loses its airway
    name.  All other entries keep their order and none is lost.  Holds on
    a route without procedures and for every position strictly inside any
    route. *)
Theorem insertFlightplan_inserts_in_file_order `{RouteOps} `{FileOps}
    `{!RecomputeLaws} `{!LegLaws} `{!ProcedureLaws} `{!FileLaws}
    (filename : string) (insertBefore : Z) (c : RouteController) (loaded : Flightplan) :
  let es := entries (flightplan (route c)) in
  let n := QList.size es in
  let at_ := Z.to_nat (Z.min insertBefore n) in
  flightplanLoad filename = Some loaded ->
  length (legs (route c)) = length es ->
  0 <= insertBefore ->
  entries loaded <> [] ->
  procedureFree (route c) \/ 0 < insertBefore < n - 1 ->
  exists c',
    insertFlightplan filename insertBefore c = Some (true, c')
    /\ savedEntries (route c')
       = filter (fun e => noSave e = false)
           (take at_ es ++ entries loaded
            ++ (if decide (0 < insertBefore < n - 1)
                then eraseAirwayEntries 0 (drop at_ es) else drop at_ es))
    /\ length (savedEntries (route c'))
       = (length (savedEntries (route c))
          + length (filter (fun e => noSave e = false) (entries loaded)))%nat.
Proof.
  intros es n at_ Hload Hlen Hpos Hnew Hproc.
  destruct (insertFlightplan_splice filename insertBefore c loaded
              Hload Hlen Hpos Hnew Hproc) as (c' & Hc' & He').
  exists c'. split; [exact Hc'|]. split; [exact He'|].
  rewrite He'. fold es n at_. rewrite !filter_app, !length_app.
  rewrite savedEntries_filter. fold es.
  assert (filter (fun e => noSave e = false) es
          = filter (fun e => noSave e = false) (take at_ es)
            ++ filter (fun e => noSave e = false) (drop at_ es)) as ->.
  { by rewrite <- filter_app, take_drop. }
  rewrite length_app.
  destruct (decide (0 < insertBefore < n - 1));
    [rewrite length_filter_eraseAirwayEntries|]; lia.
Qed.

Section InsertPlanRuns.
#[local] Existing Instance World.ops.
#[local] Existing Instance WorldFiles.ops.
Import World Samples WorldFiles.

Lemma WorldFiles_laws : @FileLaws World.ops WorldFiles.ops.
Proof. by split. Qed.

Lemma run_insert_flightplan :
  exists c',
    insertFlightplan "legs.pln" 2 five = Some (true, c')
    /\ savedEntries (route c')
       = [entry "KJFK" EmptyString 0; entry "WAYPT1" "J1" 1;
          entry "WAYPT2" "J5" 5; entry "FIX" "J7" 6;
          entry "WAYPT2" EmptyString 2; entry "FIX" "J3" 3;
          entry "KLAX" EmptyString 4]
    /\ length (savedEntries (route c')) = (length (savedEntries (route five)) + 2)%nat.
Proof.
  refine (@insertFlightplan_inserts_in_file_order World.ops WorldFiles.ops
            World_recompute_laws World_leg_laws World_procedure_laws WorldFiles_laws
            "legs.pln" 2 five legsFile eq_refl eq_refl _ _ (or_introl five_procedureFree)).
  - lia.
  - discriminate.
Defined.
End InsertPlanRuns.
(** ** Smaller facts *)

Lemma elem_of_concat {A} (x : A) (ls : list (list A)) :
  x ∈ concat ls <-> exists l, l ∈ ls /\ x ∈ l.
Proof.
  induction ls as [|l ls IH]; simpl.
  - split; [by intros ?%elem_of_nil | by intros (l & ?%elem_of_nil & _)].
  - rewrite elem_of_app, IH. split.
    + intros [Hx|(l' & Hl' & Hx)]; [exists l | exists l']; split; try done.
      * by left.
      * by right.
    + intros (l' & [->|Hl']%elem_of_cons & Hx); [by left | right; eauto].
Qed.

(** X19.  [selectedRows] yields exactly the rows of the selected ranges,
    each as often as the ranges hold it, in ascending order, or in
    descending order when asked for the reverse; without a selection
    model, or with an empty selection, it yields no row. *)
Theorem selectedRows_sorted_rows (selection : ItemSelection) (reverseOrder : bool) :
  let ranges := default [] selection in
  let rows := selectedRows selection reverseOrder in
  rows ≡ₚ concat (rowsOfRange <$> ranges)
  /\ Sorted (if reverseOrder then flip Z.le else Z.le) rows
  /\ forall row, row ∈ rows <-> exists rng, rng ∈ ranges /\ rng.1 <= row <= rng.2.
Proof.
  intros ranges rows.
  assert (rows ≡ₚ concat (rowsOfRange <$> ranges)
          /\ Sorted (if reverseOrder then flip Z.le else Z.le) rows) as [Hperm Hsort].
  { subst rows ranges. unfold selectedRows.
    destruct selection as [sm|]; simpl.
    2:{ split; [done|]. destruct reverseOrder; constructor. }
    destruct (concat (rowsOfRange <$> sm)) as [|row rest] eqn:Hrows; simpl.
    { split; [done|]. destruct reverseOrder; constructor. }
    destruct reverseOrder.
    - split; [by rewrite reverse_Permutation, merge_sort_Permutation|].
      apply Sorted_reverse, Sorted_merge_sort. apply _.
    - split; [by rewrite merge_sort_Permutation|].
      apply Sorted_merge_sort. apply _. }
  split; [done|]. split; [done|].
  intros row. rewrite Hperm, elem_of_concat. split.
  - intros (l & (rng & -> & Hrng)%list_elem_of_fmap & Hrow).
    exists rng. split; [done|]. unfold rowsOfRange in Hrow.
    apply elem_of_seqZ in Hrow. lia.
  - intros (rng & Hrng & Hrow). exists (rowsOfRange rng).
    split; [apply list_elem_of_fmap; eauto|].
    unfold rowsOfRange. apply elem_of_seqZ. lia.
Qed.

(** X20.  The insert position that [calculateInsertIndex] yields lies
    between 0 and the number of legs whenever it is asked to append, to
    find the place itself or to insert behind an existing leg, provided
    the nearest leg that the route reports is one of its legs.  Asked to
    append it yields the number of legs; asked to find the place in a plan
    without entries or with one entry it yields that number of entries. *)
Theorem calculateInsertIndex_within_route `{RouteOps}
    (pos : Pos) (legIndex : Z) (r : Route) :
  length (legs r) = length (entries (flightplan r)) ->
  (legIndex = INVALID_INDEX_VALUE \/ -1 <= legIndex < routeSize r) ->
  0 <= (getNearestRouteLegResult pos true r).1 < Z.max 1 (routeSize r) ->
  let insertIndex := calculateInsertIndex pos legIndex r in
  0 <= insertIndex <= routeSize r
  /\ (legIndex = INVALID_INDEX_VALUE -> insertIndex = routeSize r)
  /\ (legIndex <> INVALID_INDEX_VALUE -> legIndex = -1 -> routeSize r <= 1 ->
      insertIndex = routeSize r).
Proof.
  intros Hlen Hleg Hnear insertIndex. subst insertIndex.
  unfold calculateInsertIndex, routeSize, QList.size in *. rewrite Hlen in *.
  destruct (decide (legIndex = INVALID_INDEX_VALUE)) as [Hinv|Hinv].
  { split; [lia|]. split; [done|]. done. }
  destruct Hleg as [?|Hleg]; [done|].
  destruct (decide (legIndex = -1)) as [->|Hm1].
  2:{ split; [lia|]. split; done. }
  destruct (entries (flightplan r)) as [|e0 [|e1 es]] eqn:He; simpl.
  { split; [lia|]. split; [done|]. done. }
  { split; [lia|]. split; [done|]. done. }
  simpl in Hnear.
  destruct (getNearestRouteLegResult pos true r) as [nearest status].
  simpl in Hnear. split.
  - destruct status; repeat case_decide; lia.
  - split; [done|]. intros _ _ Hn. simpl in Hn. lia.
Qed.

(** X21.  Clearing airway names composes freely: clearing the same row
    twice is the same as clearing it once, and two rows can be cleared in
    either order. *)
Theorem eraseAirway_idempotent_and_commutes `{RouteOps} (row row' : Z)
    (c : RouteController) :
  eraseAirway row (eraseAirway row c) = eraseAirway row c
  /\ eraseAirway row (eraseAirway row' c) = eraseAirway row' (eraseAirway row c).
Proof.
  destruct c as [[fp ls dl sl] st ui uc ff alt ty].
  unfold eraseAirway, eraseAirwayRoute, onRoute, onEntries, onFlightplan, setRoute,
    setFlightplan, setEntries. simpl.
  rewrite eraseAirwayEntries_idemp.
  by rewrite (eraseAirwayEntries_comm row row').
Qed.

Section AltitudeChange.
Context `{RouteOps}.

Lemma routeIsEmpty_legs r : routeIsEmpty r = true <-> legs r = [].
Proof. unfold routeIsEmpty. by destruct (legs r). Qed.
End AltitudeChange.

(** X22.  A change of the cruise altitude or of the plan type in the
    widgets always reaches the flight plan, but it is recorded for undo
    only when the route has legs: on an empty route the undo stack, the
    undo counters and the change mark stay as they are; on a route with
    legs a command that does not merge marks the plan as changed. *)
Theorem widget_changes_are_recorded_only_with_legs `{RouteOps} (c : RouteController) :
  let planType := if decide (comboBoxRouteType c = 0) then IFR else VFR in
  (forall c', c' = routeAltChanged c \/ c' = routeTypeChanged c ->
     cruisingAltitude (flightplan (route c')) = spinBoxRouteAlt c
     /\ flightplanType (flightplan (route c')) = planType
     /\ entries (flightplan (route c')) = entries (flightplan (route c))
     /\ legs (route c') = legs (route c))
  /\ (legs (route c) = [] ->
      routeAltChanged c = updateFlightplanFromWidgets c
      /\ routeTypeChanged c = updateFlightplanFromWidgets c
      /\ undoStack (routeAltChanged c) = undoStack c
      /\ hasChanged (routeAltChanged c) = hasChanged c)
  /\ (legs (route c) <> [] ->
      (pushesNew ALTITUDE (undoStack c) -> hasChanged (routeAltChanged c) = true)
      /\ (pushesNew EDIT (undoStack c) -> hasChanged (routeTypeChanged c) = true)).
Proof.
  intros planType. split; [|split].
  - intros c' [-> | ->]; unfold routeAltChanged, routeTypeChanged; cbv zeta;
      rewrite route_postChange; done.
  - intros Hl. apply routeIsEmpty_legs in Hl.
    unfold routeAltChanged, routeTypeChanged. rewrite Hl. done.
  - intros Hl. assert (routeIsEmpty (route c) = false) as Hne.
    { destruct (routeIsEmpty (route c)) eqn:E; [|done].
      by apply routeIsEmpty_legs in E. }
    unfold routeAltChanged, routeTypeChanged. rewrite Hne. simpl negb. cbv iota zeta.
    split; intros Hnew; apply hasChanged_true;
      rewrite undoIndexClean_postChange, undoIndex_postChange_new by done;
      (case_decide; [by left | right; unfold updateFlightplanFromWidgets in *;
                                simpl in *; lia]).
Qed.

(** X23.  Outside an undo step [updateStartPositionBestRunway] touches
    nothing but the start position of the first leg and the header that
    [routeToFlightPlan] derives: the entries, all legs behind the first,
    the kind, airport, position and procedure tag of the first leg, the
    undo stack and both undo counters stay.  When the route has no valid
    departure, or nothing is changed, the controller is returned as it
    is. *)
Theorem updateStartPositionBestRunway_touches_start_only `{RouteOps}
    `{!RecomputeLaws} (force : bool) (c : RouteController) :
  exists changed c',
    updateStartPositionBestRunway force false c = Some (changed, c')
    /\ entries (flightplan (route c')) = entries (flightplan (route c))
    /\ drop 1 (legs (route c')) = drop 1 (legs (route c))
    /\ legCore <$> legs (route c') = legCore <$> legs (route c)
    /\ undoStack c' = undoStack c /\ undoIndex c' = undoIndex c
    /\ undoIndexClean c' = undoIndexClean c
    /\ (changed = false -> c' = c)
    /\ (hasValidDeparture (route c) = false -> changed = false).
Proof.
  destruct (updateStartPositionBestRunway_cases force c)
    as [Hu|(start & firstLeg & rest & Hl & Hu)].
  - exists false, c. by rewrite Hu.
  - eexists true, _. split; [exact Hu|].
    rewrite !route_onRoute, routeToFlightPlan_legs.
    rewrite routeToFlightPlan_entries by done.
    simpl. rewrite Hl. simpl. rewrite !drop_0. repeat split; try done.
    intros Hv. unfold updateStartPositionBestRunway in Hu. by rewrite Hv in Hu.
Qed.

Section SmallRuns.
#[local] Existing Instance World.ops.
Import World Samples.

Lemma run_insert_index :
  0 <= calculateInsertIndex (onParallel 2) 1 (route three) <= routeSize (route three).
Proof.
  apply (calculateInsertIndex_within_route (onParallel 2) 1 (route three)).
  - reflexivity.
  - right. vm_compute. split; [discriminate | reflexivity].
  - vm_compute. split; [discriminate | reflexivity].
Defined.

Lemma run_start_position :
  exists changed c',
    updateStartPositionBestRunway true false three = Some (changed, c')
    /\ entries (flightplan (route c')) = entries (flightplan (route three))
    /\ drop 1 (legs (route c')) = drop 1 (legs (route three))
    /\ legCore <$> legs (route c') = legCore <$> legs (route three)
    /\ undoStack c' = undoStack three /\ undoIndex c' = undoIndex three
    /\ undoIndexClean c' = undoIndexClean three
    /\ (changed = false -> c' = three)
    /\ (hasValidDeparture (route three) = false -> changed = false).
Proof.
  exact (@updateStartPositionBestRunway_touches_start_only World.ops
           World_recompute_laws true three).
Defined.
End SmallRuns.
(** ** The file name of the plan *)

(** X24.  After [saveFlightplan], whether the file was written or not, a
    plan with a file name matches its file for every format, as long as
    the exported copy has the header of the plan: a later save needs no
    new name.  After [newFlightplan] no format matches, there is no file
    name. *)
Theorem doesFilenameMatchRoute_after_save `{RouteOps} `{FileOps}
    (format : FileFormat) (c c' : RouteController) (f f' : RouteFile) (ok : bool) :
  let exported := flightplan (routeAdjustedToProcedureOptions (route c)) in
  saveFlightplan false (c, f) = Some (ok, (c', f')) ->
  routeFilename f <> EmptyString ->
  departureIdent exported = departureIdent (flightplan (route c)) ->
  destinationIdent exported = destinationIdent (flightplan (route c)) ->
  flightplanType exported = flightplanType (flightplan (route c)) ->
  doesFilenameMatchRoute format (c', f') = true
  /\ doesFilenameMatchRoute format (newFlightplan (c', f')) = false.
Proof.
  intros exported Hsave Hname Hdep Hdest Htype. split.
  - pose proof (saveFlightplan_cases _ _ _ _ _ _ Hsave) as (Hr & _).
    unfold saveFlightplan in Hsave.
    destruct (QList.last (legs (route c))) as [l|]; [|done]. simpl in Hsave.
    assert (f' = mkRouteFile (routeFilename f) (departureIdent exported)
                   (destinationIdent exported) (flightplanType exported)) as ->.
    { destruct (flightplanSave _ _ _); by simplify_eq. }
    unfold doesFilenameMatchRoute. rewrite Hr. simpl.
    rewrite bool_decide_eq_false_2 by done. simpl.
    rewrite Hdep, Hdest, Htype, !bool_decide_eq_true_2 by done.
    by destruct guiAvoidOverwriteFlightplan, format.
  - unfold doesFilenameMatchRoute, newFlightplan, clearRoute. done.
Qed.

(** X25.  The widgets and the plan go round, up to the range of the
    altitude widget.  For a plan with entries, what [updateTableModel]
    writes into the two widgets is what [updateFlightplanFromWidgets] reads
    back: the plan type, the entries and the legs are the same afterwards,
    and so is the cruise altitude when it lies within the range of the
    widget; an altitude below the range comes back as the minimum and one
    above it as the maximum.  The other way round the altitude widget
    keeps a value of its range and the type widget keeps its index when it
    shows one of its two items. *)
Theorem widgets_and_plan_round_trip `{RouteOps} (c : RouteController) :
  let fp := flightplan (route c) in
  let c' := updateFlightplanFromWidgets (updateTableModel c) in
  let fp' := flightplan (route c') in
  let c'' := updateTableModel (updateFlightplanFromWidgets c) in
  spinBoxRouteAltMinimum <= spinBoxRouteAltMaximum ->
  (entries fp <> [] ->
   flightplanType fp' = flightplanType fp
   /\ entries fp' = entries fp
   /\ legs (route c') = legs (route c)
   /\ (spinBoxRouteAltMinimum <= cruisingAltitude fp <= spinBoxRouteAltMaximum ->
       cruisingAltitude fp' = cruisingAltitude fp)
   /\ (cruisingAltitude fp < spinBoxRouteAltMinimum ->
       cruisingAltitude fp' = spinBoxRouteAltMinimum)
   /\ (spinBoxRouteAltMaximum < cruisingAltitude fp ->
       cruisingAltitude fp' = spinBoxRouteAltMaximum))
  /\ (spinBoxRouteAltMinimum <= spinBoxRouteAlt c <= spinBoxRouteAltMaximum ->
      spinBoxRouteAlt c'' = spinBoxRouteAlt c)
  /\ (comboBoxRouteType c = 0 \/ comboBoxRouteType c = 1 ->
      comboBoxRouteType c'' = comboBoxRouteType c).
Proof.
  intros fp c' fp' c'' Hrange. subst fp c' fp' c''.
  destruct c as [[[es rt ft alt ff di de dn den ds ti] ls dl sl] st ui uc rff salt sty].
  unfold updateFlightplanFromWidgets, updateTableModel, spinBoxSetValue. simpl.
  split; [|split].
  - intros Hes. destruct es as [|e es]; [done|]. simpl.
    split; [by destruct ft|]. split; [done|]. split; [done|].
    split; [|split]; intros Halt; repeat case_decide; lia.
  - intros Halt. destruct es; simpl; [done|]. repeat case_decide; lia.
  - intros [-> | ->]; by destruct es.
Qed.

Section MoreRuns.
#[local] Existing Instance World.ops.
#[local] Existing Instance WorldFiles.ops.
Import World Samples WorldFiles.

Lemma run_filename_matches :
  exists c' f',
    saveFlightplan false (three, mkRouteFile "plan.pln" EmptyString EmptyString VFR)
    = Some (true, (c', f'))
    /\ doesFilenameMatchRoute PLN_FSX (c', f') = true.
Proof.
  eexists _, _.
  assert (saveFlightplan false (three, mkRouteFile "plan.pln" EmptyString EmptyString VFR)
          = Some (true, (_, _))) as Hsave by (vm_compute; reflexivity).
  split; [exact Hsave|].
  apply (doesFilenameMatchRoute_after_save PLN_FSX _ _ _ _ _ Hsave);
    [discriminate | reflexivity | reflexivity | reflexivity].
Defined.

Lemma run_whole_procedure :
  includesFlags (affectedProcedures [2] (route arrival)) PROCEDURE_STAR_ALL.
Proof.
  assert (2 ∈ [2]) as Hin by constructor.
  destruct (affectedProcedures_takes_whole_procedures [2] (route arrival) 2 Hin)
    as (_ & _ & Hleg).
  destruct (Hleg (procedureLegOf PROCEDURE_STAR (procedureEntry "STAR1" 2)) eq_refl)
    as (_ & Hstar & _).
  apply Hstar. reflexivity.
Defined.

Lemma run_no_procedure :
  affectedProcedures [1; 2] (route five) = PROCEDURE_NONE.
Proof.
  apply (proj2 (affectedProcedures_none_iff_interior_free [1; 2] (route five))).
  intros index Hin.
  repeat (apply elem_of_cons in Hin as [->|Hin];
          [split; [discriminate|]; split; [reflexivity|];
           intros l Hl; vm_compute in Hl; simplify_eq; reflexivity|]).
  by apply elem_of_nil in Hin.
Defined.

Lemma run_selected_rows :
  let ranges := [(3, 3); (1, 2)] in
  let rows := selectedRows (Some ranges) true in
  rows ≡ₚ concat (rowsOfRange <$> ranges)
  /\ Sorted (flip Z.le) rows
  /\ forall row, row ∈ rows <-> exists rng, rng ∈ ranges /\ rng.1 <= row <= rng.2.
Proof. exact (selectedRows_sorted_rows (Some [(3, 3); (1, 2)]) true). Defined.

Lemma run_altitude_change : hasChanged (routeAltChanged three) = true.
Proof.
  destruct (widget_changes_are_recorded_only_with_legs three) as (_ & _ & Hlegs).
  destruct Hlegs as [Halt _]; [discriminate|].
  apply Halt. intros top Htop. discriminate Htop.
Defined.

(** A plan at 70000 where the widget ends at 60000: the round trip brings
    60000 into the plan. *)
Lemma run_widgets_round_trip :
  let high := onRoute (onFlightplan (setCruisingAltitude 70000)) three in
  cruisingAltitude (flightplan (route high)) = 70000
  /\ cruisingAltitude
       (flightplan (route (updateFlightplanFromWidgets (updateTableModel high))))
     = 60000.
Proof.
  split; [reflexivity|].
  destruct (widgets_and_plan_round_trip
              (onRoute (onFlightplan (setCruisingAltitude 70000)) three))
    as ((_ & _ & _ & _ & _ & Hmax) & _).
  - vm_compute. discriminate.
  - discriminate.
  - apply Hmax. reflexivity.
Defined.
End MoreRuns.
